(** * Sales-deck backend: a shallow embedding of [sales_deck_backend.py]

    The development follows the Python module top to bottom: the values
    that travel through it (decoded JSON, exceptions, responses), the
    process-wide state it mutates (the [generated_files] dictionary, the
    files under [temp_files], the logger), a state-and-exception monad in
    which the functions of the module are written statement for statement,
    the same functions cut into the library calls between which another
    thread may run, and finally the properties of those functions.

    Conventions.
    - A Python [str] is a [string]; one [ascii] is one character (a code
      point below 256).  Byte strings ([bytes]) are [string]s as well.
    - Points in time ([datetime]) are integers counting microseconds, the
      resolution of [datetime]; a [timedelta] is their difference.
    - Everything the module obtains from libraries or from outside the
      process (the JSON decoder, the base64 decoder, the text-generation
      service, the UUID generator, the wall clock, file permissions) is a
      field of the record [Env]; the functions below are defined for an
      arbitrary [Env].
    - An exception does not undo what was done before it was raised: a
      statement maps a state to an outcome and a state. *)

From stdpp Require Import gmap strings list.
From Stdlib Require Import ZArith Ascii.

Local Open Scope Z_scope.
Set Warnings "-register-all".

(** ** Python values *)

(** What [json.loads] and [request.get_json] return.  A [JObj] is a [dict],
    listed in insertion order with pairwise distinct keys.  Of a [float] the
    module can only observe whether it is zero. *)
Inductive json :=
| JNull
| JBool (b : bool)
| JInt (n : Z)
| JFloat (nonzero : bool)
| JStr (s : string)
| JArr (items : list json)
| JObj (members : list (string * json)).

(** [type(v).__name__] *)
Definition py_type (v : json) : string :=
  match v with
  | JNull => "NoneType"
  | JBool _ => "bool"
  | JInt _ => "int"
  | JFloat _ => "float"
  | JStr _ => "str"
  | JArr _ => "list"
  | JObj _ => "dict"
  end.

(** Exceptions.  Every one of them derives from Python's [Exception]; in
    particular werkzeug's [HTTPException], which is what [abort] raises. *)
Inductive exn :=
| HTTPException (code : Z)
| AttributeError (ty attr : string)
| TypeError (ty reason : string)
| ValueError (msg : string)
| JSONDecodeError
| KeyError (key : string)
| OSError (file : string)
| RuntimeError (msg : string)
| ServiceError (detail : string).

(** *** Strings *)

Definition chars (s : string) : list ascii := String.list_ascii_of_string s.
Definition text (l : list ascii) : string := String.string_of_list_ascii l.

(** [c.isspace()] for a code point below 256. *)
Definition isspace (c : ascii) : bool :=
  let n := nat_of_ascii c in
  ((9 <=? n) && (n <=? 13) || (28 <=? n) && (n <=? 32)
   || (n =? 133) || (n =? 160))%nat.

Fixpoint lstrip_chars (l : list ascii) : list ascii :=
  match l with
  | c :: l' => if isspace c then lstrip_chars l' else l
  | [] => []
  end.

(** [s.strip()] *)
Definition strip (s : string) : string :=
  text (rev (lstrip_chars (rev (lstrip_chars (chars s))))).

(** [len(s)] *)
Definition len (s : string) : Z := Z.of_nat (String.length s).

(** [s.replace(a, b)] for one-character [a] and [b]. *)
Definition replace (a b : ascii) (s : string) : string :=
  text (map (fun c => if Ascii.eqb c a then b else c) (chars s)).

(** [sep in s] for a one-character [sep]. *)
Definition contains (sep : ascii) (s : string) : bool :=
  existsb (Ascii.eqb sep) (chars s).

Fixpoint upto (sep : ascii) (l : list ascii) : list ascii :=
  match l with
  | c :: l' => if Ascii.eqb c sep then [] else c :: upto sep l'
  | [] => []
  end.

Fixpoint after (sep : ascii) (l : list ascii) : option (list ascii) :=
  match l with
  | c :: l' => if Ascii.eqb c sep then Some l' else after sep l'
  | [] => None
  end.

(** [s.split(sep)[1]]: the text between the first and the second [sep];
    [None] stands for the [IndexError] when [s] holds no [sep]. *)
Definition split_second (sep : ascii) (s : string) : option string :=
  match after sep (chars s) with
  | Some l => Some (text (upto sep l))
  | None => None
  end.

Fixpoint from_first (c : ascii) (l : list ascii) : option (list ascii) :=
  match l with
  | x :: l' => if Ascii.eqb x c then Some l else from_first c l'
  | [] => None
  end.

(** [re.search(r'\{.*\}', s, re.DOTALL)]: the match starts at the first
    opening brace and, the star being greedy and the dot matching every
    character, ends at the last closing brace after it. *)
Definition search_braces (s : string) : option string :=
  match from_first "{"%char (chars s) with
  | Some (_ :: l) =>
      match from_first "}"%char (rev l) with
      | Some r => Some (text ("{"%char :: rev r))
      | None => None
      end
  | _ => None
  end.

(** *** Dictionaries, truth values, iteration *)

Fixpoint lookup_key {A} (k : string) (d : list (string * A)) : option A :=
  match d with
  | (k', v) :: d' => if String.eqb k k' then Some v else lookup_key k d'
  | [] => None
  end.

(** [k in d] *)
Definition has_key {A} (k : string) (d : list (string * A)) : bool :=
  match lookup_key k d with Some _ => true | None => false end.

(** [del d[k]] on the item list. *)
Fixpoint remove_key {A} (k : string) (d : list (string * A)) : list (string * A) :=
  match d with
  | (k', v) :: d' => if String.eqb k k' then d' else (k', v) :: remove_key k d'
  | [] => []
  end.

(** [d[k] = v]: a key already present keeps its place, a new key goes last. *)
Fixpoint set_key {A} (k : string) (v : A) (d : list (string * A)) : list (string * A) :=
  match d with
  | (k', v') :: d' => if String.eqb k k' then (k, v) :: d' else (k', v') :: set_key k v d'
  | [] => [(k, v)]
  end.

(** [bool(v)] *)
Definition truthy (v : json) : bool :=
  match v with
  | JNull => false
  | JBool b => b
  | JInt n => negb (n =? 0)
  | JFloat nonzero => nonzero
  | JStr s => negb (String.eqb s "")
  | JArr l => match l with [] => false | _ => true end
  | JObj d => match d with [] => false | _ => true end
  end.

(** [iter(v)]: the items a [for] loop over [v] visits; a string yields its
    characters, a dictionary its keys. *)
Definition py_iter (v : json) : exn + list json :=
  match v with
  | JArr l => inr l
  | JStr s => inr (map (fun c => JStr (String c EmptyString)) (chars s))
  | JObj d => inr (map (fun kv => JStr (fst kv)) d)
  | _ => inl (TypeError (py_type v) "object is not iterable")
  end.

(** [len(v)] *)
Definition py_len (v : json) : exn + Z :=
  match v with
  | JArr l => inr (Z.of_nat (length l))
  | JStr s => inr (len s)
  | JObj d => inr (Z.of_nat (length d))
  | _ => inl (TypeError (py_type v) "object has no len()")
  end.

(** [v.get(k, default)] *)
Definition py_get (v : json) (k : string) (default : json) : exn + json :=
  match v with
  | JObj d => inr (match lookup_key k d with Some x => x | None => default end)
  | _ => inl (AttributeError (py_type v) "get")
  end.

(** ** The process state *)

(** One entry of [generated_files]. *)
Record file_info := FileInfo {
  path : string;
  filename : string;
  created_at : Z
}.

(** A slide of a [Presentation]: the layout it was added with, the text
    given to its title, the paragraphs of its body placeholder and the
    picture placed on it. *)
Record slide := Slide {
  layout : nat;
  title : string;
  paragraphs : list string;
  picture : option string
}.

(** What a file under [temp_files] holds. *)
Inductive fdata :=
| Bytes (b : string)
| Pptx (slides : list slide).

Inductive log_record :=
| LogInfo (msg : string)
| LogInfoValue (msg : string) (v : json)
| LogWarning (msg : string) (e : exn)
| LogError (msg : string) (e : exn).

(** The state shared by the request handlers and the cleanup thread:
    the module-level dictionary, the files on disk, what the logger has
    written, how often the clock and the UUID generator have been read,
    and the prompts with which the text-generation service was called. *)
Record world := World {
  generated_files : list (string * file_info);
  disk : gmap string fdata;
  logged : list log_record;
  clock_reads : nat;
  uuids_drawn : nat;
  prompts_sent : list string
}.

Definition with_files (f : list (string * file_info)) (w : world) : world :=
  World f (disk w) (logged w) (clock_reads w) (uuids_drawn w) (prompts_sent w).
Definition with_disk (d : gmap string fdata) (w : world) : world :=
  World (generated_files w) d (logged w) (clock_reads w) (uuids_drawn w) (prompts_sent w).
Definition with_logged (l : list log_record) (w : world) : world :=
  World (generated_files w) (disk w) l (clock_reads w) (uuids_drawn w) (prompts_sent w).
Definition with_clock_reads (n : nat) (w : world) : world :=
  World (generated_files w) (disk w) (logged w) n (uuids_drawn w) (prompts_sent w).
Definition with_uuids_drawn (n : nat) (w : world) : world :=
  World (generated_files w) (disk w) (logged w) (clock_reads w) n (prompts_sent w).
Definition with_prompts_sent (p : list string) (w : world) : world :=
  World (generated_files w) (disk w) (logged w) (clock_reads w) (uuids_drawn w) p.

(** A [uuid.UUID]: its [.hex] and its [str()]. *)
Record uuid := Uuid { hex : string; dashed : string }.

(** ** The environment *)

Record Env := {
  (** [json.loads]; [None] is [json.JSONDecodeError] *)
  json_loads : string -> option json;
  (** [base64.b64decode]; [None] is [binascii.Error] *)
  b64decode : string -> option string;
  (** whether [add_picture] accepts a file with these bytes *)
  image_ok : string -> bool;
  (** the [n]-th call of [client.chat.completions.create] with the given
      prompt, followed by [.choices[0].message.content]: the reply text,
      or the exception raised on the way (client construction included) *)
  chat_completion : nat -> string -> exn + string;
  (** the [n]-th [uuid.uuid4()] *)
  uuid4 : nat -> uuid;
  (** the [n]-th [datetime.now()] *)
  clock : nat -> Z;
  (** [datetime.isoformat] *)
  isoformat : Z -> string;
  (** whether the operating system lets the process create or overwrite,
      respectively unlink, the file at the path *)
  may_write : string -> bool;
  may_remove : string -> bool;
  (** [os.path.join(app.root_path, p)], where Flask's [send_file] looks for
      a relative path [p], as a path of the working directory: [p] itself
      when the process runs in the directory of the module, another path
      when it was started elsewhere *)
  under_root_path : string -> string;
  (** [str(e)] *)
  exn_text : exn -> string
}.

(** [timedelta(hours=1)] *)
Definition one_hour : Z := 3600 * 1000000.

(** ** Statements: state that survives an exception *)

Inductive outcome (A : Type) :=
| Ok (a : A)
| Raise (e : exn).
Arguments Ok {A} a.
Arguments Raise {A} e.

Definition M (A : Type) : Type := world -> outcome A * world.

Definition ret {A} (a : A) : M A := fun w => (Ok a, w).
Definition raise {A} (e : exn) : M A := fun w => (Raise e, w).

Definition bind {A B} (m : M A) (k : A -> M B) : M B :=
  fun w => match m w with
           | (Ok a, w') => k a w'
           | (Raise e, w') => (Raise e, w')
           end.

(** [try: m  except Exception as e: h e] *)
Definition try_except {A} (m : M A) (h : exn -> M A) : M A :=
  fun w => match m w with
           | (Ok a, w') => (Ok a, w')
           | (Raise e, w') => h e w'
           end.

(** A pure computation that may raise. *)
Definition lift {A} (r : exn + A) : M A :=
  match r with inr a => ret a | inl e => raise e end.

Definition when (b : bool) (m : M unit) : M unit := if b then m else ret tt.

(** Sequencing of pure computations that may raise. *)
Definition and_then {A B} (r : exn + A) (k : A -> exn + B) : exn + B :=
  match r with inr a => k a | inl e => inl e end.

Notation "x <- m ;; k" := (bind m (fun x => k))
  (at level 20, m at level 99, k at level 200, only parsing).
Notation "m ;; k" := (bind m (fun _ => k))
  (at level 100, k at level 200, right associativity, only parsing).
Notation "x <-! r ;; k" := (and_then r (fun x => k))
  (at level 20, r at level 99, k at level 200, only parsing).

(** ** The module, function by function *)

(** [UPLOAD_FOLDER] *)
Definition UPLOAD_FOLDER : string := "temp_files".

(** [os.path.join(a, b)] for a directory name [a] without trailing slash: an
    absolute [b] replaces [a]. *)
Definition os_path_join (a b : string) : string :=
  match b with
  | String "/" _ => b
  | _ => a +:+ "/" +:+ b
  end.

(** The double quote character. *)
Definition dq : string := String (ascii_of_nat 34) EmptyString.

(** A response of the application: the status line and the body, which is
    either what [jsonify] builds, a file sent as attachment, or the HTML page
    werkzeug renders for an [HTTPException] nobody handles. *)
Inductive body :=
| Json (j : json)
| Attachment (file download_name mimetype : string)
| DefaultPage (code : Z).

Record response := Response { status : Z; payload : body }.

(** [jsonify({...}), code] *)
Definition jsonify (members : list (string * json)) (code : Z) : response :=
  Response code (Json (JObj members)).

(** The request as [generate_deck] reads it: [request.is_json] and the
    result of [request.get_json()], [None] when the body does not parse
    (werkzeug then raises [BadRequest]). *)
Record request := Request { is_json : bool; get_json : option json }.

Section Backend.

Context (E : Env).

(** *** Library calls *)

Definition log (r : log_record) : M unit :=
  fun w => (Ok tt, with_logged (logged w ++ [r]) w).

Definition datetime_now : M Z :=
  fun w => (Ok (clock E (clock_reads w)), with_clock_reads (S (clock_reads w)) w).

Definition uuid_uuid4 : M uuid :=
  fun w => (Ok (uuid4 E (uuids_drawn w)), with_uuids_drawn (S (uuids_drawn w)) w).

Definition os_path_exists (p : string) : M bool :=
  fun w => (Ok (match disk w !! p with Some _ => true | None => false end), w).

Definition os_remove (p : string) : M unit :=
  fun w => match disk w !! p with
           | Some _ =>
               if may_remove E p then (Ok tt, with_disk (delete p (disk w)) w)
               else (Raise (OSError p), w)
           | None => (Raise (OSError p), w)
           end.

(** [open(p, 'wb').write(data)] and [prs.save(p)] *)
Definition write_file (p : string) (data : fdata) : M unit :=
  fun w => if may_write E p then (Ok tt, with_disk (<[p := data]> (disk w)) w)
           else (Raise (OSError p), w).

(** [abort(code)] *)
Definition abort {A} (code : Z) : M A := raise (HTTPException code).

(** [generated_files], the dictionary *)
Definition files_items : M (list (string * file_info)) :=
  fun w => (Ok (generated_files w), w).

Definition files_contains (file_id : string) : M bool :=
  fun w => (Ok (has_key file_id (generated_files w)), w).

Definition files_getitem (file_id : string) : M file_info :=
  fun w => match lookup_key file_id (generated_files w) with
           | Some info => (Ok info, w)
           | None => (Raise (KeyError file_id), w)
           end.

Definition files_setitem (file_id : string) (info : file_info) : M unit :=
  fun w => (Ok tt, with_files (set_key file_id info (generated_files w)) w).

Definition files_delitem (file_id : string) : M unit :=
  fun w => match lookup_key file_id (generated_files w) with
           | Some _ => (Ok tt, with_files (remove_key file_id (generated_files w)) w)
           | None => (Raise (KeyError file_id), w)
           end.

(** *** [cleanup_old_files] *)

(** [current_time - file_info['created_at'] > timedelta(hours=1)] *)
Definition is_old (current_time : Z) (info : file_info) : bool :=
  one_hour <? current_time - created_at info.

(** The first [for] loop, over the items the dictionary held when the loop
    began. *)
Fixpoint collect_old (current_time : Z) (items : list (string * file_info))
    (files_to_remove : list string) : M (list string) :=
  match items with
  | [] => ret files_to_remove
  | (file_id, info) :: rest =>
      if is_old current_time info then
        there <- os_path_exists (path info);;
        when there (os_remove (path info));;
        collect_old current_time rest (files_to_remove ++ [file_id])
      else collect_old current_time rest files_to_remove
  end.

(** The second [for] loop. *)
Fixpoint forget (files_to_remove : list string) : M unit :=
  match files_to_remove with
  | [] => ret tt
  | file_id :: rest => files_delitem file_id;; forget rest
  end.

(** One turn of the [while True] loop, up to [time.sleep(300)]. *)
Definition cleanup_pass : M unit :=
  try_except
    (current_time <- datetime_now;;
     items <- files_items;;
     files_to_remove <- collect_old current_time items [];;
     forget files_to_remove)
    (fun e => log (LogError "Error in cleanup task: " e)).

(** The first [turns] turns of the loop, which itself never ends. *)
Fixpoint cleanup_old_files (turns : nat) : M unit :=
  match turns with
  | O => ret tt
  | S n => cleanup_pass;; cleanup_old_files n
  end.

(** *** [validate_input] *)

Definition required_fields : list string :=
  ["company_name"; "industry"; "buyer_persona"; "main_pain_point"; "use_case"].

(** [data[field]] *)
Definition getitem (data : list (string * json)) (field : string) : exn + json :=
  match lookup_key field data with
  | Some v => inr v
  | None => inl (KeyError field)
  end.

(** [v.strip()] *)
Definition py_strip (v : json) : exn + string :=
  match v with
  | JStr s => inr (strip s)
  | _ => inl (AttributeError (py_type v) "strip")
  end.

(** The loop over [required_fields]: [inr (Some msg)] is the early
    [return False, msg], [inr None] falling out of the loop. *)
Fixpoint first_missing (fields : list string) (data : list (string * json))
    : exn + option string :=
  match fields with
  | [] => inr None
  | field :: rest =>
      match lookup_key field data with
      | None => inr (Some ("Missing or empty required field: " +:+ field))
      | Some v =>
          match py_strip v with
          | inl e => inl e
          | inr s =>
              if String.eqb s ""
              then inr (Some ("Missing or empty required field: " +:+ field))
              else first_missing rest data
          end
      end
  end.

(** [len(data[field]) > bound] *)
Definition too_long (data : list (string * json)) (field : string) (bound : Z)
    : exn + bool :=
  v <-! getitem data field;;
  n <-! py_len v;;
  inr (bound <? n).

(** [data] is the dictionary [generate_deck] passes on. *)
Definition validate_input (data : list (string * json)) : exn + (bool * string) :=
  missing <-! first_missing required_fields data;;
  match missing with
  | Some msg => inr (false, msg)
  | None =>
      l1 <-! too_long data "company_name" 100;;
      if l1 then inr (false, "Company name too long (max 100 characters)") else
      l2 <-! too_long data "industry" 100;;
      if l2 then inr (false, "Industry too long (max 100 characters)") else
      l3 <-! too_long data "buyer_persona" 200;;
      if l3 then inr (false, "Buyer persona too long (max 200 characters)") else
      l4 <-! too_long data "main_pain_point" 500;;
      if l4 then inr (false, "Main pain point too long (max 500 characters)") else
      l5 <-! too_long data "use_case" 500;;
      if l5 then inr (false, "Use case too long (max 500 characters)") else
      inr (true, "")
  end.

(** *** [generate_slide_content] *)

Definition prompt (company_name industry buyer_persona main_pain_point use_case : string)
    : string :=
  "
    Create a professional sales deck for " +:+
  company_name +:+ " targeting " +:+ buyer_persona +:+ " in the " +:+ industry +:+
  " industry.
    
    Key context:
    - Main pain point: " +:+
  main_pain_point +:+ "
    - Use case: " +:+
  use_case +:+ "
    
    Generate content for exactly 8 slides in JSON format. Each slide should have a " +:+
  dq +:+ "title" +:+ dq +:+ " and " +:+ dq +:+ "content" +:+ dq +:+ " field.
    The content should be concise bullet points (3-5 points per slide).
    
    Slides needed:
    1. Title slide - Company introduction
    2. Problem - Focus on the main pain point
    3. Solution - How we solve the problem
    4. Product Overview - Key features and benefits
    5. Use Case - Specific application for this client
    6. Case Study - Success story (can be hypothetical but realistic)
    7. Pricing - Value proposition and next steps
    8. Call to Action - Clear next steps
    
    Return only valid JSON in this format:
    {
        " +:+
  dq +:+ "slides" +:+ dq +:+ ": [
            {" +:+
  dq +:+ "title" +:+ dq +:+ ": " +:+ dq +:+ "Slide Title" +:+ dq +:+ ", " +:+ dq +:+
  "content" +:+ dq +:+ ": [" +:+ dq +:+ "Bullet point 1" +:+ dq +:+ ", " +:+ dq +:+
  "Bullet point 2" +:+ dq +:+ ", " +:+ dq +:+ "Bullet point 3" +:+ dq +:+ "]},
            ...
        ]
    }
    ".

(** The dictionary returned by the [except] branch. *)
Definition fallback_content (company_name industry main_pain_point use_case : string)
    : json :=
  let slide (title : string) (content : list string) :=
    JObj [("title", JStr title); ("content", JArr (map JStr content))] in
  JObj [("slides", JArr [
    slide ("Welcome to " +:+ company_name)
      ["Professional solutions for " +:+ industry; "Driving innovation and growth";
       "Your trusted partner"];
    slide "The Challenge" [main_pain_point; "Industry-wide impact"; "Need for solution"];
    slide "Our Solution" ["Innovative approach"; "Proven methodology"; "Measurable results"];
    slide "Product Overview" ["Key features"; "Benefits"; "Competitive advantages"];
    slide "Use Case" [use_case; "Implementation strategy"; "Expected outcomes"];
    slide "Success Story" ["Client challenge"; "Our solution"; "Results achieved"];
    slide "Investment & ROI"
      ["Competitive pricing"; "Clear value proposition"; "Return on investment"];
    slide "Next Steps" ["Schedule demo"; "Discuss implementation"; "Begin partnership"]
  ])].

(** [get_openai_client()], [client.chat.completions.create(...)] and
    [response.choices[0].message.content], as one call to the service. *)
Definition ask_service (p : string) : M string :=
  fun w => let w' := with_prompts_sent (prompts_sent w ++ [p]) w in
           match chat_completion E (length (prompts_sent w)) p with
           | inr reply => (Ok reply, w')
           | inl e => (Raise e, w')
           end.

(** The inner [try]: the reply as it is, else the text from its first
    opening to its last closing brace. *)
Definition parse_reply (content : string) : exn + json :=
  match json_loads E content with
  | Some v => inr v
  | None =>
      match search_braces content with
      | Some json_match =>
          match json_loads E json_match with
          | Some v => inr v
          | None => inl JSONDecodeError
          end
      | None => inl (ValueError "Could not parse JSON from GPT response")
      end
  end.

Definition generate_slide_content
    (company_name industry buyer_persona main_pain_point use_case : string) : M json :=
  try_except
    (reply <- ask_service
                (prompt company_name industry buyer_persona main_pain_point use_case);;
     lift (parse_reply (strip reply)))
    (fun e =>
       log (LogError "Error generating content with GPT-4: " e);;
       ret (fallback_content company_name industry main_pain_point use_case)).

(** *** [create_powerpoint] *)

(** [shape.text = v] and [p.text = v]: python-pptx takes a [str]. *)
Definition as_text (v : json) : exn + string :=
  match v with
  | JStr s => inr s
  | _ => inl (TypeError (py_type v) "is not a str")
  end.

(** The loop over [content_items]: one paragraph for each item. *)
Fixpoint fill_body (content_items : list json) : exn + list string :=
  match content_items with
  | [] => inr []
  | item :: rest =>
      match as_text item with
      | inl e => inl e
      | inr s => match fill_body rest with
                 | inl e => inl e
                 | inr ps => inr (s :: ps)
                 end
      end
  end.

(** [slide.shapes.add_picture(logo_path, ...)] *)
Definition add_picture (logo_path : string) : M (option string) :=
  fun w => match disk w !! logo_path with
           | Some (Bytes b) =>
               if image_ok E b then (Ok (Some logo_path), w)
               else (Raise (OSError logo_path), w)
           | _ => (Raise (OSError logo_path), w)
           end.

(** The body of the loop over [enumerate(slides_content)].  Both layouts of
    the default template have a title; layout 1 holds a body placeholder
    besides, so [len(slide.shapes) > 1] holds for every slide but the
    first.  Sizes, fonts and colours are left out. *)
Definition render_slide (i : nat) (slide_content : json) (logo_path : option string)
    : M slide :=
  let slide_layout := if (i =? 0)%nat then 0%nat else 1%nat in
  title_value <- lift (py_get slide_content "title" (JStr ""));;
  title_text <- lift (as_text title_value);;
  body_text <-
    (if (0 <? i)%nat then
       content_items <- lift (py_get slide_content "content" (JArr []));;
       items <- lift (py_iter content_items);;
       lift (fill_body items)
     else ret []);;
  logo <-
    (match logo_path with
     | Some p =>
         if (i =? 0)%nat && negb (String.eqb p "") then
           there <- os_path_exists p;;
           if there then
             try_except (add_picture p)
               (fun e => log (LogWarning "Could not add logo: " e);; ret None)
           else ret None
         else ret None
     | None => ret None
     end);;
  ret (Slide slide_layout title_text body_text logo).

Fixpoint render_slides (i : nat) (slides_content : list json) (logo_path : option string)
    : M (list slide) :=
  match slides_content with
  | [] => ret []
  | slide_content :: rest =>
      s <- render_slide i slide_content logo_path;;
      ss <- render_slides (S i) rest logo_path;;
      ret (s :: ss)
  end.

Definition create_powerpoint (slide_data : json) (company_name : string)
    (logo_path : option string) : M (list slide) :=
  try_except
    (slides_value <- lift (py_get slide_data "slides" (JArr []));;
     slides_content <- lift (py_iter slides_value);;
     render_slides 0 slides_content logo_path)
    (fun e => log (LogError "Error creating PowerPoint: " e);; raise e).

(** *** [save_base64_image] *)

(** The statements before [os.path.join]: the membership test, the split
    and the decoding, for whatever value the request carried. *)
Definition decode_image (base64_data : json) : exn + string :=
  match base64_data with
  | JStr s =>
      let payload :=
        if contains "," s
        then match split_second "," s with Some t => t | None => s end
        else s in
      match b64decode E payload with
      | Some image_data => inr image_data
      | None => inl (ValueError "binascii.Error")
      end
  | JArr l =>
      if existsb (fun v => match v with JStr "," => true | _ => false end) l
      then inl (AttributeError "list" "split")
      else inl (TypeError "list" "is not bytes-like")
  | JObj d =>
      if has_key "," d
      then inl (AttributeError "dict" "split")
      else inl (TypeError "dict" "is not bytes-like")
  | v => inl (TypeError (py_type v) "is not iterable")
  end.

Definition save_base64_image (base64_data : json) (file_name : string)
    : M (option string) :=
  try_except
    (image_data <- lift (decode_image base64_data);;
     let filepath := os_path_join UPLOAD_FOLDER file_name in
     write_file filepath (Bytes image_data);;
     ret (Some filepath))
    (fun e => log (LogError "Error saving base64 image: " e);; ret None).

(** *** The routes *)

Definition health_check : M response :=
  now <- datetime_now;;
  ret (jsonify [("status", JStr "healthy"); ("timestamp", JStr (isoformat E now))] 200).

(** [data[field].strip()] *)
Definition stripped (data : list (string * json)) (field : string) : exn + string :=
  v <-! getitem data field;;
  py_strip v.

(** [len(slide_data.get('slides', []))] *)
Definition count_slides (slide_data : json) : exn + Z :=
  v <-! py_get slide_data "slides" (JArr []);;
  py_len v.

Definition generate_deck (req : request) : M response :=
  try_except
    (if is_json req then
       data <- (match get_json req with
                | Some v => ret v
                | None => abort 400
                end);;
       match data with
       | JObj d =>
           log (LogInfoValue "Received request to generate deck for company: "
                  (match lookup_key "company_name" d with
                   | Some v => v
                   | None => JStr "Unknown"
                   end));;
           verdict <- lift (validate_input d);;
           if negb (fst verdict) then ret (jsonify [("error", JStr (snd verdict))] 400)
           else
             company_name <- lift (stripped d "company_name");;
             industry <- lift (stripped d "industry");;
             buyer_persona <- lift (stripped d "buyer_persona");;
             main_pain_point <- lift (stripped d "main_pain_point");;
             use_case <- lift (stripped d "use_case");;
             let logo_base64 :=
               match lookup_key "logo_base64" d with Some v => v | None => JStr "" end in
             logo_path <-
               (if truthy logo_base64 then
                  u <- uuid_uuid4;;
                  save_base64_image logo_base64 ("logo_" +:+ hex u +:+ ".png")
                else ret None);;
             log (LogInfo "Generating slide content with GPT-4...");;
             slide_data <- generate_slide_content company_name industry buyer_persona
                             main_pain_point use_case;;
             log (LogInfo "Creating PowerPoint presentation...");;
             prs <- create_powerpoint slide_data company_name logo_path;;
             u <- uuid_uuid4;;
             let file_id := dashed u in
             let file_name :=
               "sales_deck_" +:+ replace " " "_" company_name +:+ "_" +:+ file_id
               +:+ ".pptx" in
             let filepath := os_path_join UPLOAD_FOLDER file_name in
             write_file filepath (Pptx prs);;
             now <- datetime_now;;
             files_setitem file_id (FileInfo filepath file_name now);;
             (match logo_path with
              | Some p =>
                  if negb (String.eqb p "") then
                    there <- os_path_exists p;;
                    when there (os_remove p)
                  else ret tt
              | None => ret tt
              end);;
             log (LogInfo ("Successfully generated deck with file_id: " +:+ file_id));;
             n <- lift (count_slides slide_data);;
             later <- datetime_now;;
             ret (jsonify
                    [("success", JBool true);
                     ("file_id", JStr file_id);
                     ("download_url", JStr ("/download/" +:+ file_id));
                     ("filename", JStr file_name);
                     ("slides_generated", JInt n);
                     ("expires_at", JStr (isoformat E (later + one_hour)))]
                    200)
       | _ => raise (AttributeError (py_type data) "get")
       end
     else ret (jsonify [("error", JStr "Content-Type must be application/json")] 400))
    (fun e =>
       log (LogError "Error generating deck: " e);;
       ret (jsonify [("error", JStr ("Internal server error: " +:+ exn_text E e))] 500)).

Definition pptx_mimetype : string :=
  "application/vnd.openxmlformats-officedocument.presentationml.presentation".

(** [send_file(path, as_attachment=True, download_name=..., mimetype=...)].
    Flask looks for a relative path under [app.root_path], not under the
    working directory in which [os.path.exists] has just seen the file,
    and raises [FileNotFoundError] when there is no file at that place.
    For a request without [If-None-Match], [If-Modified-Since], [If-Range]
    and [Range] headers, which is what [ToDownload] below stands for, the
    answer to a file found is the 200 that streams it. *)
Definition send_file (p download_name mimetype : string) : M response :=
  fun w => let sent := under_root_path E p in
           match disk w !! sent with
           | Some _ => (Ok (Response 200 (Attachment sent download_name mimetype)), w)
           | None => (Raise (OSError sent), w)
           end.

Definition download_file (file_id : string) : M response :=
  try_except
    (known <- files_contains file_id;;
     when (negb known) (abort 404);;
     info <- files_getitem file_id;;
     there <- os_path_exists (path info);;
     when (negb there) (files_delitem file_id;; abort 404);;
     now <- datetime_now;;
     when (one_hour <? now - created_at info)
       (os_remove (path info);; files_delitem file_id;; abort 410);;
     send_file (path info) (filename info) pptx_mimetype)
    (fun e =>
       log (LogError ("Error downloading file " +:+ file_id +:+ ": ") e);;
       abort 500).

(** [@app.errorhandler(404)] and [@app.errorhandler(500)] *)
Definition not_found : response :=
  jsonify [("error", JStr "File not found or expired")] 404.

Definition internal_error : response :=
  jsonify [("error", JStr "Internal server error")] 500.

(** *** Flask's dispatch *)

(** An [HTTPException] leaving a view, or raised by the router, goes to the
    handler registered for its code; the module registers two.  Without a
    handler the exception is its own response, werkzeug's HTML page. *)
Definition handle_http_exception (code : Z) : response :=
  if code =? 404 then not_found
  else if code =? 500 then internal_error
  else Response code (DefaultPage code).

(** Any other exception is answered as [InternalServerError]. *)
Definition handle_user_exception (e : exn) : response :=
  match e with
  | HTTPException code => handle_http_exception code
  | _ => handle_http_exception 500
  end.

Definition full_dispatch_request (view : M response) (w : world) : response * world :=
  match view w with
  | (Ok r, w') => (r, w')
  | (Raise e, w') => (handle_user_exception e, w')
  end.

(** What the URL map, built from the three [@app.route] lines, makes of a
    request: one of the views, or no rule for the URL, or a rule for the
    URL that does not list the request's method.  [ToDownload] is a [GET]
    of [/download/<file_id>] that carries no conditional and no range
    header. *)
Inductive routed :=
| ToHealth
| ToGenerateDeck (req : request)
| ToDownload (file_id : string)
| NoRule
| WrongMethod.

Definition serve (r : routed) (w : world) : response * world :=
  match r with
  | ToHealth => full_dispatch_request health_check w
  | ToGenerateDeck req => full_dispatch_request (generate_deck req) w
  | ToDownload file_id => full_dispatch_request (download_file file_id) w
  | NoRule => full_dispatch_request (abort 404) w
  | WrongMethod => full_dispatch_request (abort 405) w
  end.

End Backend.

(** ** Threads *)

(** [cleanup_old_files] runs in a thread of its own, started when the
    module is loaded, next to the threads in which the server runs the
    views.  The module creates no lock: what Python's interpreter lock
    makes atomic is the single library call, and between two calls of one
    thread another thread may run.  A thread in the middle of a function is
    therefore either done, or at a library call together with what it does
    with the outcome of that call. *)
Inductive thread (A : Type) : Type :=
| Returned (a : A)
| Raised (e : exn)
| Call {X : Type} (act : M X) (rest : outcome X -> thread A).
Arguments Returned {A} a.
Arguments Raised {A} e.
Arguments Call {A X} act rest.

(** The next statement runs only if the call returned. *)
Definition on_return {X A} (rest : X -> thread A) (o : outcome X) : thread A :=
  match o with
  | Ok x => rest x
  | Raise e => Raised e
  end.

(** [try: t  except Exception as e: h e] *)
Fixpoint guarded {A} (t : thread A) (h : exn -> thread A) : thread A :=
  match t with
  | Returned a => Returned a
  | Raised e => h e
  | Call act rest => Call act (fun o => guarded (rest o) h)
  end.

(** A thread that no other thread interrupts. *)
Fixpoint alone {A} (t : thread A) (w : world) : outcome A * world :=
  match t with
  | Returned a => (Ok a, w)
  | Raised e => (Raise e, w)
  | Call act rest => let (o, w') := act w in alone (rest o) w'
  end.

(** [iter(generated_files.items())] remembers the size of the dictionary,
    and each [next] of the iterator raises when the size has changed. *)
Definition files_len : M nat :=
  fun w => (Ok (length (generated_files w)), w).

Definition files_next (pos size : nat) : M (option (string * file_info)) :=
  fun w => if (length (generated_files w) =? size)%nat
           then (Ok (generated_files w !! pos), w)
           else (Raise (RuntimeError "dictionary changed size during iteration"), w).

Section Threads.

Context (E : Env).

(** [download_file], call by call. *)
Definition download_thread (file_id : string) : thread response :=
  guarded
    (Call (files_contains file_id) (on_return (fun known =>
     if negb known then Raised (HTTPException 404) else
     Call (files_getitem file_id) (on_return (fun info =>
     Call (os_path_exists (path info)) (on_return (fun there =>
     if negb there then
       Call (files_delitem file_id) (on_return (fun _ => Raised (HTTPException 404)))
     else
     Call (datetime_now E) (on_return (fun now =>
     if one_hour <? now - created_at info then
       Call (os_remove E (path info)) (on_return (fun _ =>
       Call (files_delitem file_id) (on_return (fun _ => Raised (HTTPException 410)))))
     else
       Call (send_file E (path info) (filename info) pptx_mimetype)
         (on_return Returned))))))))))
    (fun e =>
       Call (log (LogError ("Error downloading file " +:+ file_id +:+ ": ") e))
         (on_return (fun _ => Raised (HTTPException 500)))).

(** The first loop of a cleanup pass, one [next] of the iterator at a time;
    [fuel] bounds the number of [next]s by the size of the dictionary. *)
Fixpoint collect_thread {A} (fuel pos size : nat) (current_time : Z)
    (files_to_remove : list string) (rest : list string -> thread A) : thread A :=
  match fuel with
  | O => rest files_to_remove
  | S fuel' =>
      Call (files_next pos size) (on_return (fun item : option (string * file_info) =>
      match item with
      | None => rest files_to_remove
      | Some (file_id, info) =>
          if is_old current_time info then
            Call (os_path_exists (path info)) (on_return (fun there : bool =>
            if there then
              Call (os_remove E (path info)) (on_return (fun _ =>
              collect_thread fuel' (S pos) size current_time
                (files_to_remove ++ [file_id]) rest))
            else
              collect_thread fuel' (S pos) size current_time
                (files_to_remove ++ [file_id]) rest))
          else collect_thread fuel' (S pos) size current_time files_to_remove rest
      end))
  end.

(** The second loop. *)
Fixpoint forget_thread {A} (files_to_remove : list string) (rest : thread A) : thread A :=
  match files_to_remove with
  | [] => rest
  | file_id :: ids =>
      Call (files_delitem file_id) (on_return (fun _ => forget_thread ids rest))
  end.

(** One cleanup pass, call by call. *)
Definition cleanup_thread : thread unit :=
  guarded
    (Call (datetime_now E) (on_return (fun current_time =>
     Call files_len (on_return (fun size =>
     collect_thread (S size) 0 size current_time []
       (fun files_to_remove => forget_thread files_to_remove (Returned tt)))))))
    (fun e => Call (log (LogError "Error in cleanup task: " e)) (on_return Returned)).

(** Who runs next. *)
Inductive turn := Worker | Cleaner.

(** A request thread in [download_file] and the cleanup thread. *)
Record pool := Pool { worker : thread response; cleaner : thread unit }.

(** One library call of a thread; a thread that is done stays as it is. *)
Definition advance {A} (t : thread A) (w : world) : thread A * world :=
  match t with
  | Call act rest => let (o, w') := act w in (rest o, w')
  | _ => (t, w)
  end.

Fixpoint interleave (schedule : list turn) (p : pool) (w : world) : pool * world :=
  match schedule with
  | [] => (p, w)
  | Worker :: schedule' =>
      let (t, w') := advance (worker p) w in interleave schedule' (Pool t (cleaner p)) w'
  | Cleaner :: schedule' =>
      let (t, w') := advance (cleaner p) w in interleave schedule' (Pool (worker p) t) w'
  end.

(** The thread has calls left to make. *)
Definition running {A} (t : thread A) : bool :=
  match t with Call _ _ => true | _ => false end.

End Threads.

(** * Properties *)

(** ** Running statements *)

Lemma bind_ok {A B} (m : M A) (k : A -> M B) w a w1 :
  m w = (Ok a, w1) -> bind m k w = k a w1.
Proof. intros H. unfold bind. by rewrite H. Qed.

Lemma bind_raise {A B} (m : M A) (k : A -> M B) w e w1 :
  m w = (Raise e, w1) -> bind m k w = (Raise e, w1).
Proof. intros H. unfold bind. by rewrite H. Qed.

Lemma try_except_ok {A} (m : M A) h w a w1 :
  m w = (Ok a, w1) -> try_except m h w = (Ok a, w1).
Proof. intros H. unfold try_except. by rewrite H. Qed.

Lemma try_except_raise {A} (m : M A) h w e w1 :
  m w = (Raise e, w1) -> try_except m h w = h e w1.
Proof. intros H. unfold try_except. by rewrite H. Qed.

(** Projections out of an updated world. *)
Tactic Notation "fields" :=
  cbn [generated_files disk logged clock_reads uuids_drawn prompts_sent
       with_files with_disk with_logged with_clock_reads with_uuids_drawn
       with_prompts_sent negb fst snd].
Tactic Notation "fields" "in" hyp(H) :=
  cbn [generated_files disk logged clock_reads uuids_drawn prompts_sent
       with_files with_disk with_logged with_clock_reads with_uuids_drawn
       with_prompts_sent negb fst snd] in H.

Lemma with_disk_same w : with_disk (disk w) w = w.
Proof. by destruct w. Qed.

Lemma with_files_same w : with_files (generated_files w) w = w.
Proof. by destruct w. Qed.

(** ** Dictionaries as item lists *)

Definition keys {A} (d : list (string * A)) : list string := map fst d.

Lemma lookup_key_app_r {A} k (d1 d2 : list (string * A)) :
  k ∉ keys d1 -> lookup_key k (d1 ++ d2) = lookup_key k d2.
Proof.
  induction d1 as [|[k' v] d1 IH]; simpl; [done|].
  intros H. destruct (String.eqb_spec k k') as [->|Hne].
  - exfalso. apply H. left.
  - apply IH. intros Hin. apply H. by right.
Qed.

Lemma remove_key_app_r {A} k (d1 d2 : list (string * A)) :
  k ∉ keys d1 -> remove_key k (d1 ++ d2) = d1 ++ remove_key k d2.
Proof.
  induction d1 as [|[k' v] d1 IH]; simpl; [done|].
  intros H. destruct (String.eqb_spec k k') as [->|Hne].
  - exfalso. apply H. left.
  - f_equal. apply IH. intros Hin. apply H. by right.
Qed.

Lemma lookup_key_head {A} k (v : A) d : lookup_key k ((k, v) :: d) = Some v.
Proof. simpl. by rewrite String.eqb_refl. Qed.

Lemma remove_key_head {A} k (v : A) d : remove_key k ((k, v) :: d) = d.
Proof. simpl. by rewrite String.eqb_refl. Qed.

(** ** The cleanup pass *)

Section Cleanup.

Context (E : Env).

(** The identifiers the first loop collects, in the order of the
    dictionary. *)
Definition old_ids (now : Z) (items : list (string * file_info)) : list string :=
  keys (List.filter (fun kv => is_old now (snd kv)) items).

(** The entries the second loop leaves. *)
Definition young_items (now : Z) (items : list (string * file_info))
    : list (string * file_info) :=
  List.filter (fun kv => negb (is_old now (snd kv))) items.

(** The disk once the files of the old entries are unlinked. *)
Fixpoint unlink_old (now : Z) (items : list (string * file_info))
    (d : gmap string fdata) : gmap string fdata :=
  match items with
  | [] => d
  | (_, info) :: rest =>
      unlink_old now rest (if is_old now info then delete (path info) d else d)
  end.

(** The operating system does not refuse to unlink the file of any old
    entry. *)
Definition unlinkable (now : Z) (items : list (string * file_info)) : Prop :=
  Forall (fun kv => is_old now (snd kv) = true -> may_remove E (path (snd kv)) = true)
    items.

Lemma collect_old_ok now items acc w :
  unlinkable now items ->
  collect_old E now items acc w
  = (Ok (acc ++ old_ids now items), with_disk (unlink_old now items (disk w)) w).
Proof.
  revert acc w. induction items as [|[file_id info] rest IH]; intros acc w Hun.
  - simpl. unfold ret, old_ids. simpl. by rewrite app_nil_r, with_disk_same.
  - apply Forall_cons in Hun as [Hhd Htl]. simpl in Hhd.
    cbn [collect_old unlink_old]. unfold old_ids. cbn [List.filter snd].
    destruct (is_old now info) eqn:Hold.
    + specialize (Hhd eq_refl).
      unfold bind at 1, os_path_exists.
      destruct (disk w !! path info) as [data|] eqn:Hfile.
      * unfold bind at 1, when, os_remove. rewrite Hfile, Hhd.
        rewrite IH by done. cbn. by rewrite <- app_assoc.
      * unfold bind at 1, when, ret.
        rewrite IH by done. rewrite delete_id by done.
        cbn. by rewrite <- app_assoc.
    + rewrite IH by done. done.
Qed.

Lemma forget_old now kept items w :
  NoDup (keys (kept ++ items)) ->
  generated_files w = kept ++ items ->
  forget (old_ids now items) w
  = (Ok tt, with_files (kept ++ young_items now items) w).
Proof.
  revert kept w. induction items as [|[file_id info] rest IH]; intros kept w Hnd Hw.
  - simpl. unfold ret. rewrite <- Hw. by rewrite with_files_same.
  - unfold old_ids, young_items. cbn [List.filter snd].
    assert (file_id ∉ keys kept) as Hfresh.
    { unfold keys in Hnd. rewrite map_app in Hnd.
      apply NoDup_app in Hnd as (_ & Hdis & _).
      intros Hin. apply (Hdis _ Hin). left. }
    destruct (is_old now info) eqn:Hold; cbn [negb keys map fst forget];
      fold (keys (List.filter (fun kv => is_old now (snd kv)) rest));
      fold (old_ids now rest); fold (young_items now rest).
    + unfold bind, files_delitem. rewrite Hw.
      rewrite lookup_key_app_r, lookup_key_head by done.
      rewrite remove_key_app_r, remove_key_head by done.
      rewrite (IH kept); [done| |done].
      unfold keys in *. rewrite map_app in *. cbn in Hnd.
      apply NoDup_app in Hnd as (H1 & H2 & H3).
      apply NoDup_app. split_and!; [done| |by apply NoDup_cons in H3 as [_ ?]].
      intros x Hx Hx'. apply (H2 x Hx). by right.
    + rewrite (IH (kept ++ [(file_id, info)]) w).
      * by rewrite <- app_assoc.
      * by rewrite <- app_assoc.
      * by rewrite <- app_assoc.
Qed.

Lemma collect_old_app now items1 items2 acc w :
  collect_old E now (items1 ++ items2) acc w
  = bind (collect_old E now items1 acc) (collect_old E now items2) w.
Proof.
  revert acc w. induction items1 as [|[file_id info] rest IH]; intros acc w.
  { unfold bind. simpl. done. }
  cbn [collect_old app]. destruct (is_old now info); [|apply IH].
  unfold bind in *. destruct (os_path_exists _ w) as [[there|e] w1]; [|done].
  destruct (when _ _ w1) as [[[]|e] w2]; [|done].
  apply IH.
Qed.

(** A refused unlink leaves the first loop through the exception: the
    files of the old entries before it are gone, nothing else happened. *)
Lemma collect_old_refused now before file_id info after acc w :
  unlinkable now before ->
  is_old now info = true ->
  is_Some (unlink_old now before (disk w) !! path info) ->
  may_remove E (path info) = false ->
  collect_old E now (before ++ (file_id, info) :: after) acc w
  = (Raise (OSError (path info)), with_disk (unlink_old now before (disk w)) w).
Proof.
  intros Hun Hold [data Hfile] Hno.
  rewrite collect_old_app. erewrite bind_ok by by apply collect_old_ok.
  cbn [collect_old]. rewrite Hold.
  unfold bind, os_path_exists, when, os_remove. fields.
  rewrite Hfile. fields. by rewrite Hfile, Hno.
Qed.

Lemma cleanup_pass_ok w :
  let now := clock E (clock_reads w) in
  NoDup (keys (generated_files w)) ->
  unlinkable now (generated_files w) ->
  cleanup_pass E w
  = (Ok tt,
     with_files (young_items now (generated_files w))
       (with_disk (unlink_old now (generated_files w) (disk w))
          (with_clock_reads (S (clock_reads w)) w))).
Proof.
  intros now Hnd Hun. unfold cleanup_pass.
  apply try_except_ok.
  unfold bind at 1, datetime_now. unfold bind at 1, files_items. cbn.
  erewrite bind_ok by by apply collect_old_ok.
  cbn [app]. erewrite (forget_old now []); [|done|done].
  by destruct w.
Qed.

End Cleanup.

(** ** Concrete environments *)

(** An environment without network: the service cannot be reached, no text
    decodes, the operating system permits every file operation, the
    process runs in the directory of the module, and the clock stands two
    hours after the epoch. *)
Definition offline : Env := {|
  json_loads := fun _ => None;
  b64decode := fun _ => None;
  image_ok := fun _ => false;
  chat_completion := fun _ _ => inl (ServiceError "connection refused");
  uuid4 := fun n =>
    match n with
    | O => Uuid "1111111111114111a111111111111111" "11111111-1111-4111-a111-111111111111"
    | _ => Uuid "2222222222224222a222222222222222" "22222222-2222-4222-a222-222222222222"
    end;
  clock := fun _ => 2 * one_hour;
  isoformat := fun t =>
    if t =? 2 * one_hour then "1970-01-01T02:00:00" else "1970-01-01T03:00:00";
  may_write := fun _ => true;
  may_remove := fun _ => true;
  under_root_path := fun p => p;
  exn_text := fun _ => "error"
|}.

(** The same, except that the file of deck [a] cannot be unlinked. *)
Definition stubborn : Env := {|
  json_loads := json_loads offline;
  b64decode := b64decode offline;
  image_ok := image_ok offline;
  chat_completion := chat_completion offline;
  uuid4 := uuid4 offline;
  clock := clock offline;
  isoformat := isoformat offline;
  may_write := may_write offline;
  may_remove := fun p => negb (String.eqb p "temp_files/a.pptx");
  under_root_path := under_root_path offline;
  exn_text := exn_text offline
|}.

Definition nothing : world := World [] ∅ [] 0 0 [].

Definition deck_a : file_info := FileInfo "temp_files/a.pptx" "a.pptx" 0.
Definition deck_b : file_info := FileInfo "temp_files/b.pptx" "b.pptx" 0.
Definition deck_c : file_info := FileInfo "temp_files/c.pptx" "c.pptx" (one_hour + 1).

(** Two decks of two hours ago. *)
Definition two_old : world :=
  World [("a", deck_a); ("b", deck_b)]
    (<["temp_files/a.pptx" := Pptx []]> (<["temp_files/b.pptx" := Pptx []]> ∅))
    [] 0 0 [].

(** A deck of two hours ago and one of just under an hour ago. *)
Definition old_and_young : world :=
  World [("a", deck_a); ("c", deck_c)]
    (<["temp_files/a.pptx" := Pptx []]> (<["temp_files/c.pptx" := Pptx []]> ∅))
    [] 0 0 [].

(** ** The cleanup pass: what the claims say *)

(** C6, as far as the code goes.  On a dictionary that holds one entry
    older than an hour and one that is not, in either order, a pass whose
    unlink the operating system does not refuse removes the old entry and nothing else from the
    dictionary, unlinks the old entry's file and nothing else from the
    disk, and logs nothing. *)
Theorem cleanup_pass_removes_only_the_old_entry
    (E : Env) (w : world) (old_id young_id : string) (old young : file_info) :
  let now := clock E (clock_reads w) in
  generated_files w = [(old_id, old); (young_id, young)]
  \/ generated_files w = [(young_id, young); (old_id, old)] ->
  old_id <> young_id ->
  path old <> path young ->
  is_old now old = true ->
  is_old now young = false ->
  disk w !! path old = None \/ may_remove E (path old) = true ->
  exists w',
    cleanup_pass E w = (Ok tt, w')
    /\ generated_files w' = [(young_id, young)]
    /\ disk w' = delete (path old) (disk w)
    /\ disk w' !! path old = None
    /\ disk w' !! path young = disk w !! path young
    /\ logged w' = logged w.
Proof.
  intros now Hfiles Hid Hpath Hold Hyoung Hcan.
  subst now. destruct w as [files dsk lg reads drawn sent].
  cbn [generated_files disk logged clock_reads] in *.
  set (now := clock E reads) in *.
  (* an absent file is never passed to [os.remove] *)
  destruct Hcan as [Habsent|Hcan].
  - eexists. split.
    + unfold cleanup_pass. apply try_except_ok.
      unfold bind at 1, datetime_now. unfold bind at 1, files_items. fields.
      fold now.
      assert (String.eqb old_id young_id = false) as Hne
        by by apply String.eqb_neq.
      destruct Hfiles as [-> | ->]; cbn [collect_old]; rewrite Hold, Hyoung;
        unfold bind, os_path_exists, when, ret, files_delitem; fields;
        rewrite Habsent; fields; cbn [forget app lookup_key remove_key];
        unfold bind, files_delitem; fields; cbn [lookup_key remove_key];
        rewrite ?Hne, ?String.eqb_refl; reflexivity.
    + fields. rewrite delete_id by done. split_and!; done.
  - assert (NoDup (keys files)) as Hnd.
    { destruct Hfiles as [-> | ->]; cbn [keys map fst];
        (apply NoDup_cons; split; [|apply NoDup_singleton]);
        rewrite list_elem_of_singleton; congruence. }
    assert (unlinkable E now files) as Hun.
    { destruct Hfiles as [-> | ->]; repeat constructor; cbn [snd];
        intros; congruence. }
    eexists. split; [by apply cleanup_pass_ok|]. fields. fold now.
    destruct Hfiles as [-> | ->]; unfold young_items;
      cbn [List.filter unlink_old snd]; rewrite Hold, Hyoung; cbn [negb];
      (split_and!; [done|done|apply lookup_delete_eq|by apply lookup_delete_ne|done]).
Qed.

Lemma cleanup_pass_removes_only_the_old_entry_witness :
  exists w',
    cleanup_pass offline old_and_young = (Ok tt, w')
    /\ generated_files w' = [("c", deck_c)]
    /\ disk w' = delete (path deck_a) (disk old_and_young)
    /\ disk w' !! path deck_a = None
    /\ disk w' !! path deck_c = disk old_and_young !! path deck_c
    /\ logged w' = logged old_and_young.
Proof.
  apply (cleanup_pass_removes_only_the_old_entry offline old_and_young "a" "c").
  - left. reflexivity.
  - discriminate.
  - discriminate.
  - reflexivity.
  - reflexivity.
  - right. reflexivity.
Defined.

(** C6 as the specification has it fails when the file of the old entry
    is on disk and cannot be unlinked: the pass ends at the refused
    unlink, and the old entry and its file are still there. *)
Lemma refused_unlink_leaves_the_old_entry :
  let now := clock stubborn (clock_reads old_and_young) in
  let w' := snd (cleanup_pass stubborn old_and_young) in
  is_old now deck_a = true
  /\ is_old now deck_c = false
  /\ may_remove stubborn (path deck_a) = false
  /\ fst (cleanup_pass stubborn old_and_young) = Ok tt
  /\ generated_files w' = generated_files old_and_young
  /\ disk w' !! path deck_a = Some (Pptx []).
Proof. vm_compute. repeat split. Qed.

(** C5, as far as the code goes.  When the operating system refuses to
    unlink the file of an old entry, the exception leaves both loops: it is
    logged, and the pass is over.  No entry has left the dictionary, not
    even those whose files the pass had already unlinked; the entries after
    the refused one were not looked at.  The thread goes on with its next
    turn. *)
Theorem cleanup_pass_ends_at_refused_unlink
    (E : Env) (w : world) (before after : list (string * file_info))
    (file_id : string) (info : file_info) :
  let now := clock E (clock_reads w) in
  generated_files w = before ++ (file_id, info) :: after ->
  unlinkable E now before ->
  is_old now info = true ->
  is_Some (unlink_old now before (disk w) !! path info) ->
  may_remove E (path info) = false ->
  exists w',
    cleanup_pass E w = (Ok tt, w')
    /\ generated_files w' = generated_files w
    /\ disk w' = unlink_old now before (disk w)
    /\ logged w'
       = logged w ++ [LogError "Error in cleanup task: " (OSError (path info))]
    /\ forall turns, cleanup_old_files E (S turns) w = cleanup_old_files E turns w'.
Proof.
  intros now Hfiles Hun Hold Hfile Hno.
  assert (cleanup_pass E w
          = (Ok tt,
             with_logged
               (logged w ++ [LogError "Error in cleanup task: " (OSError (path info))])
               (with_disk (unlink_old now before (disk w))
                  (with_clock_reads (S (clock_reads w)) w)))) as Hrun.
  { unfold cleanup_pass.
    rewrite (try_except_raise _ _ _ (OSError (path info))
               (with_disk (unlink_old now before (disk w))
                  (with_clock_reads (S (clock_reads w)) w))); [reflexivity|].
    unfold bind at 1, datetime_now. unfold bind at 1, files_items. fields.
    rewrite Hfiles. fold now.
    apply bind_raise. by rewrite collect_old_refused. }
  eexists. split; [exact Hrun|]. fields. split_and!; try done.
  intros turns. cbn [cleanup_old_files]. by erewrite bind_ok by exact Hrun.
Qed.

Lemma cleanup_pass_ends_at_refused_unlink_witness :
  exists w',
    cleanup_pass stubborn two_old = (Ok tt, w')
    /\ generated_files w' = generated_files two_old
    /\ disk w' = unlink_old (clock stubborn (clock_reads two_old)) [] (disk two_old)
    /\ logged w'
       = logged two_old
         ++ [LogError "Error in cleanup task: " (OSError (path deck_a))]
    /\ forall turns,
         cleanup_old_files stubborn (S turns) two_old
         = cleanup_old_files stubborn turns w'.
Proof.
  apply (cleanup_pass_ends_at_refused_unlink stubborn two_old [] [("b", deck_b)] "a").
  - reflexivity.
  - constructor.
  - reflexivity.
  - eexists. reflexivity.
  - reflexivity.
Defined.

(** C5 as the specification has it fails on two decks of two hours ago when
    the file of the first cannot be unlinked: after the pass both entries
    are still in the dictionary and the file of the second is still on
    disk. *)
Lemma cleanup_pass_does_not_continue_after_refused_unlink :
  let now := clock stubborn (clock_reads two_old) in
  let w' := snd (cleanup_pass stubborn two_old) in
  is_old now deck_a = true
  /\ is_old now deck_b = true
  /\ may_remove stubborn (path deck_a) = false
  /\ may_remove stubborn (path deck_b) = true
  /\ lookup_key "a" (generated_files w') = Some deck_a
  /\ lookup_key "b" (generated_files w') = Some deck_b
  /\ disk w' !! path deck_b = Some (Pptx []).
Proof. vm_compute. repeat split. Qed.

(** ** Downloads *)

Section Download.

Context (E : Env).

(** What the [except] branch of [download_file] writes for an [abort]. *)
Definition download_log (file_id : string) (code : Z) : log_record :=
  LogError ("Error downloading file " +:+ file_id +:+ ": ") (HTTPException code).

Ltac run_download :=
  unfold download_file, try_except, bind, when, files_contains, files_getitem,
    files_delitem, os_path_exists, os_remove, datetime_now, send_file, abort,
    raise, ret, log, has_key; fields.

(** The identifier is not in the dictionary: [abort(404)] is raised inside
    the [try], caught by [except Exception] and answered with [abort(500)]. *)
Lemma download_file_unknown w file_id :
  lookup_key file_id (generated_files w) = None ->
  download_file E file_id w
  = (Raise (HTTPException 500),
     with_logged (logged w ++ [download_log file_id 404]) w).
Proof. intros H. run_download. by rewrite H. Qed.

(** The entry is there, its file is not: the entry is deleted, and again the
    404 ends as 500. *)
Lemma download_file_file_gone w file_id info :
  lookup_key file_id (generated_files w) = Some info ->
  disk w !! path info = None ->
  download_file E file_id w
  = (Raise (HTTPException 500),
     with_logged (logged w ++ [download_log file_id 404])
       (with_files (remove_key file_id (generated_files w)) w)).
Proof.
  intros H1 H2. run_download.
  repeat (progress (rewrite ?H1, ?H2; fields)). done.
Qed.

(** The entry is older than an hour: the file is unlinked, the entry
    deleted, and the 410 ends as 500. *)
Lemma download_file_expired w file_id info data :
  lookup_key file_id (generated_files w) = Some info ->
  disk w !! path info = Some data ->
  one_hour < clock E (clock_reads w) - created_at info ->
  may_remove E (path info) = true ->
  download_file E file_id w
  = (Raise (HTTPException 500),
     with_logged (logged w ++ [download_log file_id 410])
       (with_files (remove_key file_id (generated_files w))
          (with_disk (delete (path info) (disk w))
             (with_clock_reads (S (clock_reads w)) w)))).
Proof.
  intros H1 H2 H3 H4. run_download. apply Z.ltb_lt in H3.
  repeat (progress (rewrite ?H1, ?H2, ?H3, ?H4; fields)). done.
Qed.

(** Otherwise the file that Flask finds under its root path is sent and
    nothing changes but the clock count. *)
Lemma download_file_served w file_id info data sent :
  lookup_key file_id (generated_files w) = Some info ->
  disk w !! path info = Some data ->
  clock E (clock_reads w) - created_at info <= one_hour ->
  disk w !! under_root_path E (path info) = Some sent ->
  download_file E file_id w
  = (Ok (Response 200
           (Attachment (under_root_path E (path info)) (filename info) pptx_mimetype)),
     with_clock_reads (S (clock_reads w)) w).
Proof.
  intros H1 H2 H3 H4. run_download. apply Z.ltb_ge in H3.
  repeat (progress (rewrite ?H1, ?H2, ?H3, ?H4; fields)). done.
Qed.

(** What the [except] branch writes when [send_file] finds no file. *)
Definition not_sent_log (file_id : string) (info : file_info) : log_record :=
  LogError ("Error downloading file " +:+ file_id +:+ ": ")
    (OSError (under_root_path E (path info))).

(** No file where Flask looks for it: [send_file] raises, which ends as
    500 like everything else. *)
Lemma download_file_not_sent w file_id info data :
  lookup_key file_id (generated_files w) = Some info ->
  disk w !! path info = Some data ->
  clock E (clock_reads w) - created_at info <= one_hour ->
  disk w !! under_root_path E (path info) = None ->
  download_file E file_id w
  = (Raise (HTTPException 500),
     with_logged (logged w ++ [not_sent_log file_id info])
       (with_clock_reads (S (clock_reads w)) w)).
Proof.
  intros H1 H2 H3 H4. run_download. apply Z.ltb_ge in H3.
  repeat (progress (rewrite ?H1, ?H2, ?H3, ?H4; fields)). done.
Qed.

(** Whatever happens inside the [try], the view returns the attachment or
    raises the 500 of its [except] branch. *)
Lemma download_file_outcomes w file_id :
  (exists f n m w', download_file E file_id w = (Ok (Response 200 (Attachment f n m)), w'))
  \/ (exists w', download_file E file_id w = (Raise (HTTPException 500), w')).
Proof.
  destruct (lookup_key file_id (generated_files w)) as [info|] eqn:Hentry.
  2: { right. eexists. by apply download_file_unknown. }
  destruct (disk w !! path info) as [data|] eqn:Hfile.
  2: { right. eexists. by eapply download_file_file_gone. }
  destruct (Z.ltb_spec one_hour (clock E (clock_reads w) - created_at info)).
  2: { destruct (disk w !! under_root_path E (path info)) as [sent|] eqn:Hsent.
       - left. do 4 eexists. by eapply download_file_served.
       - right. eexists. by eapply download_file_not_sent. }
  right. destruct (may_remove E (path info)) eqn:Hcan.
  { eexists. by eapply download_file_expired. }
  eexists. run_download. apply Z.ltb_lt in H.
  repeat (progress (rewrite ?Hentry, ?Hfile, ?H, ?Hcan; fields)). done.
Qed.

End Download.

(** C1, as the code has it.  The answer to a download is the attachment or
    the body of the 500 handler: neither the 404 nor the 410 that
    [download_file] raises reaches the client. *)
Theorem download_answers_200_or_500 (E : Env) (file_id : string) (w : world) :
  let r := fst (serve E (ToDownload file_id) w) in
  (status r = 200 /\ exists f n m, payload r = Attachment f n m)
  \/ r = internal_error.
Proof.
  cbn [serve]. unfold full_dispatch_request.
  destruct (download_file_outcomes E w file_id) as [(f & n & m & w' & ->)|[w' ->]].
  - left. cbn. eauto.
  - right. reflexivity.
Qed.

(** At an identifier that was never issued the answer is 500, where the
    specification expects 404. *)
Lemma download_of_unknown_id_is_500 :
  serve offline (ToDownload "never-issued") nothing
  = (internal_error,
     with_logged [download_log "never-issued" 404] nothing).
Proof. reflexivity. Qed.

(** ** What a view can return *)

(** Every value [m] returns, from whatever state, satisfies [P]. *)
Definition returns {A} (P : A -> Prop) (m : M A) : Prop :=
  forall w a w', m w = (Ok a, w') -> P a.

Lemma returns_ret {A} (P : A -> Prop) a : P a -> returns P (ret a).
Proof. intros H w a' w' [= <- _]. exact H. Qed.

Lemma returns_raise {A} (P : A -> Prop) e : returns P (raise e).
Proof. intros w a w' [=]. Qed.

Lemma returns_bind {A B} (P : B -> Prop) (m : M A) (k : A -> M B) :
  (forall a, returns P (k a)) -> returns P (bind m k).
Proof.
  intros H w b w'. unfold bind. destruct (m w) as [[a|e] w1]; [|done].
  apply H.
Qed.

Ltac returns_step :=
  first
    [ apply returns_ret
    | apply returns_raise
    | apply returns_bind; intros
    | match goal with
      | |- returns _ (if ?b then _ else _) => destruct b
      | |- returns _ (match ?x with _ => _ end) => destruct x
      end ].

(** A JSON object with an [error] member that is a string. *)
Definition error_body (r : response) : Prop :=
  exists members msg,
    payload r = Json (JObj members) /\ lookup_key "error" members = Some (JStr msg).

Section Responses.

Context (E : Env).

(** The answers of [generate_deck]: the success object, or an [error]
    object with status 400 or 500.  No exception leaves the view. *)
Lemma generate_deck_outcomes req w :
  exists r w',
    generate_deck E req w = (Ok r, w')
    /\ (status r = 200
        \/ exists msg, r = jsonify [("error", JStr msg)] 400
                       \/ r = jsonify [("error", JStr msg)] 500).
Proof.
  unfold generate_deck, try_except.
  match goal with |- context [match ?body w with _ => _ end] =>
    assert (returns (fun r => status r = 200
                              \/ exists msg, r = jsonify [("error", JStr msg)] 400) body)
      as Hbody; [|destruct (body w) as [[r|e] w1] eqn:Hrun]
  end.
  - unfold abort. repeat returns_step; try (left; reflexivity); right; eauto.
  - exists r, w1. split; [done|]. destruct (Hbody _ _ _ Hrun) as [?|[msg ->]]; eauto.
  - eexists _, _. split; [reflexivity|]. right. eauto.
Qed.

End Responses.

(** C4, as far as the code goes.  An answer with an error status is a JSON
    object with an [error] string, unless the router refused the method:
    then it is the page werkzeug renders for 405, for which the module
    registers no handler. *)
Theorem error_answers_are_json_but_for_405 (E : Env) (route : routed) (w : world) :
  let r := fst (serve E route w) in
  400 <= status r ->
  error_body r \/ (route = WrongMethod /\ r = Response 405 (DefaultPage 405)).
Proof.
  destruct route as [|req|file_id| |]; cbn [serve]; unfold full_dispatch_request.
  - unfold health_check, bind, datetime_now, ret. cbn. lia.
  - destruct (generate_deck_outcomes E req w) as (r & w' & -> & Hr). cbn [fst].
    destruct Hr as [->|[msg [->| ->]]]; [lia| |]; intros _; left;
      eexists _, _; split; reflexivity.
  - destruct (download_file_outcomes E w file_id) as [(f & n & m & w' & ->)|[w' ->]];
      cbn [fst handle_user_exception]; [cbn; lia|].
    intros _. left. eexists _, _. split; reflexivity.
  - intros _. left. eexists _, _. split; reflexivity.
  - intros _. right. split; reflexivity.
Qed.

Lemma error_answers_are_json_but_for_405_witness :
  error_body (fst (serve offline NoRule nothing))
  \/ (NoRule = WrongMethod
      /\ fst (serve offline NoRule nothing) = Response 405 (DefaultPage 405)).
Proof.
  apply (error_answers_are_json_but_for_405 offline NoRule nothing).
  vm_compute. discriminate.
Defined.

(** C4 as the specification has it fails on a request whose URL has a rule
    but whose method the rule does not list: the answer has status 405 and
    is no JSON object. *)
Lemma method_not_allowed_is_not_json :
  let r := fst (serve offline WrongMethod nothing) in
  status r = 405 /\ 400 <= status r /\ ~ error_body r.
Proof.
  cbn. split; [done|]. split; [lia|].
  intros (members & msg & H & _). discriminate H.
Qed.

(** ** Validation *)

(** The field is absent, or a string of white space only. *)
Definition blank (d : list (string * json)) (f : string) : Prop :=
  lookup_key f d = None \/ exists s, lookup_key f d = Some (JStr s) /\ strip s = "".

(** The field is present and a string with more than white space. *)
Definition filled (d : list (string * json)) (f : string) : Prop :=
  exists s, lookup_key f d = Some (JStr s) /\ strip s <> "".

(** The field is present and a string. *)
Definition is_str (d : list (string * json)) (f : string) : Prop :=
  exists s, lookup_key f d = Some (JStr s).

(** The field is present and not a string. *)
Definition non_str (d : list (string * json)) (f : string) : Prop :=
  exists v, lookup_key f d = Some v /\ forall s, v <> JStr s.

(** The bounds of the five length tests. *)
Definition length_bounds : list (string * Z) :=
  [("company_name", 100); ("industry", 100); ("buyer_persona", 200);
   ("main_pain_point", 500); ("use_case", 500)].

(** Some field holds a string longer than its bound. *)
Definition over_bound (d : list (string * json)) : Prop :=
  exists f bound s,
    (f, bound) ∈ length_bounds /\ lookup_key f d = Some (JStr s) /\ bound < len s.

Definition missing_message (f : string) : string :=
  "Missing or empty required field: " +:+ f.

Lemma first_missing_blank fields d pre f post :
  fields = pre ++ f :: post ->
  Forall (fun g => ~ non_str d g) pre ->
  blank d f ->
  exists g, g ∈ fields /\ first_missing fields d = inr (Some (missing_message g)).
Proof.
  intros -> Hpre Hblank. induction pre as [|g pre IH]; cbn [first_missing app].
  - exists f. split; [left|].
    destruct Hblank as [->|(s & -> & Hs)]; [done|].
    cbn [py_strip]. by rewrite Hs.
  - apply Forall_cons in Hpre as [Hg Hpre].
    destruct (lookup_key g d) as [v|] eqn:Hv.
    2: { exists g. split; [left|done]. }
    destruct v as [| | | |s| |];
      try (exfalso; apply Hg; eexists; split; [done|]; intros; discriminate).
    cbn [py_strip]. destruct (String.eqb (strip s) "").
    + exists g. split; [left|done].
    + destruct (IH Hpre) as (g' & Hin & ->). exists g'. split; [by right|done].
Qed.

Lemma first_missing_non_str d pre f post v :
  Forall (filled d) pre ->
  lookup_key f d = Some v ->
  (forall s, v <> JStr s) ->
  first_missing (pre ++ f :: post) d = inl (AttributeError (py_type v) "strip").
Proof.
  intros Hpre Hv Hns. induction pre as [|g pre IH]; cbn [first_missing app].
  - rewrite Hv. destruct v; try done. by destruct (Hns s).
  - apply Forall_cons in Hpre as [(s & -> & Hs) Hpre].
    cbn [py_strip]. apply String.eqb_neq in Hs. rewrite Hs. by apply IH.
Qed.

Lemma too_long_str d f bound s :
  lookup_key f d = Some (JStr s) -> too_long d f bound = inr (bound <? len s).
Proof. intros H. unfold too_long, getitem, and_then. by rewrite H. Qed.

(** [validate_input] says no when a field is absent or blank and nothing
    before it is a non-string, and when all five are strings and one is
    too long. *)
Lemma validate_input_rejects d :
  (exists pre f post,
     required_fields = pre ++ f :: post
     /\ Forall (fun g => ~ non_str d g) pre /\ blank d f)
  \/ (Forall (is_str d) required_fields /\ over_bound d) ->
  exists msg, validate_input d = inr (false, msg).
Proof.
  intros [(pre & f & post & Hfields & Hpre & Hblank)|[Hstr Hover]].
  - destruct (first_missing_blank _ d _ _ _ Hfields Hpre Hblank) as (g & _ & Hg).
    unfold validate_input, and_then. rewrite Hg. eauto.
  - unfold validate_input, and_then.
    destruct (first_missing required_fields d) as [e|[msg|]] eqn:Hmiss.
    + exfalso. unfold required_fields in *.
      repeat match goal with
             | H : Forall _ (_ :: _) |- _ => apply Forall_cons in H as [[? ?] H]
             end.
      cbn [first_missing] in Hmiss.
      repeat match goal with
             | H : lookup_key ?f d = Some _ |- _ => rewrite H in Hmiss; clear H
             end.
      cbn [py_strip] in Hmiss.
      repeat match type of Hmiss with
             | context [if ?b then _ else _] => destruct b
             end; discriminate.
    + eauto.
    + unfold required_fields in Hstr.
      repeat match goal with
             | H : Forall _ (_ :: _) |- _ => apply Forall_cons in H as [[? ?] H]
             end.
      erewrite !too_long_str by eassumption.
      destruct Hover as (f & bound & s & Hin & Hs & Hlen).
      apply Z.ltb_lt in Hlen.
      unfold length_bounds in Hin.
      repeat (apply elem_of_cons in Hin as [[= -> ->]|Hin];
              [ match goal with
                | H : lookup_key ?f d = Some _ |- _ =>
                    rewrite H in Hs; injection Hs as <-
                end;
                rewrite Hlen;
                repeat match goal with
                       | |- context [if ?b then _ else _] => destruct b
                       end; eauto
              | ]).
      by apply elem_of_nil in Hin.
Qed.

(** ** Requests that validation stops *)

Section Rejected.

Context (E : Env).

(** The line [generate_deck] logs before it validates. *)
Definition received (d : list (string * json)) : log_record :=
  LogInfoValue "Received request to generate deck for company: "
    (match lookup_key "company_name" d with Some v => v | None => JStr "Unknown" end).

Lemma generate_deck_rejects d w msg :
  validate_input d = inr (false, msg) ->
  generate_deck E (Request true (Some (JObj d))) w
  = (Ok (jsonify [("error", JStr msg)] 400),
     with_logged (logged w ++ [received d]) w).
Proof.
  intros H. unfold generate_deck. apply try_except_ok.
  cbn [is_json get_json]. unfold bind at 1, ret. unfold bind at 1, log.
  unfold bind at 1, lift. rewrite H. reflexivity.
Qed.

Lemma generate_deck_validation_raises d w e :
  validate_input d = inl e ->
  generate_deck E (Request true (Some (JObj d))) w
  = (Ok (jsonify [("error", JStr ("Internal server error: " +:+ exn_text E e))] 500),
     with_logged (logged w ++ [received d; LogError "Error generating deck: " e]) w).
Proof.
  intros H. unfold generate_deck.
  rewrite (try_except_raise _ _ _ e (with_logged (logged w ++ [received d]) w)).
  - unfold bind, log, ret. fields. by rewrite <- app_assoc.
  - cbn [is_json get_json]. unfold bind at 1, ret. unfold bind at 1, log.
    unfold bind at 1, lift. rewrite H. reflexivity.
Qed.

End Rejected.

(** C7, as far as the code goes.  The body is a JSON object.  If a required
    field is absent or blank and no required field listed before it holds
    a non-string, or if all five hold strings and one is longer than its
    bound, the answer is 400 with an [error] message; the service has not
    been called, and neither the dictionary nor the disk has changed. *)
Theorem invalid_fields_answer_400_before_any_call
    (E : Env) (w : world) (d : list (string * json)) :
  (exists pre f post,
     required_fields = pre ++ f :: post
     /\ Forall (fun g => ~ non_str d g) pre /\ blank d f)
  \/ (Forall (is_str d) required_fields /\ over_bound d) ->
  exists msg w',
    serve E (ToGenerateDeck (Request true (Some (JObj d)))) w
    = (jsonify [("error", JStr msg)] 400, w')
    /\ prompts_sent w' = prompts_sent w
    /\ generated_files w' = generated_files w
    /\ disk w' = disk w.
Proof.
  intros H. destruct (validate_input_rejects d H) as [msg Hmsg].
  exists msg. eexists. cbn [serve]. unfold full_dispatch_request.
  rewrite (generate_deck_rejects E d w msg Hmsg). split; [reflexivity|]. done.
Qed.

(** A company name of 101 characters. *)
Definition long_name : string :=
  "aaaaaaaaaaaaaaaaaaaaaaaaaaaaaaaaaaaaaaaaaaaaaaaaaaaaaaaaaaaaaaaaaaaaaaaaaaaaaaaaaaaaaaaaaaaaaaaaaaaaa".

Definition five_fields (company_name : string) : list (string * json) :=
  [("company_name", JStr company_name); ("industry", JStr "Retail");
   ("buyer_persona", JStr "Head of Sales"); ("main_pain_point", JStr "Slow quotes");
   ("use_case", JStr "Quote automation")].

Lemma invalid_fields_answer_400_before_any_call_witness :
  exists msg w',
    serve offline (ToGenerateDeck (Request true (Some (JObj (five_fields long_name)))))
      nothing
    = (jsonify [("error", JStr msg)] 400, w')
    /\ prompts_sent w' = prompts_sent nothing
    /\ generated_files w' = generated_files nothing
    /\ disk w' = disk nothing.
Proof.
  apply (invalid_fields_answer_400_before_any_call offline nothing (five_fields long_name)).
  right. split.
  - repeat constructor; eexists; reflexivity.
  - exists "company_name", 100, long_name.
    split; [left|]. split; [reflexivity|]. vm_compute. reflexivity.
Defined.

(** C7 as the specification has it fails on the body [{"company_name": 5}]:
    the field [industry] is missing, and the answer is 500. *)
Lemma missing_field_after_a_number_is_500 :
  let d := [("company_name", JInt 5)] in
  let r := fst (serve offline (ToGenerateDeck (Request true (Some (JObj d)))) nothing) in
  lookup_key "industry" d = None /\ status r = 500.
Proof. vm_compute. split; reflexivity. Qed.

(** C10, as far as the code goes.  The body is a JSON object.  If a
    required field holds a value that is not a string and every required
    field listed before it holds a string with more than white space, the
    [strip] of validation raises, and the answer is the 500 of the
    catch-all; the service has not been called, and neither the dictionary
    nor the disk has changed. *)
Theorem non_string_field_answers_500
    (E : Env) (w : world) (d : list (string * json))
    (pre post : list string) (f : string) (v : json) :
  required_fields = pre ++ f :: post ->
  Forall (filled d) pre ->
  lookup_key f d = Some v ->
  (forall s, v <> JStr s) ->
  exists w',
    serve E (ToGenerateDeck (Request true (Some (JObj d)))) w
    = (jsonify
         [("error",
           JStr ("Internal server error: "
                 +:+ exn_text E (AttributeError (py_type v) "strip")))] 500,
       w')
    /\ prompts_sent w' = prompts_sent w
    /\ generated_files w' = generated_files w
    /\ disk w' = disk w.
Proof.
  intros Hfields Hpre Hv Hns.
  assert (validate_input d = inl (AttributeError (py_type v) "strip")) as Hval.
  { unfold validate_input, and_then. rewrite Hfields.
    by rewrite (first_missing_non_str d pre f post v). }
  eexists. cbn [serve]. unfold full_dispatch_request.
  rewrite (generate_deck_validation_raises E d w _ Hval). split; [reflexivity|]. done.
Qed.

Lemma non_string_field_answers_500_witness :
  exists w',
    serve offline
      (ToGenerateDeck
         (Request true (Some (JObj [("company_name", JStr "Acme"); ("industry", JInt 5)]))))
      nothing
    = (jsonify
         [("error",
           JStr ("Internal server error: "
                 +:+ exn_text offline (AttributeError (py_type (JInt 5)) "strip")))] 500,
       w')
    /\ prompts_sent w' = prompts_sent nothing
    /\ generated_files w' = generated_files nothing
    /\ disk w' = disk nothing.
Proof.
  apply (non_string_field_answers_500 offline nothing
           [("company_name", JStr "Acme"); ("industry", JInt 5)]
           ["company_name"] ["buyer_persona"; "main_pain_point"; "use_case"]
           "industry" (JInt 5)).
  - reflexivity.
  - repeat constructor. exists "Acme". split; [reflexivity|]. vm_compute. discriminate.
  - reflexivity.
  - intros s. discriminate.
Defined.

(** C10 as the specification has it fails on the body [{"industry": 5}]:
    [industry] holds a number, but [company_name], tested first, is
    missing, and the answer is 400. *)
Lemma number_after_a_missing_field_is_400 :
  let d := [("industry", JInt 5)] in
  let r := fst (serve offline (ToGenerateDeck (Request true (Some (JObj d)))) nothing) in
  lookup_key "industry" d = Some (JInt 5)
  /\ r = jsonify [("error", JStr "Missing or empty required field: company_name")] 400.
Proof. vm_compute. split; reflexivity. Qed.

(** ** Slide content *)

Section Content.

Context (E : Env).

(** Whether [generate_slide_content] ends in its [except] branch when the
    service has been called [n] times before: the call raises, or neither
    the reply nor its brace-delimited part decodes. *)
Definition falls_back (n : nat)
    (company_name industry buyer_persona main_pain_point use_case : string) : bool :=
  match chat_completion E n
          (prompt company_name industry buyer_persona main_pain_point use_case) with
  | inr reply => match parse_reply E (strip reply) with inr _ => false | inl _ => true end
  | inl _ => true
  end.

(** The slide data [generate_slide_content] then returns. *)
Definition slide_data_for (n : nat)
    (company_name industry buyer_persona main_pain_point use_case : string) : json :=
  match chat_completion E n
          (prompt company_name industry buyer_persona main_pain_point use_case) with
  | inr reply =>
      match parse_reply E (strip reply) with
      | inr v => v
      | inl _ => fallback_content company_name industry main_pain_point use_case
      end
  | inl _ => fallback_content company_name industry main_pain_point use_case
  end.

Lemma slide_data_for_fallback n c i b p u :
  falls_back n c i b p u = true -> slide_data_for n c i b p u = fallback_content c i p u.
Proof.
  unfold falls_back, slide_data_for.
  destruct (chat_completion E n _) as [e|reply]; [done|].
  by destruct (parse_reply E (strip reply)).
Qed.

(** [generate_slide_content] always returns; it touches the log and the
    list of prompts and nothing else. *)
Lemma generate_slide_content_run c i b p u w :
  exists lines,
    generate_slide_content E c i b p u w
    = (Ok (slide_data_for (length (prompts_sent w)) c i b p u),
       with_logged (logged w ++ lines)
         (with_prompts_sent (prompts_sent w ++ [prompt c i b p u]) w)).
Proof.
  unfold generate_slide_content, try_except, bind, ask_service, slide_data_for, lift,
    log, ret, raise.
  destruct (chat_completion E _ _) as [e|reply].
  - eexists [_]. reflexivity.
  - destruct (parse_reply E (strip reply)) as [e|v].
    + eexists [_]. reflexivity.
    + exists []. fields. by rewrite app_nil_r.
Qed.

(** The title a slide object carries and its bullet points. *)
Definition title_of (s : json) : option json :=
  match s with JObj d => lookup_key "title" d | _ => None end.

Definition bullets_of (s : json) : list json :=
  match s with
  | JObj d => match lookup_key "content" d with Some (JArr l) => l | _ => [] end
  | _ => []
  end.

(** A slide object as the prompt asks for it: a title and three to five
    bullet points, all of them strings. *)
Definition well_formed_slide (s : json) : Prop :=
  exists t bullets,
    s = JObj [("title", JStr t); ("content", JArr (map JStr bullets))]
    /\ (3 <= length bullets <= 5)%nat.

End Content.

(** C8.  [generate_slide_content] returns from every state and for every
    input; when the call of the service raises or its reply does not
    decode, what it returns is [fallback_content], a function of the
    company name, the industry, the pain point and the use case alone.
    That content is an object whose [slides] are eight well-formed slides
    with the fixed titles, the company name in the first title, and the
    industry, the pain point and the use case as the first bullet of the
    first, second and fifth slide. *)
Theorem fallback_content_is_total_with_eight_slides
    (E : Env) (w : world)
    (company_name industry buyer_persona main_pain_point use_case : string) :
  let n := length (prompts_sent w) in
  (exists v w',
     generate_slide_content E company_name industry buyer_persona main_pain_point
       use_case w = (Ok v, w')
     /\ (falls_back E n company_name industry buyer_persona main_pain_point use_case
         = true ->
         v = fallback_content company_name industry main_pain_point use_case))
  /\ exists slides,
       fallback_content company_name industry main_pain_point use_case
       = JObj [("slides", JArr slides)]
       /\ length slides = 8%nat
       /\ Forall well_formed_slide slides
       /\ map title_of slides
          = map (fun t => Some (JStr t))
              ["Welcome to " +:+ company_name; "The Challenge"; "Our Solution";
               "Product Overview"; "Use Case"; "Success Story"; "Investment & ROI";
               "Next Steps"]
       /\ map (fun s => head (bullets_of s)) slides
          = map (fun t => Some (JStr t))
              ["Professional solutions for " +:+ industry; main_pain_point;
               "Innovative approach"; "Key features"; use_case; "Client challenge";
               "Competitive pricing"; "Schedule demo"].
Proof.
  intros n. split.
  - destruct (generate_slide_content_run E company_name industry buyer_persona
                main_pain_point use_case w) as [lines Hrun].
    eexists _, _. split; [exact Hrun|]. apply slide_data_for_fallback.
  - eexists. split; [reflexivity|]. split; [reflexivity|].
    split; [|split; reflexivity].
    repeat constructor; eexists _, [_; _; _]; (split; [reflexivity|cbn; lia]).
Qed.

(** ** Following a view statement by statement *)

(** Every value [m] returns from the state [w], together with the state it
    leaves, satisfies [Q]. *)
Definition post {A} (m : M A) (w : world) (Q : A -> world -> Prop) : Prop :=
  forall a w', m w = (Ok a, w') -> Q a w'.

Lemma post_ret {A} (a : A) w (Q : A -> world -> Prop) : Q a w -> post (ret a) w Q.
Proof. intros H a' w' [= <- <-]. exact H. Qed.

Lemma post_raise {A} e w (Q : A -> world -> Prop) : post (raise e) w Q.
Proof. intros a w' [=]. Qed.

Lemma post_bind {A B} (m : M A) (k : A -> M B) w (Q : B -> world -> Prop) :
  post m w (fun a w1 => post (k a) w1 Q) -> post (bind m k) w Q.
Proof.
  intros H b w'. unfold bind. destruct (m w) as [[a|e] w1] eqn:Hm; [|done].
  by apply H.
Qed.

Lemma post_lift {A} (r : exn + A) w (Q : A -> world -> Prop) :
  (forall a, r = inr a -> Q a w) -> post (lift r) w Q.
Proof. intros H. destruct r as [e|a]; [apply post_raise|]. apply post_ret. by apply H. Qed.

Section Logo.

Context (E : Env).

Lemma save_base64_image_returns v f w :
  exists logo_path w',
    save_base64_image E v f w = (Ok logo_path, w')
    /\ prompts_sent w' = prompts_sent w.
Proof.
  unfold save_base64_image, try_except, bind, lift, write_file, log, ret, raise.
  destruct (decode_image E v) as [e|image_data]; [by eexists _, _|].
  destruct (may_write E _); by eexists _, _.
Qed.


End Logo.

(** ** The slide count of a successful answer *)

(** The reply is the text [{"slides": []}], and it decodes. *)
Definition empty_reply : string := "{" +:+ dq +:+ "slides" +:+ dq +:+ ": []}".

Definition chatty : Env := {|
  json_loads := fun s =>
    if String.eqb s empty_reply then Some (JObj [("slides", JArr [])]) else None;
  b64decode := b64decode offline;
  image_ok := image_ok offline;
  chat_completion := fun _ _ => inr empty_reply;
  uuid4 := uuid4 offline;
  clock := clock offline;
  isoformat := isoformat offline;
  may_write := may_write offline;
  may_remove := may_remove offline;
  under_root_path := under_root_path offline;
  exn_text := exn_text offline
|}.

(** The member [slides_generated] of a JSON answer. *)
Definition slides_generated (r : response) : option json :=
  match payload r with
  | Json (JObj members) => lookup_key "slides_generated" members
  | _ => None
  end.

Section Count.

Context (E : Env).

(** What C2 can say of an answer [r] to the body [d] when [k] prompts had
    been sent before the request. *)
Definition counts_slide_data (k : nat) (d : list (string * json)) (r : response) : Prop :=
  status r = 200 ->
  exists c i b p u n,
    stripped d "company_name" = inr c
    /\ stripped d "industry" = inr i
    /\ stripped d "buyer_persona" = inr b
    /\ stripped d "main_pain_point" = inr p
    /\ stripped d "use_case" = inr u
    /\ count_slides (slide_data_for E k c i b p u) = inr n
    /\ slides_generated r = Some (JInt n)
    /\ (falls_back E k c i b p u = true -> n = 8).

Lemma post_logo_step (logo_base64 : json) w (Q : option string -> world -> Prop) :
  (forall logo_path w', prompts_sent w' = prompts_sent w -> Q logo_path w') ->
  post (if truthy logo_base64
        then u <- uuid_uuid4 E;; save_base64_image E logo_base64 ("logo_" +:+ hex u +:+ ".png")
        else ret None) w Q.
Proof.
  intros HQ. destruct (truthy logo_base64); [|by apply post_ret, HQ].
  intros logo_path w'. unfold bind, uuid_uuid4.
  destruct (save_base64_image_returns E logo_base64
              ("logo_" +:+ hex (uuid4 E (uuids_drawn w)) +:+ ".png")
              (with_uuids_drawn (S (uuids_drawn w)) w)) as (lp & w1 & -> & Hsent).
  intros [= <- <-]. by apply HQ.
Qed.

Lemma post_generate_slide_content c i b p u w (Q : json -> world -> Prop) :
  (forall w', Q (slide_data_for E (length (prompts_sent w)) c i b p u) w') ->
  post (generate_slide_content E c i b p u) w Q.
Proof.
  intros HQ v w'. destruct (generate_slide_content_run E c i b p u w) as [lines ->].
  intros [= <- <-]. apply HQ.
Qed.

Lemma post_any {A B} (m : M A) (k : A -> M B) w (Q : B -> world -> Prop) :
  (forall a w1, post (k a) w1 Q) -> post (bind m k) w Q.
Proof. intros H. apply post_bind. intros a w1 _. apply H. Qed.

Lemma generate_deck_body_counts d w :
  post
    (verdict <- lift (validate_input d);;
     if negb (fst verdict) then ret (jsonify [("error", JStr (snd verdict))] 400)
     else
       company_name <- lift (stripped d "company_name");;
       industry <- lift (stripped d "industry");;
       buyer_persona <- lift (stripped d "buyer_persona");;
       main_pain_point <- lift (stripped d "main_pain_point");;
       use_case <- lift (stripped d "use_case");;
       let logo_base64 :=
         match lookup_key "logo_base64" d with Some v => v | None => JStr "" end in
       logo_path <-
         (if truthy logo_base64 then
            u <- uuid_uuid4 E;;
            save_base64_image E logo_base64 ("logo_" +:+ hex u +:+ ".png")
          else ret None);;
       log (LogInfo "Generating slide content with GPT-4...");;
       slide_data <- generate_slide_content E company_name industry buyer_persona
                       main_pain_point use_case;;
       log (LogInfo "Creating PowerPoint presentation...");;
       prs <- create_powerpoint E slide_data company_name logo_path;;
       u <- uuid_uuid4 E;;
       let file_id := dashed u in
       let file_name :=
         "sales_deck_" +:+ replace " " "_" company_name +:+ "_" +:+ file_id
         +:+ ".pptx" in
       let filepath := os_path_join UPLOAD_FOLDER file_name in
       write_file E filepath (Pptx prs);;
       now <- datetime_now E;;
       files_setitem file_id (FileInfo filepath file_name now);;
       (match logo_path with
        | Some p =>
            if negb (String.eqb p "") then
              there <- os_path_exists p;;
              when there (os_remove E p)
            else ret tt
        | None => ret tt
        end);;
       log (LogInfo ("Successfully generated deck with file_id: " +:+ file_id));;
       n <- lift (count_slides slide_data);;
       later <- datetime_now E;;
       ret (jsonify
              [("success", JBool true);
               ("file_id", JStr file_id);
               ("download_url", JStr ("/download/" +:+ file_id));
               ("filename", JStr file_name);
               ("slides_generated", JInt n);
               ("expires_at", JStr (isoformat E (later + one_hour)))]
              200))
    w (fun r _ => counts_slide_data (length (prompts_sent w)) d r).
Proof.
  apply post_bind, post_lift. intros verdict _. cbn beta.
  destruct (negb (fst verdict)); [apply post_ret; intros [=]|].
  apply post_bind, post_lift. intros c Hc. cbn beta.
  apply post_bind, post_lift. intros i Hi. cbn beta.
  apply post_bind, post_lift. intros b Hb. cbn beta.
  apply post_bind, post_lift. intros p Hp. cbn beta.
  apply post_bind, post_lift. intros u Hu. cbn beta zeta.
  apply post_bind, post_logo_step. intros logo_path w1 Hsent.
  apply post_bind. unfold log at 1. apply post_ret.
  apply post_bind, post_generate_slide_content. intros w2. fields. rewrite Hsent.
  do 8 (apply post_any; intros ? ?).
  apply post_bind, post_lift. intros n Hn. cbn beta.
  apply post_any. intros later w_end. apply post_ret.
  intros _. exists c, i, b, p, u, n. split_and!; try done.
  intros Hfb. rewrite (slide_data_for_fallback E _ _ _ _ _ _ Hfb) in Hn.
  by injection Hn as <-.
Qed.

End Count.

(** C2, as far as the code goes.  Whenever the answer to a request has
    status 200, its body is a JSON object whose five fields strip to
    strings, and [slides_generated] is the length of the [slides] of the
    slide data that [generate_slide_content] returned for them; it is 8
    when the call of the service raised or the reply did not decode. *)
Theorem slides_generated_counts_the_slide_data
    (E : Env) (w w' : world) (req : request) (r : response) :
  serve E (ToGenerateDeck req) w = (r, w') ->
  status r = 200 ->
  exists d c i b p u n,
    get_json req = Some (JObj d)
    /\ stripped d "company_name" = inr c
    /\ stripped d "industry" = inr i
    /\ stripped d "buyer_persona" = inr b
    /\ stripped d "main_pain_point" = inr p
    /\ stripped d "use_case" = inr u
    /\ count_slides (slide_data_for E (length (prompts_sent w)) c i b p u) = inr n
    /\ slides_generated r = Some (JInt n)
    /\ (falls_back E (length (prompts_sent w)) c i b p u = true -> n = 8).
Proof.
  cbn [serve]. unfold full_dispatch_request, generate_deck, try_except.
  destruct (is_json req); cbn [is_json].
  2: { unfold ret. intros [= <- _] [=]. }
  destruct (get_json req) as [data|].
  2: { unfold bind, abort, raise, log, ret. intros [= <- _] [=]. }
  unfold bind at 1, ret at 1.
  destruct data as [| | | | | |d];
    try (unfold raise, bind, log, ret; intros [= <- _] [=]).
  unfold bind at 1, log at 1.
  pose proof (generate_deck_body_counts E d
                (with_logged (logged w ++ [received d]) w)) as Hbody.
  unfold post in Hbody. fields in Hbody. unfold received in Hbody.
  match type of Hbody with
  | forall a w', ?body ?w0 = _ -> _ => destruct (body w0) as [[r0|e] w1] eqn:Hrun
  end.
  - intros [= <- _] Hstatus.
    destruct (Hbody r0 w1 eq_refl Hstatus) as (c & i & b & p & u & n & H).
    exists d, c, i, b, p, u, n. split; [done|exact H].
  - unfold bind, log, ret. intros [= <- _] [=].
Qed.

Lemma slides_generated_counts_the_slide_data_witness :
  exists d c i b p u n,
    get_json (Request true (Some (JObj (five_fields "Acme")))) = Some (JObj d)
    /\ stripped d "company_name" = inr c
    /\ stripped d "industry" = inr i
    /\ stripped d "buyer_persona" = inr b
    /\ stripped d "main_pain_point" = inr p
    /\ stripped d "use_case" = inr u
    /\ count_slides (slide_data_for offline (length (prompts_sent nothing)) c i b p u)
       = inr n
    /\ slides_generated
         (fst (serve offline
                 (ToGenerateDeck (Request true (Some (JObj (five_fields "Acme")))))
                 nothing))
       = Some (JInt n)
    /\ (falls_back offline (length (prompts_sent nothing)) c i b p u = true -> n = 8).
Proof.
  apply (slides_generated_counts_the_slide_data offline nothing
           (snd (serve offline
                   (ToGenerateDeck (Request true (Some (JObj (five_fields "Acme")))))
                   nothing))).
  - vm_compute. reflexivity.
  - vm_compute. reflexivity.
Defined.

(** C2 as the specification has it fails when the service replies with an
    object that holds no slides: the request is valid, the answer has
    status 200, and it reports 0 slides. *)
Lemma reply_without_slides_reports_zero :
  let d := five_fields "Acme" in
  let r := fst (serve chatty (ToGenerateDeck (Request true (Some (JObj d)))) nothing) in
  validate_input d = inr (true, "")
  /\ falls_back chatty 0 "Acme" "Retail" "Head of Sales" "Slow quotes" "Quote automation"
     = false
  /\ status r = 200
  /\ slides_generated r = Some (JInt 0).
Proof. vm_compute. repeat split. Qed.

(** ** Rendering without a logo *)

(** [render_slide], [render_slides] and [create_powerpoint] when
    [logo_path] is [None]: no file is read and nothing is logged on the
    way, so the slides are a function of the slide data. *)
Definition plain_slide (i : nat) (slide_content : json) : exn + slide :=
  title_value <-! py_get slide_content "title" (JStr "");;
  title_text <-! as_text title_value;;
  body_text <-!
    (if (0 <? i)%nat then
       content_items <-! py_get slide_content "content" (JArr []);;
       items <-! py_iter content_items;;
       fill_body items
     else inr []);;
  inr (Slide (if (i =? 0)%nat then 0%nat else 1%nat) title_text body_text None).

Fixpoint plain_slides (i : nat) (slides_content : list json) : exn + list slide :=
  match slides_content with
  | [] => inr []
  | slide_content :: rest =>
      s <-! plain_slide i slide_content;;
      ss <-! plain_slides (S i) rest;;
      inr (s :: ss)
  end.

Definition plain_deck (slide_data : json) : exn + list slide :=
  slides_value <-! py_get slide_data "slides" (JArr []);;
  slides_content <-! py_iter slides_value;;
  plain_slides 0 slides_content.

Section Plain.

Context (E : Env).




End Plain.

Lemma plain_slides_length i slides_content prs :
  plain_slides i slides_content = inr prs -> length prs = length slides_content.
Proof.
  revert i prs. induction slides_content as [|sc rest IH]; intros i prs.
  - by intros [= <-].
  - cbn [plain_slides]. unfold and_then.
    destruct (plain_slide i sc) as [e|s]; [done|].
    destruct (plain_slides (S i) rest) as [e|ss] eqn:Hrest; [done|].
    intros [= <-]. cbn [length]. f_equal. by eapply IH.
Qed.


Lemma chars_length s : length (chars s) = String.length s.
Proof. induction s as [|c s IH]; [done|]. cbn. by rewrite <- IH. Qed.

(** Slide data that renders has as many [slides] as the deck has slides. *)
Lemma plain_deck_count slide_data prs :
  plain_deck slide_data = inr prs ->
  count_slides slide_data = inr (Z.of_nat (length prs)).
Proof.
  unfold plain_deck, count_slides, and_then.
  destruct (py_get slide_data "slides" (JArr [])) as [e|slides_value]; [done|].
  destruct (py_iter slides_value) as [e|slides_content] eqn:Hiter; [done|].
  intros H. rewrite (plain_slides_length _ _ _ H).
  destruct slides_value; try done; injection Hiter as <-; cbn [py_len];
    unfold len; by rewrite ?length_map, ?chars_length.
Qed.


(** The fallback content always renders. *)
Lemma plain_deck_fallback c i p u :
  exists prs, plain_deck (fallback_content c i p u) = inr prs /\ length prs = 8%nat.
Proof. eexists. split; reflexivity. Qed.

(** ** A logo that is no image *)

(** One statement of a sequence, run by [t]. *)
Tactic Notation "step" "by" tactic3(t) :=
  erewrite bind_ok by t; cbn beta iota zeta.

(** The path of a logo is not that of a deck. *)
Lemma logo_is_no_deck x y :
  UPLOAD_FOLDER +:+ "/" +:+ ("logo_" +:+ x)
  <> UPLOAD_FOLDER +:+ "/" +:+ ("sales_deck_" +:+ y).
Proof. intros H. cbv [UPLOAD_FOLDER String.append] in H. discriminate H. Qed.

Section Refused.

Context (E : Env).




End Refused.



(** A valid body with a logo of three base64 characters, which lack
    padding. *)
Definition with_bad_logo : list (string * json) :=
  five_fields "Acme" ++ [("logo_base64", JStr "data:image/png;base64,abc")].

(** A valid body with a logo that holds no base64 character. *)
Definition with_junk_logo : list (string * json) :=
  five_fields "Acme" ++ [("logo_base64", JStr "data:image/png;base64,%%%")].

(** The fallback deck for that body. *)
Definition acme_deck : list slide :=
  match plain_deck (fallback_content "Acme" "Retail" "Slow quotes" "Quote automation") with
  | inr prs => prs
  | inl _ => []
  end.

(** A decoder that, as CPython's does, skips what is no base64 character:
    the text [%%%] decodes to no bytes at all, which is no image. *)
Definition lenient : Env := {|
  json_loads := json_loads offline;
  b64decode := fun s => if String.eqb s "%%%" then Some "" else None;
  image_ok := fun _ => false;
  chat_completion := chat_completion offline;
  uuid4 := uuid4 offline;
  clock := clock offline;
  isoformat := isoformat offline;
  may_write := may_write offline;
  may_remove := may_remove offline;
  under_root_path := under_root_path offline;
  exn_text := exn_text offline
|}.


(** Text that decodes, but to no image, is written to a file; the picture
    is then refused, which is logged as a warning, the deck is saved
    without it and the file is unlinked. *)
Lemma text_that_decodes_to_no_image_is_left_out :
  let run :=
    serve lenient (ToGenerateDeck (Request true (Some (JObj with_junk_logo)))) nothing in
  status (fst run) = 200
  /\ disk (snd run)
     = <["temp_files/sales_deck_Acme_22222222-2222-4222-a222-222222222222.pptx"
         := Pptx acme_deck]> ∅
  /\ logged (snd run)
     = [received with_junk_logo;
        LogInfo "Generating slide content with GPT-4...";
        LogError "Error generating content with GPT-4: " (ServiceError "connection refused");
        LogInfo "Creating PowerPoint presentation...";
        LogWarning "Could not add logo: "
          (OSError "temp_files/logo_1111111111114111a111111111111111.png");
        LogInfo
          "Successfully generated deck with file_id: 22222222-2222-4222-a222-222222222222"].
Proof. vm_compute. repeat split. Qed.



(** ** Threads *)

(** *** Threads that run alone are the functions of the module *)

Lemma alone_guarded {A} (t : thread A) h w :
  alone (guarded t h) w = try_except (alone t) (fun e => alone (h e)) w.
Proof.
  revert w. induction t as [a|e|X act rest IH]; intros w; try done.
  cbn [guarded alone]. unfold try_except. destruct (act w) as [o w']. apply IH.
Qed.

Lemma alone_download_thread (E : Env) file_id w :
  alone (download_thread E file_id) w = download_file E file_id w.
Proof.
  unfold download_thread, download_file. rewrite alone_guarded.
  unfold try_except, bind, when, on_return, abort, raise, ret.
  cbn [alone].
  unfold files_contains, files_getitem, os_path_exists, datetime_now, files_delitem,
    os_remove, send_file, log, has_key. fields.
  destruct (lookup_key file_id (generated_files w)) as [info|] eqn:Hentry;
    cbn [negb alone]; [|done].
  rewrite Hentry. cbn [alone]. fields.
  destruct (disk w !! path info) as [data|] eqn:Hfile; cbn [negb alone]; fields.
  2: { rewrite Hentry. done. }
  destruct (one_hour <? clock E (clock_reads w) - created_at info); cbn [alone]; fields.
  - rewrite Hfile. destruct (may_remove E (path info)); cbn [alone]; fields; [|done].
    rewrite Hentry. done.
  - by destruct (disk w !! under_root_path E (path info)).
Qed.

Lemma alone_forget_thread {A} ids (rest : thread A) w :
  alone (forget_thread ids rest) w
  = match forget ids w with
    | (Ok _, w') => alone rest w'
    | (Raise e, w') => (Raise e, w')
    end.
Proof.
  revert w. induction ids as [|file_id ids IH]; intros w; [done|].
  cbn [forget_thread forget alone]. unfold bind.
  destruct (files_delitem file_id w) as [[[]|e] w']; cbn [on_return alone]; [|done].
  apply IH.
Qed.

Lemma alone_collect_thread {A} (E : Env) fuel pos size now acc (rest : list string -> thread A) w :
  length (generated_files w) = size ->
  (size - pos < fuel)%nat ->
  alone (collect_thread E fuel pos size now acc rest) w
  = match collect_old E now (drop pos (generated_files w)) acc w with
    | (Ok ids, w') => alone (rest ids) w'
    | (Raise e, w') => (Raise e, w')
    end.
Proof.
  revert pos acc w. induction fuel as [|fuel IH]; intros pos acc w Hsize Hfuel; [lia|].
  cbn [collect_thread alone]. unfold files_next. rewrite Hsize, Nat.eqb_refl.
  cbn [on_return].
  destruct (generated_files w !! pos) as [[file_id info]|] eqn:Hitem.
  - rewrite (drop_S _ _ _ Hitem). cbn [collect_old].
    assert (pos < size)%nat as Hpos by (rewrite <- Hsize; by eapply lookup_lt_Some).
    destruct (is_old now info); [|apply IH; [done|lia]].
    cbn [alone]. unfold bind at 1, os_path_exists at 2. unfold os_path_exists at 1.
    destruct (disk w !! path info) as [data|] eqn:Hfile; cbn [on_return].
    + cbn [alone]. unfold bind at 1, when, os_remove. rewrite Hfile.
      destruct (may_remove E (path info)); cbn [on_return alone]; [|done].
      rewrite IH; [done|done|lia].
    + unfold bind at 1, when, ret. apply IH; [done|lia].
  - apply lookup_ge_None in Hitem. rewrite drop_ge by done. done.
Qed.

Lemma alone_cleanup_thread (E : Env) w :
  alone (cleanup_thread E) w = cleanup_pass E w.
Proof.
  unfold cleanup_thread, cleanup_pass. rewrite alone_guarded.
  unfold try_except. cbn [alone]. unfold bind at 1, datetime_now. cbn [on_return alone].
  unfold bind at 1, files_items, files_len. cbn [on_return].
  rewrite alone_collect_thread; [|done|lia].
  fields. rewrite drop_0. unfold bind.
  destruct (collect_old E _ _ _ _) as [[ids|e] w1]; [|done].
  rewrite alone_forget_thread. by destruct (forget ids w1) as [[[]|e] w2].
Qed.

(** *** A cleanup pass inside a download *)

(** The worker makes its first call, the cleanup thread runs a whole pass
    over a one-entry dictionary in seven calls, the worker makes its
    remaining two calls. *)
Definition cleanup_inside_download : list turn :=
  [Worker] ++ replicate 7 Cleaner ++ [Worker; Worker].

(** C3, as far as the code goes.  Nothing keeps the calls of a download
    and those of a cleanup pass apart.  With one old entry in the
    dictionary, the file on disk and the unlink permitted: after the
    worker's membership test and the first two calls of the pass both
    threads are in the middle of their sequences; and when the whole pass
    runs between the membership test and the lookup of the download, the
    lookup raises [KeyError], which the download logs and answers with
    500.  Run one after the other, in either order, the two threads log a
    410, respectively a 404, instead. *)
Theorem cleanup_pass_can_run_inside_a_download
    (E : Env) (w : world) (file_id : string) (info : file_info) (data : fdata) :
  let start := Pool (download_thread E file_id) (cleanup_thread E) in
  let middle := interleave [Worker; Cleaner; Cleaner] start w in
  let finish := interleave cleanup_inside_download start w in
  let download_first :=
    alone (cleanup_thread E) (snd (alone (download_thread E file_id) w)) in
  let cleanup_first :=
    alone (download_thread E file_id) (snd (alone (cleanup_thread E) w)) in
  generated_files w = [(file_id, info)] ->
  disk w !! path info = Some data ->
  is_old (clock E (clock_reads w)) info = true ->
  may_remove E (path info) = true ->
  running (worker (fst middle)) = true
  /\ running (cleaner (fst middle)) = true
  /\ worker (fst finish) = Raised (HTTPException 500)
  /\ cleaner (fst finish) = Returned tt
  /\ generated_files (snd finish) = []
  /\ disk (snd finish) = delete (path info) (disk w)
  /\ logged (snd finish)
     = logged w
       ++ [LogError ("Error downloading file " +:+ file_id +:+ ": ") (KeyError file_id)]
  /\ logged (snd download_first) = logged w ++ [download_log file_id 410]
  /\ logged (snd cleanup_first) = logged w ++ [download_log file_id 404].
Proof.
  intros start middle finish download_first cleanup_first Hfiles Hfile Hold Hcan.
  assert (lookup_key file_id (generated_files w) = Some info) as Hentry
    by (rewrite Hfiles; apply lookup_key_head).
  assert (one_hour < clock E (clock_reads w) - created_at info) as Hage
    by (by apply Z.ltb_lt).
  assert (running (worker (fst middle)) = true
          /\ running (cleaner (fst middle)) = true) as [Hworker Hcleaner].
  { subst middle start. unfold download_thread, cleanup_thread.
    repeat (progress (
      cbv delta [files_contains files_getitem files_delitem files_len files_next
                 datetime_now os_path_exists os_remove log has_key];
      cbn [interleave advance worker cleaner guarded on_return collect_thread
           forget_thread replicate app length Nat.eqb lookup list_lookup lookup_key
           negb fst snd running];
      fields;
      rewrite ?Hfiles, ?Hentry, ?Hfile, ?Hcan, ?Hold, ?lookup_key_head,
        ?remove_key_head)).
    by split. }
  assert (finish
          = (Pool (Raised (HTTPException 500)) (Returned tt),
             with_logged
               (logged w
                ++ [LogError ("Error downloading file " +:+ file_id +:+ ": ")
                      (KeyError file_id)])
               (with_files []
                  (with_disk (delete (path info) (disk w))
                     (with_clock_reads (S (clock_reads w)) w))))) as ->.
  { subst finish start. unfold cleanup_inside_download, download_thread, cleanup_thread.
    repeat (progress (
      cbv delta [files_contains files_getitem files_delitem files_len files_next
                 datetime_now os_path_exists os_remove log has_key];
      cbn [interleave advance worker cleaner guarded on_return collect_thread
           forget_thread replicate app length Nat.eqb lookup list_lookup lookup_key
           negb fst snd running];
      fields;
      rewrite ?Hfiles, ?Hentry, ?Hfile, ?Hcan, ?Hold, ?lookup_key_head,
        ?remove_key_head)).
    reflexivity. }
  assert (logged (snd download_first) = logged w ++ [download_log file_id 410]).
  { subst download_first. rewrite alone_download_thread, alone_cleanup_thread.
    erewrite download_file_expired by done. cbn [snd].
    rewrite cleanup_pass_ok.
    - done.
    - fields. rewrite Hfiles, remove_key_head. constructor.
    - fields. rewrite Hfiles, remove_key_head. constructor. }
  assert (logged (snd cleanup_first) = logged w ++ [download_log file_id 404]).
  { subst cleanup_first. rewrite alone_download_thread, alone_cleanup_thread.
    rewrite cleanup_pass_ok.
    - cbn [snd]. rewrite download_file_unknown; [done|].
      fields. rewrite Hfiles. unfold young_items. cbn [List.filter snd].
      by rewrite Hold.
    - rewrite Hfiles. apply NoDup_singleton.
    - rewrite Hfiles. repeat constructor. done. }
  fields. split_and!; done.
Qed.

(** One deck of two hours ago, its file on disk. *)
Definition one_old : world :=
  World [("a", deck_a)] (<["temp_files/a.pptx" := Pptx []]> ∅) [] 0 0 [].

Lemma cleanup_pass_can_run_inside_a_download_witness :
  running
    (worker
       (fst (interleave [Worker; Cleaner; Cleaner]
               (Pool (download_thread offline "a") (cleanup_thread offline)) one_old)))
  = true
  /\ running
       (cleaner
          (fst (interleave [Worker; Cleaner; Cleaner]
                  (Pool (download_thread offline "a") (cleanup_thread offline)) one_old)))
     = true
  /\ worker
       (fst (interleave cleanup_inside_download
               (Pool (download_thread offline "a") (cleanup_thread offline)) one_old))
     = Raised (HTTPException 500)
  /\ cleaner
       (fst (interleave cleanup_inside_download
               (Pool (download_thread offline "a") (cleanup_thread offline)) one_old))
     = Returned tt
  /\ generated_files
       (snd (interleave cleanup_inside_download
               (Pool (download_thread offline "a") (cleanup_thread offline)) one_old))
     = []
  /\ disk
       (snd (interleave cleanup_inside_download
               (Pool (download_thread offline "a") (cleanup_thread offline)) one_old))
     = delete (path deck_a) (disk one_old)
  /\ logged
       (snd (interleave cleanup_inside_download
               (Pool (download_thread offline "a") (cleanup_thread offline)) one_old))
     = logged one_old
       ++ [LogError ("Error downloading file " +:+ "a" +:+ ": ") (KeyError "a")]
  /\ logged
       (snd (alone (cleanup_thread offline)
               (snd (alone (download_thread offline "a") one_old))))
     = logged one_old ++ [download_log "a" 410]
  /\ logged
       (snd (alone (download_thread offline "a")
               (snd (alone (cleanup_thread offline) one_old))))
     = logged one_old ++ [download_log "a" 404].
Proof.
  apply (cleanup_pass_can_run_inside_a_download offline one_old "a" deck_a (Pptx [])).
  - reflexivity.
  - reflexivity.
  - reflexivity.
  - reflexivity.
Defined.

(** C3 as the specification has it fails on a dictionary with one deck of
    two hours ago: there is a state in which the download of that deck and
    a cleanup pass have both begun and neither has ended, and a schedule on
    which the two leave a log that neither order of running them one after
    the other leaves. *)
Lemma download_and_cleanup_are_not_serialized :
  let start := Pool (download_thread offline "a") (cleanup_thread offline) in
  let middle := fst (interleave [Worker; Cleaner; Cleaner] start one_old) in
  let interleaved := snd (interleave cleanup_inside_download start one_old) in
  let download_first :=
    snd (alone (cleanup_thread offline) (snd (alone (download_thread offline "a") one_old))) in
  let cleanup_first :=
    snd (alone (download_thread offline "a") (snd (alone (cleanup_thread offline) one_old))) in
  running (worker middle) = true
  /\ running (cleaner middle) = true
  /\ logged interleaved <> logged download_first
  /\ logged interleaved <> logged cleanup_first.
Proof. vm_compute. repeat split; discriminate. Qed.

(** * Further properties of the module *)

(** ** Strings as lists of characters *)

Lemma chars_text l : chars (text l) = l.
Proof. apply String.list_ascii_of_string_of_list_ascii. Qed.

Lemma text_chars s : text (chars s) = s.
Proof. apply String.string_of_list_ascii_of_string. Qed.

Lemma append_cons c a b : String c a +:+ b = String c (a +:+ b).
Proof. reflexivity. Qed.

Lemma chars_app a b : chars (a +:+ b) = chars a ++ chars b.
Proof.
  unfold chars. induction a as [|c a IH]; [done|].
  rewrite append_cons. simpl. f_equal. apply IH.
Qed.

Lemma text_app l k : text (l ++ k) = text l +:+ text k.
Proof.
  unfold text. induction l as [|c l IH]; [done|].
  simpl. rewrite append_cons. f_equal. apply IH.
Qed.

Lemma len_text l : len (text l) = Z.of_nat (length l).
Proof. unfold len. by rewrite <- chars_length, chars_text. Qed.

Lemma lstrip_chars_length l : (length (lstrip_chars l) <= length l)%nat.
Proof.
  induction l as [|c l IH]; [done|]. cbn [lstrip_chars].
  destruct (isspace c); cbn [length]; lia.
Qed.

(** [strip] never makes a string longer. *)
Lemma len_strip s : len (strip s) <= len s.
Proof.
  unfold strip. rewrite len_text, length_rev. unfold len. rewrite <- chars_length.
  pose proof (lstrip_chars_length (rev (lstrip_chars (chars s)))) as H1.
  pose proof (lstrip_chars_length (chars s)) as H2.
  rewrite length_rev in H1. lia.
Qed.

(** ** Validation, both ways *)

Lemma first_missing_passes fields d :
  first_missing fields d = inr None <-> Forall (filled d) fields.
Proof.
  induction fields as [|f fields IH]; cbn [first_missing].
  - split; [constructor|done].
  - rewrite Forall_cons, <- IH. unfold filled.
    destruct (lookup_key f d) as [v|]; [|split; [done|intros [(s & [=] & _) _]]].
    destruct v as [| | | |s| |]; cbn [py_strip];
      try (split; [done|intros [(s' & [=] & _) _]]).
    destruct (String.eqb_spec (strip s) "") as [Hs|Hs].
    + split; [done|]. intros [(s' & [= <-] & Hs') _]. done.
    + split; [|by intros [_ ?]]. intros H. split; [|done]. by exists s.
Qed.

(** What [validate_input] has checked when it says yes. *)
Lemma validate_input_yes d msg :
  validate_input d = inr (true, msg) ->
  msg = ""
  /\ exists c i b p u,
       lookup_key "company_name" d = Some (JStr c) /\ strip c <> "" /\ len c <= 100
       /\ lookup_key "industry" d = Some (JStr i) /\ strip i <> "" /\ len i <= 100
       /\ lookup_key "buyer_persona" d = Some (JStr b) /\ strip b <> "" /\ len b <= 200
       /\ lookup_key "main_pain_point" d = Some (JStr p) /\ strip p <> "" /\ len p <= 500
       /\ lookup_key "use_case" d = Some (JStr u) /\ strip u <> "" /\ len u <= 500.
Proof.
  unfold validate_input, and_then.
  destruct (first_missing required_fields d) as [e|[m|]] eqn:Hmiss; try done.
  apply first_missing_passes in Hmiss. unfold required_fields in Hmiss.
  repeat match goal with
         | H : Forall _ (_ :: _) |- _ => apply Forall_cons in H as [(? & ? & ?) H]
         end.
  erewrite !too_long_str by eassumption.
  repeat match goal with
         | |- context [if ?x <? ?y then _ else _] => destruct (Z.ltb_spec x y); try done
         end.
  intros [= <-]. split; [done|]. eauto 20.
Qed.

(** X1.  [validate_input] says yes, with an empty message, exactly when
    each of the five required fields holds a string with more than white
    space and none of them is longer than its bound; the bound is on the
    string as sent, not as stripped. *)
Theorem validate_input_accepts_exactly (d : list (string * json)) (msg : string) :
  validate_input d = inr (true, msg)
  <-> msg = "" /\ Forall (filled d) required_fields /\ ~ over_bound d.
Proof.
  split.
  - intros H. destruct (validate_input_yes d msg H)
      as (-> & c & i & b & p & u & Hc & Hc1 & Hc2 & Hi & Hi1 & Hi2 & Hb & Hb1 & Hb2
          & Hp & Hp1 & Hp2 & Hu & Hu1 & Hu2).
    split; [done|]. split.
    + unfold required_fields, filled. repeat constructor; eauto.
    + intros (f & bound & s & Hin & Hs & Hlen). unfold length_bounds in Hin.
      repeat (apply elem_of_cons in Hin as [[= -> ->]|Hin]; [congruence + (simplify_eq; lia)|]).
      by apply elem_of_nil in Hin.
  - intros (-> & Hfilled & Hover).
    unfold validate_input, and_then.
    rewrite (proj2 (first_missing_passes required_fields d) Hfilled).
    unfold required_fields in Hfilled.
    repeat match goal with
           | H : Forall _ (_ :: _) |- _ => apply Forall_cons in H as [(? & ? & ?) H]
           end.
    erewrite !too_long_str by eassumption.
    repeat match goal with
           | |- context [if ?x <? ?y then _ else _] =>
               let Hlt := fresh "Hlt" in
               destruct (Z.ltb_spec x y) as [Hlt|?];
               [exfalso; apply Hover;
                refine (ex_intro _ _ (ex_intro _ x (ex_intro _ _ (conj _ (conj _ Hlt)))));
                [|eassumption]; unfold length_bounds; rewrite !elem_of_cons;
                repeat (first [left; reflexivity | right])|]
           end.
    done.
Qed.

(** X2.  What [generate_deck] passes on after a yes of [validate_input]:
    the five fields stripped, none of them empty and each within the bound
    of its field. *)
Theorem validated_inputs_are_filled_and_bounded (d : list (string * json)) (msg : string) :
  validate_input d = inr (true, msg) ->
  exists c i b p u,
    stripped d "company_name" = inr c /\ c <> "" /\ len c <= 100
    /\ stripped d "industry" = inr i /\ i <> "" /\ len i <= 100
    /\ stripped d "buyer_persona" = inr b /\ b <> "" /\ len b <= 200
    /\ stripped d "main_pain_point" = inr p /\ p <> "" /\ len p <= 500
    /\ stripped d "use_case" = inr u /\ u <> "" /\ len u <= 500.
Proof.
  intros H. destruct (validate_input_yes d msg H)
    as (_ & c & i & b & p & u & Hc & Hc1 & Hc2 & Hi & Hi1 & Hi2 & Hb & Hb1 & Hb2
        & Hp & Hp1 & Hp2 & Hu & Hu1 & Hu2).
  exists (strip c), (strip i), (strip b), (strip p), (strip u).
  unfold stripped, getitem, and_then. rewrite Hc, Hi, Hb, Hp, Hu. cbn [py_strip].
  pose proof (len_strip c). pose proof (len_strip i). pose proof (len_strip b).
  pose proof (len_strip p). pose proof (len_strip u).
  split_and!; try done; lia.
Qed.

Lemma validated_inputs_are_filled_and_bounded_witness :
  exists c i b p u,
    stripped (five_fields " Acme ") "company_name" = inr c /\ c <> "" /\ len c <= 100
    /\ stripped (five_fields " Acme ") "industry" = inr i /\ i <> "" /\ len i <= 100
    /\ stripped (five_fields " Acme ") "buyer_persona" = inr b /\ b <> "" /\ len b <= 200
    /\ stripped (five_fields " Acme ") "main_pain_point" = inr p /\ p <> ""
       /\ len p <= 500
    /\ stripped (five_fields " Acme ") "use_case" = inr u /\ u <> "" /\ len u <= 500.
Proof.
  apply (validated_inputs_are_filled_and_bounded (five_fields " Acme ") "").
  vm_compute. reflexivity.
Defined.

(** X3.  The message of a no names the first required field, in the order
    of the loop, that is absent or blank, whatever else is wrong with the
    body: the length tests come after the loop. *)
Theorem validate_input_names_the_first_blank_field
    (d : list (string * json)) (pre post : list string) (f : string) :
  required_fields = pre ++ f :: post ->
  Forall (filled d) pre ->
  blank d f ->
  validate_input d = inr (false, "Missing or empty required field: " +:+ f).
Proof.
  intros Hfields Hpre Hblank. unfold validate_input, and_then. rewrite Hfields.
  clear Hfields.
  assert (first_missing (pre ++ f :: post) d = inr (Some (missing_message f))) as ->; [|done].
  induction pre as [|g pre IH]; cbn [first_missing app].
  - destruct Hblank as [->|(s & -> & Hs)]; [done|]. cbn [py_strip]. by rewrite Hs.
  - apply Forall_cons in Hpre as [(s & -> & Hs) Hpre]. cbn [py_strip].
    apply String.eqb_neq in Hs. rewrite Hs. by apply IH.
Qed.

Lemma validate_input_names_the_first_blank_field_witness :
  validate_input
    [("company_name", JStr long_name); ("industry", JStr "Retail");
     ("buyer_persona", JStr "Head of Sales"); ("main_pain_point", JStr "Slow quotes")]
  = inr (false, "Missing or empty required field: " +:+ "use_case").
Proof.
  apply (validate_input_names_the_first_blank_field _
           ["company_name"; "industry"; "buyer_persona"; "main_pain_point"] []).
  - reflexivity.
  - repeat constructor; (eexists; split; [reflexivity|vm_compute; discriminate]).
  - left. reflexivity.
Defined.

(** ** [allowed_file] *)

(** [ALLOWED_EXTENSIONS], a set, of which only membership is asked. *)
Definition ALLOWED_EXTENSIONS : list string := ["png"; "jpg"; "jpeg"; "gif"].

(** [c.lower()] for a code point below 256: the Latin capitals and the
    accented capitals of Latin-1, which leaves out the multiplication sign. *)
Definition lower_char (c : ascii) : ascii :=
  let n := nat_of_ascii c in
  if ((65 <=? n) && (n <=? 90) || (192 <=? n) && (n <=? 222) && negb (n =? 215))%nat
  then ascii_of_nat (n + 32)
  else c.

(** [s.lower()] *)
Definition lower (s : string) : string := text (map lower_char (chars s)).

(** [s.rsplit(sep, 1)[1]] for a string that holds [sep]: what follows the
    last [sep]. *)
Definition rsplit_last (sep : ascii) (s : string) : string :=
  text (rev (upto sep (rev (chars s)))).

Definition allowed_file (file_name : string) : bool :=
  contains "." file_name
  && existsb (String.eqb (lower (rsplit_last "." file_name))) ALLOWED_EXTENSIONS.

Lemma upto_app sep x y :
  existsb (Ascii.eqb sep) x = false -> upto sep (x ++ sep :: y) = x.
Proof.
  induction x as [|c x IH]; cbn [existsb app upto].
  - by rewrite Ascii.eqb_refl.
  - intros [Hc Hx]%orb_false_elim. rewrite Ascii.eqb_sym, Hc. f_equal. by apply IH.
Qed.

Lemma existsb_split sep l :
  existsb (Ascii.eqb sep) l = true ->
  exists x y, l = x ++ sep :: y /\ existsb (Ascii.eqb sep) x = false.
Proof.
  induction l as [|c l IH]; [done|]. cbn [existsb].
  destruct (Ascii.eqb_spec sep c) as [->|Hne].
  - intros _. by exists [], l.
  - intros H. destruct (IH H) as (x & y & -> & Hx). exists (c :: x), y.
    split; [done|]. cbn [existsb]. rewrite Hx.
    by destruct (Ascii.eqb_spec sep c).
Qed.

Lemma existsb_rev {A} (f : A -> bool) l : existsb f (rev l) = existsb f l.
Proof.
  induction l as [|a l IH]; [done|]. cbn [rev existsb].
  rewrite existsb_app, IH. cbn [existsb]. destruct (f a), (existsb f l); done.
Qed.

(** A string that holds [sep] splits at its last [sep]. *)
Lemma rsplit_last_spec sep s :
  contains sep s = true ->
  exists stem,
    s = stem +:+ String sep (rsplit_last sep s)
    /\ contains sep (rsplit_last sep s) = false.
Proof.
  unfold contains, rsplit_last. intros H.
  rewrite <- existsb_rev in H.
  destruct (existsb_split _ _ H) as (x & y & Hrev & Hx).
  rewrite Hrev, upto_app by done. rewrite chars_text, existsb_rev.
  exists (text (rev y)). split; [|done].
  rewrite <- (text_chars s), <- (rev_involutive (chars s)), Hrev.
  rewrite rev_app_distr. cbn [rev]. rewrite <- app_assoc. cbn [app].
  rewrite text_app. reflexivity.
Qed.

Lemma rsplit_last_app sep stem ext :
  contains sep ext = false -> rsplit_last sep (stem +:+ String sep ext) = ext.
Proof.
  unfold contains, rsplit_last. intros H.
  rewrite chars_app. change (chars (String sep ext)) with (sep :: chars ext).
  rewrite rev_app_distr. cbn [rev]. rewrite <- app_assoc. cbn [app].
  rewrite upto_app by by rewrite existsb_rev.
  by rewrite rev_involutive, text_chars.
Qed.

(** X4.  [allowed_file] accepts exactly the names that end in a dot
    followed by one of the four extensions in any mix of upper and lower
    case; what counts is the text after the last dot, and nothing is asked
    of the text before it. *)
Theorem allowed_file_accepts_exactly (file_name : string) :
  allowed_file file_name = true
  <-> exists stem ext,
        file_name = stem +:+ "." +:+ ext
        /\ contains "." ext = false
        /\ lower ext ∈ ALLOWED_EXTENSIONS.
Proof.
  unfold allowed_file. rewrite andb_true_iff. split.
  - intros [Hdot Hext].
    destruct (rsplit_last_spec _ _ Hdot) as (stem & Hname & Hnodot).
    exists stem, (rsplit_last "." file_name). split; [exact Hname|]. split; [done|].
    apply existsb_exists in Hext as (e & Hin & ->%String.eqb_eq).
    by apply list_elem_of_In.
  - intros (stem & ext & -> & Hnodot & Hin).
    change (stem +:+ "." +:+ ext) with (stem +:+ String "." ext).
    rewrite rsplit_last_app by done. split.
    + unfold contains. rewrite chars_app, existsb_app.
      change (chars (String "." ext)) with ("."%char :: chars ext).
      cbn [existsb]. rewrite Ascii.eqb_refl. by rewrite orb_true_r.
    + apply existsb_exists. exists (lower ext). split; [by apply list_elem_of_In|].
      apply String.eqb_refl.
Qed.

(** ** [save_base64_image] *)

(** X5.  [save_base64_image] never raises.  It returns a path only when
    the value decoded and the file could be written: the path is the file
    name under [temp_files], and the file then holds the decoded bytes.
    Otherwise it returns no path, and the one thing that has changed is
    the log, by one error. *)
Theorem save_base64_image_writes_or_logs
    (E : Env) (base64_data : json) (file_name : string) (w : world) :
  let filepath := os_path_join UPLOAD_FOLDER file_name in
  (exists image_data,
     decode_image E base64_data = inr image_data
     /\ may_write E filepath = true
     /\ save_base64_image E base64_data file_name w
        = (Ok (Some filepath), with_disk (<[filepath := Bytes image_data]> (disk w)) w))
  \/ (exists e,
        save_base64_image E base64_data file_name w
        = (Ok None,
           with_logged (logged w ++ [LogError "Error saving base64 image: " e]) w)).
Proof.
  intros filepath. unfold save_base64_image, try_except, bind, lift, write_file, log,
    ret, raise. fold filepath.
  destruct (decode_image E base64_data) as [e|image_data]; [right; by eexists|].
  destruct (may_write E filepath) eqn:Hwrite; [left|right; by eexists].
  by exists image_data.
Qed.

Lemma upto_none sep x : existsb (Ascii.eqb sep) x = false -> upto sep x = x.
Proof.
  induction x as [|c x IH]; [done|]. cbn [existsb upto].
  intros [Hc Hx]%orb_false_elim. rewrite Ascii.eqb_sym, Hc. f_equal. by apply IH.
Qed.

Lemma after_app sep x y :
  existsb (Ascii.eqb sep) x = false -> after sep (x ++ sep :: y) = Some y.
Proof.
  induction x as [|c x IH]; cbn [existsb app after].
  - by rewrite Ascii.eqb_refl.
  - intros [Hc Hx]%orb_false_elim. rewrite Ascii.eqb_sym, Hc. by apply IH.
Qed.

(** X6.  Of a string with a comma, what is decoded is the text between
    the first and the second comma: a data-URL prefix is dropped, and so
    is whatever follows a second comma. *)
Theorem data_url_prefix_is_dropped (E : Env) (prefix payload : string) :
  contains "," prefix = false ->
  contains "," payload = false ->
  decode_image E (JStr (prefix +:+ "," +:+ payload)) = decode_image E (JStr payload)
  /\ forall more,
       decode_image E (JStr (prefix +:+ "," +:+ payload +:+ "," +:+ more))
       = decode_image E (JStr payload).
Proof.
  unfold contains. intros Hprefix Hpayload.
  assert (forall rest,
            contains "," (prefix +:+ String "," rest) = true
            /\ split_second "," (prefix +:+ String "," rest)
               = Some (text (upto "," (chars rest)))) as Hsplit.
  { intros rest. unfold contains, split_second. rewrite chars_app.
    change (chars (String "," rest)) with (","%char :: chars rest).
    split.
    - rewrite existsb_app. cbn [existsb]. rewrite Ascii.eqb_refl. by rewrite orb_true_r.
    - by rewrite after_app. }
  assert (decode_image E (JStr payload)
          = match b64decode E payload with
            | Some image_data => inr image_data
            | None => inl (ValueError "binascii.Error")
            end) as Hplain.
  { cbn [decode_image]. unfold contains. by rewrite Hpayload. }
  split.
  - destruct (Hsplit payload) as [H1 H2].
    rewrite Hplain. cbn [decode_image].
    change (prefix +:+ "," +:+ payload) with (prefix +:+ String "," payload).
    rewrite H1, H2. by rewrite upto_none, text_chars.
  - intros more. destruct (Hsplit (payload +:+ "," +:+ more)) as [H1 H2].
    rewrite Hplain. cbn [decode_image].
    change (prefix +:+ "," +:+ payload +:+ "," +:+ more)
      with (prefix +:+ String "," (payload +:+ "," +:+ more)).
    rewrite H1, H2.
    change (payload +:+ "," +:+ more) with (payload +:+ String "," more).
    rewrite chars_app. change (chars (String "," more)) with (","%char :: chars more).
    by rewrite upto_app, text_chars.
Qed.

Lemma data_url_prefix_is_dropped_witness :
  decode_image lenient (JStr ("data:image/png;base64" +:+ "," +:+ "%%%"))
  = decode_image lenient (JStr "%%%")
  /\ forall more,
       decode_image lenient
         (JStr ("data:image/png;base64" +:+ "," +:+ "%%%" +:+ "," +:+ more))
       = decode_image lenient (JStr "%%%").
Proof.
  apply (data_url_prefix_is_dropped lenient "data:image/png;base64" "%%%").
  - reflexivity.
  - reflexivity.
Defined.

(** ** A reply with text around the JSON object *)

Lemma from_first_app c x y :
  existsb (Ascii.eqb c) x = false -> from_first c (x ++ c :: y) = Some (c :: y).
Proof.
  induction x as [|a x IH]; cbn [existsb app from_first].
  - by rewrite Ascii.eqb_refl.
  - intros [Ha Hx]%orb_false_elim. rewrite Ascii.eqb_sym in Ha. rewrite Ha. by apply IH.
Qed.

Lemma search_braces_wrapped before inside after :
  contains "{" before = false ->
  contains "}" after = false ->
  search_braces (before +:+ "{" +:+ inside +:+ "}" +:+ after)
  = Some ("{" +:+ inside +:+ "}").
Proof.
  unfold contains, search_braces. intros Hbefore Hafter.
  change (before +:+ "{" +:+ inside +:+ "}" +:+ after)
    with (before +:+ String "{" (inside +:+ String "}" after)).
  rewrite chars_app.
  change (chars (String "{" (inside +:+ String "}" after)))
    with ("{"%char :: chars (inside +:+ String "}" after)).
  rewrite from_first_app by done.
  rewrite chars_app. change (chars (String "}" after)) with ("}"%char :: chars after).
  rewrite rev_app_distr. cbn [rev]. rewrite <- app_assoc. cbn [app].
  rewrite from_first_app by by rewrite existsb_rev.
  cbn [rev]. rewrite rev_involutive.
  change ("{" +:+ inside +:+ "}") with (String "{" (inside +:+ "}")).
  change (text ("{"%char :: chars inside ++ ["}"%char]))
    with (String "{" (text (chars inside ++ ["}"%char]))).
  by rewrite text_app, text_chars.
Qed.

(** X7.  When the reply is no JSON text as a whole but holds an object
    between its first opening and its last closing brace, that object is
    the slide data: [generate_slide_content] returns it and logs nothing. *)
Theorem reply_wrapped_in_text_is_used
    (E : Env) (w : world) (c i b p u reply before inside after : string) (v : json) :
  chat_completion E (length (prompts_sent w)) (prompt c i b p u) = inr reply ->
  strip reply = before +:+ "{" +:+ inside +:+ "}" +:+ after ->
  contains "{" before = false ->
  contains "}" after = false ->
  json_loads E (strip reply) = None ->
  json_loads E ("{" +:+ inside +:+ "}") = Some v ->
  exists w',
    generate_slide_content E c i b p u w = (Ok v, w')
    /\ logged w' = logged w
    /\ prompts_sent w' = prompts_sent w ++ [prompt c i b p u].
Proof.
  intros Hreply Hshape Hbefore Hafter Hwhole Hinside.
  unfold generate_slide_content, try_except, bind, ask_service, lift, parse_reply.
  rewrite Hreply, Hwhole, Hshape, search_braces_wrapped, Hinside by done.
  eexists. split; [reflexivity|]. done.
Qed.

(** The service wraps the object in a sentence. *)
Definition wordy : Env := {|
  json_loads := json_loads chatty;
  b64decode := b64decode offline;
  image_ok := image_ok offline;
  chat_completion := fun _ _ => inr (" Here are your slides: " +:+ empty_reply +:+ " Enjoy! ");
  uuid4 := uuid4 offline;
  clock := clock offline;
  isoformat := isoformat offline;
  may_write := may_write offline;
  may_remove := may_remove offline;
  under_root_path := under_root_path offline;
  exn_text := exn_text offline
|}.

Lemma reply_wrapped_in_text_is_used_witness :
  exists w',
    generate_slide_content wordy "Acme" "Retail" "Head of Sales" "Slow quotes"
      "Quote automation" nothing
    = (Ok (JObj [("slides", JArr [])]), w')
    /\ logged w' = logged nothing
    /\ prompts_sent w'
       = prompts_sent nothing
         ++ [prompt "Acme" "Retail" "Head of Sales" "Slow quotes" "Quote automation"].
Proof.
  apply (reply_wrapped_in_text_is_used wordy nothing "Acme" "Retail" "Head of Sales"
           "Slow quotes" "Quote automation"
           (" Here are your slides: " +:+ empty_reply +:+ " Enjoy! ")
           "Here are your slides: " (dq +:+ "slides" +:+ dq +:+ ": []") " Enjoy!").
  - reflexivity.
  - vm_compute. reflexivity.
  - vm_compute. reflexivity.
  - vm_compute. reflexivity.
  - vm_compute. reflexivity.
  - vm_compute. reflexivity.
Defined.

(** ** [create_powerpoint] with or without a logo *)

(** The slide without its picture. *)
Definition no_picture (s : slide) : slide :=
  Slide (layout s) (title s) (paragraphs s) None.

Section Rendering.

Context (E : Env).

(** A logo changes nothing of a slide but its picture, and that of the
    first slide alone; rendering a slide leaves the state as it was but
    for the log. *)
Lemma render_slide_returns i slide_content logo_path w s w' :
  render_slide E i slide_content logo_path w = (Ok s, w') ->
  plain_slide i slide_content = inr (no_picture s)
  /\ (i <> 0%nat -> picture s = None)
  /\ generated_files w' = generated_files w
  /\ disk w' = disk w
  /\ prompts_sent w' = prompts_sent w.
Proof.
  unfold render_slide, plain_slide, bind, lift, and_then, ret, raise.
  destruct (py_get slide_content "title" (JStr "")) as [e|title_value]; [done|].
  destruct (as_text title_value) as [e|title_text]; [done|].
  assert (forall body_text logo w1,
            (Ok (Slide (if (i =? 0)%nat then 0%nat else 1%nat) title_text body_text logo), w1)
            = (Ok s, w') ->
            (i <> 0%nat -> logo = None) ->
            generated_files w1 = generated_files w ->
            disk w1 = disk w ->
            prompts_sent w1 = prompts_sent w ->
            inr (Slide (if (i =? 0)%nat then 0%nat else 1%nat) title_text body_text None)
            = inr (B := slide) (A := exn) (no_picture s)
            /\ (i <> 0%nat -> picture s = None)
            /\ generated_files w' = generated_files w
            /\ disk w' = disk w
            /\ prompts_sent w' = prompts_sent w) as Hend.
  { intros body_text logo w1 [= <- <-] Hlogo ? ? ?. by split_and!. }
  assert (forall body_text,
            (let (o, w1) :=
               match logo_path with
               | Some p =>
                   if (i =? 0)%nat && negb (String.eqb p "") then
                     fun w0 =>
                       let (o, w2) := os_path_exists p w0 in
                       match o with
                       | Ok there =>
                           (if there then
                              try_except (add_picture E p)
                                (fun e w3 =>
                                   let (o0, w4) := log (LogWarning "Could not add logo: " e) w3 in
                                   match o0 with
                                   | Ok _ => (Ok None, w4)
                                   | Raise e0 => (Raise e0, w4)
                                   end)
                            else fun w3 => (Ok None, w3)) w2
                       | Raise e => (Raise e, w2)
                       end
                   else fun w0 => (Ok None, w0)
               | None => fun w0 => (Ok None, w0)
               end w in
             match o with
             | Ok logo =>
                 (Ok (Slide (if (i =? 0)%nat then 0%nat else 1%nat) title_text body_text logo),
                  w1)
             | Raise e => (Raise e, w1)
             end) = (Ok s, w') ->
            inr (Slide (if (i =? 0)%nat then 0%nat else 1%nat) title_text body_text None)
            = inr (B := slide) (A := exn) (no_picture s)
            /\ (i <> 0%nat -> picture s = None)
            /\ generated_files w' = generated_files w
            /\ disk w' = disk w
            /\ prompts_sent w' = prompts_sent w) as Hlogo.
  { intros body_text.
    destruct logo_path as [p|]; [|intros H; cbv beta iota in H; by apply (Hend _ _ _ H)].
    destruct (Nat.eqb_spec i 0) as [->|Hi]; cbn [andb];
      [|intros H; cbv beta iota in H; by apply (Hend _ _ _ H)].
    destruct (negb (String.eqb p "")); [|intros H; cbv beta iota in H; by apply (Hend _ _ _ H)].
    unfold os_path_exists, try_except, add_picture, log.
    destruct (disk w !! p) as [data|] eqn:Hp; cbv beta iota;
      [|intros H; by apply (Hend _ _ _ H)].
    rewrite Hp. destruct data as [bytes|deck]; [destruct (image_ok E bytes)|];
      intros H; cbv beta iota in H; by apply (Hend _ _ _ H). }
  destruct (0 <? i)%nat; [|apply Hlogo].
  destruct (py_get slide_content "content" (JArr [])) as [e|content_items]; [done|].
  destruct (py_iter content_items) as [e|items]; [done|].
  destruct (fill_body items) as [e|body_text]; [done|]. apply Hlogo.
Qed.

Lemma render_slides_returns i slides_content logo_path w ss w' :
  render_slides E i slides_content logo_path w = (Ok ss, w') ->
  plain_slides i slides_content = inr (map no_picture ss)
  /\ (forall j s, ss !! j = Some s -> (i + j <> 0)%nat -> picture s = None)
  /\ generated_files w' = generated_files w
  /\ disk w' = disk w
  /\ prompts_sent w' = prompts_sent w.
Proof.
  revert i w ss w'. induction slides_content as [|slide_content rest IH]; intros i w ss w'.
  - intros [= <- <-]. by split_and!.
  - cbn [render_slides plain_slides]. unfold bind at 1.
    destruct (render_slide E i slide_content logo_path w) as [[s|e] w1] eqn:Hs; [|done].
    apply render_slide_returns in Hs as (Hplain & Hpic & Hf & Hd & Hp).
    unfold bind at 1.
    destruct (render_slides E (S i) rest logo_path w1) as [[ss'|e] w2] eqn:Hss; [|done].
    apply IH in Hss as (Hplain' & Hpic' & Hf' & Hd' & Hp').
    intros [= <- <-]. rewrite Hplain. unfold and_then. rewrite Hplain'.
    split_and!; [done|..]; try congruence.
    intros [|j] s0; cbn.
    + intros [= <-] Hi. apply Hpic. lia.
    + intros Hj _. apply (Hpic' j s0 Hj). lia.
Qed.

Lemma create_powerpoint_returns slide_data company_name logo_path w prs w' :
  create_powerpoint E slide_data company_name logo_path w = (Ok prs, w') ->
  plain_deck slide_data = inr (map no_picture prs)
  /\ (forall j s, prs !! j = Some s -> j <> 0%nat -> picture s = None)
  /\ generated_files w' = generated_files w
  /\ disk w' = disk w
  /\ prompts_sent w' = prompts_sent w.
Proof.
  unfold create_powerpoint, plain_deck, try_except, and_then, bind, lift, ret, raise.
  destruct (py_get slide_data "slides" (JArr [])) as [e|slides_value];
    [unfold log; done|].
  destruct (py_iter slides_value) as [e|slides_content]; [unfold log; done|].
  destruct (render_slides E 0 slides_content logo_path w) as [[ss|e] w1] eqn:Hss;
    [|unfold log; done].
  intros [= <- <-]. by apply render_slides_returns in Hss.
Qed.

End Rendering.

Lemma fill_body_strings items ps : fill_body items = inr ps -> items = map JStr ps.
Proof.
  revert ps. induction items as [|item items IH]; intros ps.
  - by intros [= <-].
  - cbn [fill_body]. destruct item; try done. cbn [as_text].
    destruct (fill_body items) as [e|ps'] eqn:Hrest; [done|].
    intros [= <-]. cbn [map]. f_equal. by apply IH.
Qed.

(** What one rendered slide has to do with the entry it was made of. *)
Definition rendered (j : nat) (item : json) (s : slide) : Prop :=
  py_get item "title" (JStr "") = inr (JStr (title s))
  /\ (j = 0%nat -> layout s = 0%nat /\ paragraphs s = [])
  /\ (j <> 0%nat ->
      layout s = 1%nat
      /\ exists content_items,
           py_get item "content" (JArr []) = inr content_items
           /\ py_iter content_items = inr (map JStr (paragraphs s))).

Lemma plain_slide_rendered j item s :
  plain_slide j item = inr s -> rendered j item s.
Proof.
  unfold plain_slide, and_then, rendered.
  destruct (py_get item "title" (JStr "")) as [e|title_value]; [done|].
  destruct title_value; try done. cbn [as_text].
  destruct j as [|j]; cbn [Nat.ltb Nat.leb Nat.eqb].
  - intros [= <-]. split_and!; done.
  - destruct (py_get item "content" (JArr [])) as [e|content_items]; [done|].
    destruct (py_iter content_items) as [e|items] eqn:Hiter; [done|].
    destruct (fill_body items) as [e|body_text] eqn:Hbody; [done|].
    intros [= <-]. split_and!; try done. intros _. split; [done|].
    exists content_items. split; [done|]. rewrite Hiter. f_equal.
    by apply fill_body_strings.
Qed.

Lemma plain_slides_rendered i items ss :
  plain_slides i items = inr ss ->
  forall j s, ss !! j = Some s ->
              exists item, items !! j = Some item /\ rendered (i + j) item s.
Proof.
  revert i ss. induction items as [|item items IH]; intros i ss.
  - intros [= <-] j s H. by rewrite lookup_nil in H.
  - cbn [plain_slides]. unfold and_then.
    destruct (plain_slide i item) as [e|s0] eqn:Hs0; [done|].
    destruct (plain_slides (S i) items) as [e|ss'] eqn:Hss; [done|].
    intros [= <-] [|j] s; cbn.
    + intros [= <-]. exists item. split; [done|]. rewrite Nat.add_0_r.
      by apply plain_slide_rendered.
    + intros Hj. destruct (IH _ _ Hss j s Hj) as (it & Hit & Hr).
      exists it. split; [done|]. by replace (i + S j)%nat with (S i + j)%nat by lia.
Qed.

Lemma rendered_no_picture j item s : rendered j item (no_picture s) -> rendered j item s.
Proof. done. Qed.

(** X8.  What [create_powerpoint] returns, when it returns: one slide for
    each entry of [slides], in order.  The first has the title layout and
    the title of its entry, and no text is written to its body, whatever
    bullets the entry holds; every other has the content layout, the title
    of its entry and the bullets of its entry, in order, as the texts of
    its body, and no picture.  The dictionary and the disk are as
    before. *)
Theorem create_powerpoint_renders_each_entry
    (E : Env) (slide_data : json) (company_name : string) (logo_path : option string)
    (w w' : world) (prs : list slide) :
  create_powerpoint E slide_data company_name logo_path w = (Ok prs, w') ->
  exists slides_value items,
    py_get slide_data "slides" (JArr []) = inr slides_value
    /\ py_iter slides_value = inr items
    /\ length prs = length items
    /\ (forall j s, prs !! j = Some s ->
          exists item,
            items !! j = Some item
            /\ rendered j item s
            /\ (j <> 0%nat -> picture s = None))
    /\ generated_files w' = generated_files w
    /\ disk w' = disk w.
Proof.
  intros H. apply create_powerpoint_returns in H as (Hplain & Hpic & Hf & Hd & _).
  unfold plain_deck, and_then in Hplain.
  destruct (py_get slide_data "slides" (JArr [])) as [e|slides_value]; [done|].
  destruct (py_iter slides_value) as [e|items] eqn:Hiter; [done|].
  exists slides_value, items. split_and!; try done.
  - apply plain_slides_length in Hplain. by rewrite length_map in Hplain.
  - intros j s Hj.
    destruct (plain_slides_rendered _ _ _ Hplain j (no_picture s)) as (item & Hitem & Hr).
    { by rewrite list_lookup_fmap, Hj. }
    exists item. split_and!; [done|exact (rendered_no_picture _ _ _ Hr)|exact (Hpic j s Hj)].
Qed.

(** Two entries, the first with a bullet that no slide shows. *)
Definition two_entries : json :=
  JObj [("slides",
         JArr [JObj [("title", JStr "Welcome to Acme"); ("content", JArr [JStr "Hello"])];
               JObj [("title", JStr "The Problem");
                     ("content", JArr [JStr "Slow quotes"; JStr "Lost deals"])]])].

Definition two_entries_reply : string :=
  "{" +:+ dq +:+ "slides" +:+ dq +:+ ": [{" +:+ dq +:+ "title" +:+ dq +:+ ": " +:+ dq
  +:+ "Welcome to Acme" +:+ dq +:+ ", " +:+ dq +:+ "content" +:+ dq +:+ ": [" +:+ dq
  +:+ "Hello" +:+ dq +:+ "]}, {" +:+ dq +:+ "title" +:+ dq +:+ ": " +:+ dq
  +:+ "The Problem" +:+ dq +:+ ", " +:+ dq +:+ "content" +:+ dq +:+ ": [" +:+ dq
  +:+ "Slow quotes" +:+ dq +:+ ", " +:+ dq +:+ "Lost deals" +:+ dq +:+ "]}]}".

(** An environment in which everything works: the service replies with
    [two_entries_reply], the text [aGk=] decodes to an image, the process
    runs in the directory of the module, and the clock advances by a
    minute with every reading. *)
Definition online : Env := {|
  json_loads := fun s => if String.eqb s two_entries_reply then Some two_entries else None;
  b64decode := fun s => if String.eqb s "aGk=" then Some "hi" else None;
  image_ok := fun _ => true;
  chat_completion := fun _ _ => inr two_entries_reply;
  uuid4 := uuid4 offline;
  clock := fun n => 60 * 1000000 * Z.of_nat n;
  isoformat := fun t => if t <? 2 * one_hour then "1970-01-01T01:01:00" else "later";
  may_write := fun _ => true;
  may_remove := fun _ => true;
  under_root_path := under_root_path offline;
  exn_text := exn_text offline
|}.

(** A logo on disk and nothing else. *)
Definition logo_on_disk : world :=
  World [] (<["temp_files/logo_1.png" := Bytes "hi"]> ∅) [] 0 0 [].

Lemma create_powerpoint_renders_each_entry_witness :
  create_powerpoint online two_entries "Acme" (Some "temp_files/logo_1.png") logo_on_disk
  = (Ok [Slide 0 "Welcome to Acme" [] (Some "temp_files/logo_1.png");
         Slide 1 "The Problem" ["Slow quotes"; "Lost deals"] None],
     logo_on_disk)
  /\ exists slides_value items,
       py_get two_entries "slides" (JArr []) = inr slides_value
       /\ py_iter slides_value = inr items
       /\ length [Slide 0 "Welcome to Acme" [] (Some "temp_files/logo_1.png");
                  Slide 1 "The Problem" ["Slow quotes"; "Lost deals"] None]
          = length items
       /\ (forall j s,
             [Slide 0 "Welcome to Acme" [] (Some "temp_files/logo_1.png");
              Slide 1 "The Problem" ["Slow quotes"; "Lost deals"] None] !! j = Some s ->
             exists item,
               items !! j = Some item
               /\ rendered j item s
               /\ (j <> 0%nat -> picture s = None))
       /\ generated_files logo_on_disk = generated_files logo_on_disk
       /\ disk logo_on_disk = disk logo_on_disk.
Proof.
  split; [vm_compute; reflexivity|].
  apply (create_powerpoint_renders_each_entry online two_entries "Acme"
           (Some "temp_files/logo_1.png") logo_on_disk logo_on_disk).
  vm_compute. reflexivity.
Defined.

(** ** The cleanup loop, whatever the operating system does *)

(** The keys of a Python dictionary are distinct; every operation of the
    model keeps them so. *)
Lemma keys_filter_subseteq {A} (f : string * A -> bool) (d : list (string * A)) k :
  k ∈ keys (List.filter f d) -> k ∈ keys d.
Proof.
  induction d as [|[k' v] d IH]; cbn [List.filter]; [done|].
  destruct (f (k', v)); cbn [keys map fst] in *.
  - intros [->|H]%elem_of_cons; [left|right; by apply IH].
  - intros H. right. by apply IH.
Qed.

Lemma NoDup_keys_filter {A} (f : string * A -> bool) (d : list (string * A)) :
  NoDup (keys d) -> NoDup (keys (List.filter f d)).
Proof.
  induction d as [|[k v] d IH]; cbn [List.filter]; [done|].
  cbn [keys map fst]. intros [Hk Hd]%NoDup_cons.
  destruct (f (k, v)); [|by apply IH].
  cbn [keys map fst]. apply NoDup_cons. split; [|by apply IH].
  intros Hin. apply Hk. by eapply keys_filter_subseteq.
Qed.

Lemma lookup_key_None {A} k (d : list (string * A)) :
  lookup_key k d = None <-> k ∉ keys d.
Proof.
  induction d as [|[k' v] d IH]; cbn [lookup_key keys map fst].
  - split; [intros _ H; by apply elem_of_nil in H|done].
  - destruct (String.eqb_spec k k') as [->|Hne].
    + split; [done|]. intros H. exfalso. apply H. left.
    + rewrite IH. split.
      * intros H [?|?]%elem_of_cons; done.
      * intros H Hin. apply H. by right.
Qed.

Lemma lookup_key_elem_of {A} k (v : A) (d : list (string * A)) :
  lookup_key k d = Some v -> (k, v) ∈ d.
Proof.
  induction d as [|[k' v'] d IH]; cbn [lookup_key]; [done|].
  destruct (String.eqb_spec k k') as [->|Hne].
  - intros [= ->]. left.
  - intros H. right. by apply IH.
Qed.

Lemma elem_of_keys {A} k (v : A) (d : list (string * A)) : (k, v) ∈ d -> k ∈ keys d.
Proof.
  induction d as [|[k' v'] d IH]; cbn [keys map fst].
  - intros H. by apply elem_of_nil in H.
  - intros [[= -> ->]|Hin]%elem_of_cons; [left|right; by apply IH].
Qed.

Lemma elem_of_lookup_key {A} k (v : A) (d : list (string * A)) :
  NoDup (keys d) -> (k, v) ∈ d -> lookup_key k d = Some v.
Proof.
  induction d as [|[k' v'] d IH]; cbn [lookup_key keys map fst].
  - intros _ H. by apply elem_of_nil in H.
  - intros [Hk Hd]%NoDup_cons [[= -> ->]|Hin]%elem_of_cons.
    + by rewrite String.eqb_refl.
    + destruct (String.eqb_spec k k') as [->|Hne]; [|by apply IH].
      exfalso. apply Hk. by eapply elem_of_keys.
Qed.

Lemma lookup_key_filter {A} (f : string * A -> bool) (d : list (string * A)) k :
  NoDup (keys d) ->
  lookup_key k (List.filter f d)
  = match lookup_key k d with
    | Some v => if f (k, v) then Some v else None
    | None => None
    end.
Proof.
  induction d as [|[k' v] d IH]; cbn [List.filter lookup_key keys map fst]; [done|].
  intros [Hk Hd]%NoDup_cons.
  destruct (String.eqb_spec k k') as [->|Hne].
  - destruct (f (k', v)) eqn:Hf.
    + cbn [lookup_key]. by rewrite String.eqb_refl.
    + apply lookup_key_None. intros Hin. apply Hk. by eapply keys_filter_subseteq.
  - destruct (f (k', v)); [|by apply IH].
    cbn [lookup_key]. destruct (String.eqb_spec k k'); [done|]. by apply IH.
Qed.

Lemma elem_of_filter_items {A} (f : string * A -> bool) (d : list (string * A)) kv :
  kv ∈ List.filter f d -> kv ∈ d.
Proof. rewrite !list_elem_of_In. intros H. by apply filter_In in H as [? _]. Qed.

Section Loop.

Context (E : Env).

(** The path is that of an old entry of the dictionary. *)
Definition old_file (now : Z) (items : list (string * file_info)) (p : string) : Prop :=
  exists file_id info, (file_id, info) ∈ items /\ is_old now info = true /\ path info = p.

(** What the files of the old entries become on a disk: nothing. *)
Lemma unlink_old_lookup now items d p :
  (old_file now items p /\ unlink_old now items d !! p = None)
  \/ ((forall file_id info, (file_id, info) ∈ items -> is_old now info = true ->
                            path info <> p)
      /\ unlink_old now items d !! p = d !! p).
Proof.
  revert d. induction items as [|[file_id info] rest IH]; intros d.
  - right. split; [|done]. intros ? ? H. by apply elem_of_nil in H.
  - cbn [unlink_old].
    destruct (IH (if is_old now info then delete (path info) d else d))
      as [[(k & i & Hin & Hold & Hp) Hgone]|[Hnone Hsame]].
    + left. split; [|done]. exists k, i. split_and!; [by right|done..].
    + destruct (is_old now info) eqn:Hold.
      * destruct (decide (path info = p)) as [Hp|Hp].
        -- left. split; [exists file_id, info; split_and!; [left|done..]|].
           rewrite Hsame, <- Hp. apply lookup_delete_eq.
        -- right. split.
           ++ intros k i [[= -> ->]|Hin]%elem_of_cons; [done|]. exact (Hnone k i Hin).
           ++ rewrite Hsame. by apply lookup_delete_ne.
      * right. split; [|done].
        intros k i [[= -> ->]|Hin]%elem_of_cons; [congruence|]. exact (Hnone k i Hin).
Qed.

(** The first loop, however it ends: it touches nothing but the disk, and
    of the disk nothing but files of old entries, which it unlinks. *)
Lemma collect_old_any now items acc w o w' :
  collect_old E now items acc w = (o, w') ->
  w' = with_disk (disk w') w
  /\ (forall p, disk w' !! p = disk w !! p
                \/ (disk w' !! p = None /\ old_file now items p))
  /\ (forall ids, o = Ok ids -> ids = acc ++ old_ids now items).
Proof.
  revert acc w. induction items as [|[file_id info] rest IH]; intros acc w.
  - intros [= <- <-]. split_and!.
    + by rewrite with_disk_same.
    + intros p. by left.
    + intros ids [= <-]. unfold old_ids. cbn. by rewrite app_nil_r.
  - cbn [collect_old]. unfold old_ids. cbn [List.filter snd].
    assert (forall p, old_file now rest p -> old_file now ((file_id, info) :: rest) p)
      as Hmore.
    { intros p (k & i & Hin & Hold & Hp). exists k, i. split_and!; [by right|done..]. }
    destruct (is_old now info) eqn:Hold.
    2: { intros H. apply IH in H as (Hw & Hdisk & Hids). split_and!; [done| |done].
         intros p. destruct (Hdisk p) as [?|[? ?]]; [by left|right; split; auto]. }
    unfold bind at 1, os_path_exists.
    destruct (disk w !! path info) as [data|] eqn:Hfile.
    + unfold bind at 1, when, os_remove. rewrite Hfile.
      destruct (may_remove E (path info)).
      * intros H. apply IH in H as (Hw & Hdisk & Hids). fields in Hw. fields in Hdisk.
        split_and!.
        -- rewrite Hw. by destruct w.
        -- intros p. destruct (Hdisk p) as [Hp|[Hp Hin]]; [|right; split; auto].
           destruct (decide (path info = p)) as [<-|Hne].
           ++ right. split; [by rewrite Hp, lookup_delete_eq|].
              exists file_id, info. split_and!; [left|done..].
           ++ left. by rewrite Hp, lookup_delete_ne.
        -- intros ids Ho. rewrite (Hids ids Ho). cbn [keys map fst].
           by rewrite <- app_assoc.
      * intros [= <- <-]. split_and!; [by rewrite with_disk_same|by left|done].
    + unfold bind at 1, when, ret.
      intros H. apply IH in H as (Hw & Hdisk & Hids). split_and!; [done| |].
      * intros p. destruct (Hdisk p) as [?|[? ?]]; [by left|right; split; auto].
      * intros ids Ho. rewrite (Hids ids Ho). cbn [keys map fst].
        by rewrite <- app_assoc.
Qed.

(** One pass, however it goes: it returns; it read the clock once; the
    dictionary holds the entries that are not old, or, when an unlink was
    refused, all it held; no file but one of an old entry is touched. *)
Lemma cleanup_pass_any w :
  let now := clock E (clock_reads w) in
  NoDup (keys (generated_files w)) ->
  exists w',
    cleanup_pass E w = (Ok tt, w')
    /\ clock_reads w' = S (clock_reads w)
    /\ prompts_sent w' = prompts_sent w
    /\ uuids_drawn w' = uuids_drawn w
    /\ ((generated_files w' = young_items now (generated_files w)
         /\ logged w' = logged w)
        \/ (generated_files w' = generated_files w
            /\ exists e, logged w' = logged w ++ [LogError "Error in cleanup task: " e]))
    /\ (forall p, disk w' !! p = disk w !! p
                  \/ (disk w' !! p = None /\ old_file now (generated_files w) p)).
Proof.
  intros now Hnd. unfold cleanup_pass, try_except.
  unfold bind at 1, datetime_now. unfold bind at 1, files_items. fields. fold now.
  unfold bind at 1.
  destruct (collect_old E now (generated_files w) []
              (with_clock_reads (S (clock_reads w)) w)) as [[ids|e] w1] eqn:Hrun;
    apply collect_old_any in Hrun as (Hw1 & Hdisk & Hids); fields in Hdisk.
  - rewrite (Hids ids eq_refl). cbn [app].
    rewrite (forget_old now [] (generated_files w)); [|done|by rewrite Hw1].
    eexists. split; [reflexivity|]. rewrite Hw1. fields. split_and!; try done. by left.
  - unfold log. eexists. split; [reflexivity|]. rewrite Hw1. fields.
    split_and!; try done. right. split; [done|]. by exists e.
Qed.

End Loop.

(** X9.  A pass that no unlink refuses, on a dictionary of any size: the
    entries older than an hour at the one reading of the clock are gone,
    every other entry is as it was; the file of each old entry is gone and
    every other file is as it was; nothing is logged. *)
Theorem cleanup_pass_keeps_exactly_the_young (E : Env) (w : world) :
  let now := clock E (clock_reads w) in
  NoDup (keys (generated_files w)) ->
  unlinkable E now (generated_files w) ->
  exists w',
    cleanup_pass E w = (Ok tt, w')
    /\ (forall file_id,
          lookup_key file_id (generated_files w')
          = match lookup_key file_id (generated_files w) with
            | Some info => if is_old now info then None else Some info
            | None => None
            end)
    /\ (forall p, old_file now (generated_files w) p -> disk w' !! p = None)
    /\ (forall p,
          (forall file_id info,
             (file_id, info) ∈ generated_files w -> is_old now info = true ->
             path info <> p) ->
          disk w' !! p = disk w !! p)
    /\ logged w' = logged w.
Proof.
  intros now Hnd Hun. eexists. split; [by apply cleanup_pass_ok|]. fields. fold now.
  split_and!; [| | |done].
  - intros file_id. unfold young_items. rewrite lookup_key_filter by done.
    destruct (lookup_key file_id (generated_files w)) as [info|]; [|done].
    cbn [snd]. by destruct (is_old now info).
  - intros p Hp.
    destruct (unlink_old_lookup now (generated_files w) (disk w) p)
      as [[_ Hgone]|[Hnone _]]; [done|].
    destruct Hp as (k & i & Hin & Hold & Hpath). by destruct (Hnone k i).
  - intros p Hp.
    destruct (unlink_old_lookup now (generated_files w) (disk w) p)
      as [[(k & i & Hin & Hold & Hpath) _]|[_ Hsame]]; [|done].
    by destruct (Hp k i).
Qed.

(** Three decks, the second just under an hour old. *)
Definition three_decks : world :=
  World [("a", deck_a); ("c", deck_c); ("b", deck_b)]
    (<["temp_files/a.pptx" := Pptx []]>
       (<["temp_files/b.pptx" := Pptx []]> (<["temp_files/c.pptx" := Pptx []]> ∅)))
    [] 0 0 [].

Lemma cleanup_pass_keeps_exactly_the_young_witness :
  exists w',
    cleanup_pass offline three_decks = (Ok tt, w')
    /\ (forall file_id,
          lookup_key file_id (generated_files w')
          = match lookup_key file_id (generated_files three_decks) with
            | Some info =>
                if is_old (clock offline (clock_reads three_decks)) info
                then None else Some info
            | None => None
            end)
    /\ (forall p,
          old_file (clock offline (clock_reads three_decks))
            (generated_files three_decks) p ->
          disk w' !! p = None)
    /\ (forall p,
          (forall file_id info,
             (file_id, info) ∈ generated_files three_decks ->
             is_old (clock offline (clock_reads three_decks)) info = true ->
             path info <> p) ->
          disk w' !! p = disk three_decks !! p)
    /\ logged w' = logged three_decks.
Proof.
  apply (cleanup_pass_keeps_exactly_the_young offline three_decks).
  - apply (bool_decide_unpack _). vm_compute. reflexivity.
  - repeat constructor.
Defined.

(** X10.  The loop does not end, whatever the operating system refuses:
    any number of turns returns, each turn having read the clock once.
    Meanwhile no entry is added or changed, an entry that is not old at
    any of the readings stays, no file appears, a file that belongs to no
    entry is left alone, and the service is not called. *)
Theorem cleanup_old_files_never_stops (E : Env) (turns : nat) (w : world) :
  NoDup (keys (generated_files w)) ->
  exists w',
    cleanup_old_files E turns w = (Ok tt, w')
    /\ clock_reads w' = (clock_reads w + turns)%nat
    /\ NoDup (keys (generated_files w'))
    /\ (forall file_id info,
          lookup_key file_id (generated_files w') = Some info ->
          lookup_key file_id (generated_files w) = Some info)
    /\ (forall file_id info,
          lookup_key file_id (generated_files w) = Some info ->
          (forall j, (j < turns)%nat ->
                     is_old (clock E (clock_reads w + j)) info = false) ->
          lookup_key file_id (generated_files w') = Some info)
    /\ (forall p data, disk w' !! p = Some data -> disk w !! p = Some data)
    /\ (forall p,
          (forall file_id info, (file_id, info) ∈ generated_files w -> path info <> p) ->
          disk w' !! p = disk w !! p)
    /\ prompts_sent w' = prompts_sent w.
Proof.
  revert w. induction turns as [|turns IH]; intros w Hnd.
  - exists w. split; [done|]. split_and!; try done; lia.
  - cbn [cleanup_old_files].
    destruct (cleanup_pass_any E w Hnd)
      as (w1 & Hpass & Hreads & Hsent & _ & Hfiles & Hdisk).
    assert (NoDup (keys (generated_files w1))) as Hnd1.
    { destruct Hfiles as [[-> _]|[-> _]]; [by apply NoDup_keys_filter|done]. }
    assert (forall file_id info,
              lookup_key file_id (generated_files w1) = Some info ->
              lookup_key file_id (generated_files w) = Some info) as Hsub.
    { intros k i. destruct Hfiles as [[-> _]|[-> _]]; [|done].
      unfold young_items. rewrite lookup_key_filter by done.
      destruct (lookup_key k (generated_files w)) as [i'|]; [|done].
      cbn [snd]. by destruct (is_old _ i'). }
    destruct (IH w1 Hnd1) as (w' & Hrun & Hreads' & Hnd' & Hsub' & Hstay' & Hno' & Hleft'
                              & Hsent').
    exists w'. split; [by erewrite bind_ok by exact Hpass|].
    split_and!.
    + lia.
    + done.
    + auto.
    + intros k i Hk Hyoung. apply Hstay'.
      * destruct Hfiles as [[-> _]|[-> _]]; [|done].
        unfold young_items. rewrite lookup_key_filter, Hk by done. cbn [snd].
        specialize (Hyoung 0%nat). rewrite Nat.add_0_r in Hyoung.
        rewrite Hyoung by lia. done.
      * intros j Hj. rewrite Hreads.
        replace (S (clock_reads w) + j)%nat with (clock_reads w + S j)%nat by lia.
        apply Hyoung. lia.
    + intros p data Hp. apply Hno' in Hp.
      destruct (Hdisk p) as [<-|[Hgone _]]; [done|congruence].
    + intros p Hp. rewrite Hleft'.
      * destruct (Hdisk p) as [?|[_ (k & i & Hin & _ & Hpath)]]; [done|].
        by destruct (Hp k i).
      * intros k i Hin. apply (Hp k).
        destruct Hfiles as [[Hf _]|[Hf _]]; rewrite Hf in Hin; [|done].
        by eapply elem_of_filter_items.
    + congruence.
Qed.

Lemma cleanup_old_files_never_stops_witness :
  exists w',
    cleanup_old_files stubborn 3 two_old = (Ok tt, w')
    /\ clock_reads w' = (clock_reads two_old + 3)%nat
    /\ NoDup (keys (generated_files w'))
    /\ (forall file_id info,
          lookup_key file_id (generated_files w') = Some info ->
          lookup_key file_id (generated_files two_old) = Some info)
    /\ (forall file_id info,
          lookup_key file_id (generated_files two_old) = Some info ->
          (forall j, (j < 3)%nat ->
                     is_old (clock stubborn (clock_reads two_old + j)) info = false) ->
          lookup_key file_id (generated_files w') = Some info)
    /\ (forall p data, disk w' !! p = Some data -> disk two_old !! p = Some data)
    /\ (forall p,
          (forall file_id info,
             (file_id, info) ∈ generated_files two_old -> path info <> p) ->
          disk w' !! p = disk two_old !! p)
    /\ prompts_sent w' = prompts_sent two_old.
Proof.
  apply (cleanup_old_files_never_stops stubborn 3 two_old).
  apply (bool_decide_unpack _). vm_compute. reflexivity.
Defined.

(** ** Downloads, case by case *)

Lemma lookup_key_remove_key_ne {A} k other (d : list (string * A)) :
  other <> k -> lookup_key other (remove_key k d) = lookup_key other d.
Proof.
  intros Hne. induction d as [|[k' v] d IH]; cbn [remove_key lookup_key]; [done|].
  destruct (String.eqb_spec k k') as [<-|Hk].
  - by destruct (String.eqb_spec other k).
  - cbn [lookup_key]. by rewrite IH.
Qed.

Lemma lookup_key_remove_key_eq {A} k (d : list (string * A)) :
  NoDup (keys d) -> lookup_key k (remove_key k d) = None.
Proof.
  induction d as [|[k' v] d IH]; cbn [remove_key lookup_key keys map fst]; [done|].
  intros [Hk Hd]%NoDup_cons. destruct (String.eqb_spec k k') as [->|Hne].
  - by apply lookup_key_None.
  - cbn [lookup_key]. destruct (String.eqb_spec k k'); [done|]. by apply IH.
Qed.

Lemma elem_of_remove_key {A} k (d : list (string * A)) kv :
  kv ∈ remove_key k d -> kv ∈ d.
Proof.
  induction d as [|[k' v] d IH]; cbn [remove_key]; [done|].
  destruct (String.eqb k k'); [by right|].
  intros [->|H]%elem_of_cons; [left|right; by apply IH].
Qed.

Section Fetch.

Context (E : Env).

(** The six ways through [download_file]. *)
Inductive fetched (file_id : string) (w : world) : outcome response -> world -> Prop :=
| Unknown :
    lookup_key file_id (generated_files w) = None ->
    fetched file_id w (Raise (HTTPException 500))
      (with_logged (logged w ++ [download_log file_id 404]) w)
| FileGone info :
    lookup_key file_id (generated_files w) = Some info ->
    disk w !! path info = None ->
    fetched file_id w (Raise (HTTPException 500))
      (with_logged (logged w ++ [download_log file_id 404])
         (with_files (remove_key file_id (generated_files w)) w))
| Served info data sent :
    lookup_key file_id (generated_files w) = Some info ->
    disk w !! path info = Some data ->
    clock E (clock_reads w) - created_at info <= one_hour ->
    disk w !! under_root_path E (path info) = Some sent ->
    fetched file_id w
      (Ok (Response 200
             (Attachment (under_root_path E (path info)) (filename info)
                pptx_mimetype)))
      (with_clock_reads (S (clock_reads w)) w)
| NotSent info data :
    lookup_key file_id (generated_files w) = Some info ->
    disk w !! path info = Some data ->
    clock E (clock_reads w) - created_at info <= one_hour ->
    disk w !! under_root_path E (path info) = None ->
    fetched file_id w (Raise (HTTPException 500))
      (with_logged (logged w ++ [not_sent_log E file_id info])
         (with_clock_reads (S (clock_reads w)) w))
| Expired info data :
    lookup_key file_id (generated_files w) = Some info ->
    disk w !! path info = Some data ->
    one_hour < clock E (clock_reads w) - created_at info ->
    may_remove E (path info) = true ->
    fetched file_id w (Raise (HTTPException 500))
      (with_logged (logged w ++ [download_log file_id 410])
         (with_files (remove_key file_id (generated_files w))
            (with_disk (delete (path info) (disk w))
               (with_clock_reads (S (clock_reads w)) w))))
| Refused info data :
    lookup_key file_id (generated_files w) = Some info ->
    disk w !! path info = Some data ->
    one_hour < clock E (clock_reads w) - created_at info ->
    may_remove E (path info) = false ->
    fetched file_id w (Raise (HTTPException 500))
      (with_logged
         (logged w
          ++ [LogError ("Error downloading file " +:+ file_id +:+ ": ")
                (OSError (path info))])
         (with_clock_reads (S (clock_reads w)) w)).

Lemma download_file_fetched w file_id :
  fetched file_id w (download_file E file_id w).1 (download_file E file_id w).2.
Proof.
  destruct (lookup_key file_id (generated_files w)) as [info|] eqn:Hentry.
  2: { rewrite download_file_unknown by done. by constructor. }
  destruct (disk w !! path info) as [data|] eqn:Hfile.
  2: { erewrite download_file_file_gone by done. by econstructor. }
  destruct (Z.ltb_spec one_hour (clock E (clock_reads w) - created_at info)) as [Hold|Hyoung].
  2: { destruct (disk w !! under_root_path E (path info)) as [sent|] eqn:Hsent.
       - erewrite download_file_served by done. by econstructor.
       - erewrite download_file_not_sent by done. by econstructor. }
  destruct (may_remove E (path info)) eqn:Hcan.
  { erewrite download_file_expired by done. by econstructor. }
  assert (download_file E file_id w
          = (Raise (HTTPException 500),
             with_logged
               (logged w
                ++ [LogError ("Error downloading file " +:+ file_id +:+ ": ")
                      (OSError (path info))])
               (with_clock_reads (S (clock_reads w)) w))) as ->.
  { unfold download_file, try_except, bind, when, files_contains, files_getitem,
      files_delitem, os_path_exists, os_remove, datetime_now, send_file, abort,
      raise, ret, log, has_key; fields.
    apply Z.ltb_lt in Hold.
    repeat (progress (rewrite ?Hentry, ?Hfile, ?Hold, ?Hcan; fields)). done. }
  by econstructor.
Qed.

End Fetch.


(** X12.  A download touches its own entry and the file of that entry and
    nothing else: every other entry and every other file is as before, no
    entry and no file appears, the service is not called, and at most one
    line is logged. *)
Theorem download_touches_only_its_own_entry (E : Env) (file_id : string) (w : world) :
  let w' := snd (serve E (ToDownload file_id) w) in
  (forall other, other <> file_id ->
                 lookup_key other (generated_files w')
                 = lookup_key other (generated_files w))
  /\ (forall entry, entry ∈ generated_files w' -> entry ∈ generated_files w)
  /\ (forall p,
        (forall info, lookup_key file_id (generated_files w) = Some info ->
                      path info <> p) ->
        disk w' !! p = disk w !! p)
  /\ (forall p data, disk w' !! p = Some data -> disk w !! p = Some data)
  /\ prompts_sent w' = prompts_sent w
  /\ uuids_drawn w' = uuids_drawn w
  /\ (logged w' = logged w \/ exists line, logged w' = logged w ++ [line]).
Proof.
  cbn [serve]. unfold full_dispatch_request.
  pose proof (download_file_fetched E w file_id) as Hrun.
  destruct (download_file E file_id w) as [o w1]. cbn [fst snd] in Hrun.
  assert (snd (match o with
               | Ok r => (r, w1)
               | Raise e => (handle_user_exception e, w1)
               end) = w1) as -> by by destruct o.
  destruct Hrun as [Hentry|info Hentry Hfile|info data sent Hentry Hfile Hage Hsent
                    |info data Hentry Hfile Hage Hsent
                    |info data Hentry Hfile Hage Hcan|info data Hentry Hfile Hage Hcan];
    fields; split_and!; try done; eauto.
  - intros other Hne. by apply lookup_key_remove_key_ne.
  - intros entry. apply elem_of_remove_key.
  - intros other Hne. by apply lookup_key_remove_key_ne.
  - intros entry. apply elem_of_remove_key.
  - intros p Hp. apply lookup_delete_ne. by apply Hp.
  - intros p d Hp. by apply lookup_delete_Some in Hp as [_ ?].
Qed.

(** X13.  The first download of an entry older than an hour whose file can
    be unlinked removes the entry and the file, and logs the 410 it
    raised inside the [try]; a second download of the same identifier
    finds the dictionary without it and logs a 404.  Both are answered
    with the body of the 500 handler. *)
Theorem expired_entry_is_evicted_by_its_first_download
    (E : Env) (file_id : string) (w : world) (info : file_info) (data : fdata) :
  NoDup (keys (generated_files w)) ->
  lookup_key file_id (generated_files w) = Some info ->
  disk w !! path info = Some data ->
  one_hour < clock E (clock_reads w) - created_at info ->
  may_remove E (path info) = true ->
  exists w1,
    serve E (ToDownload file_id) w = (internal_error, w1)
    /\ logged w1 = logged w ++ [download_log file_id 410]
    /\ lookup_key file_id (generated_files w1) = None
    /\ disk w1 !! path info = None
    /\ serve E (ToDownload file_id) w1
       = (internal_error, with_logged (logged w1 ++ [download_log file_id 404]) w1).
Proof.
  intros Hnd Hentry Hfile Hage Hcan. cbn [serve]. unfold full_dispatch_request.
  erewrite download_file_expired by done. eexists. split; [reflexivity|]. fields.
  assert (lookup_key file_id (remove_key file_id (generated_files w)) = None) as Hgone
    by by apply lookup_key_remove_key_eq.
  split_and!; [done|done|apply lookup_delete_eq|].
  by rewrite download_file_unknown.
Qed.

Lemma expired_entry_is_evicted_by_its_first_download_witness :
  exists w1,
    serve offline (ToDownload "a") one_old = (internal_error, w1)
    /\ logged w1 = logged one_old ++ [download_log "a" 410]
    /\ lookup_key "a" (generated_files w1) = None
    /\ disk w1 !! path deck_a = None
    /\ serve offline (ToDownload "a") w1
       = (internal_error, with_logged (logged w1 ++ [download_log "a" 404]) w1).
Proof.
  apply (expired_entry_is_evicted_by_its_first_download offline "a" one_old deck_a
           (Pptx [])).
  - apply (bool_decide_unpack _). vm_compute. reflexivity.
  - reflexivity.
  - reflexivity.
  - vm_compute. reflexivity.
  - reflexivity.
Defined.

(** What a request may not do unless it is a [POST /generate-deck]. *)
Definition adds_nothing (w w' : world) : Prop :=
  (forall entry, entry ∈ generated_files w' -> entry ∈ generated_files w)
  /\ (forall p data, disk w' !! p = Some data -> disk w !! p = Some data)
  /\ prompts_sent w' = prompts_sent w
  /\ uuids_drawn w' = uuids_drawn w.

(** X14.  Only [generate_deck] registers a deck, writes a file, draws an
    identifier or calls the service: after a health check, a download, a
    request for an unknown URL or one with the wrong method, every entry
    and every file was there before, unchanged. *)
Theorem only_generate_deck_adds (E : Env) (route : routed) (w : world) :
  (forall req, route <> ToGenerateDeck req) ->
  adds_nothing w (snd (serve E route w)).
Proof.
  intros Hroute. destruct route as [|req|file_id| |]; [|by destruct (Hroute req)|..];
    cbn [serve]; unfold full_dispatch_request.
  - by cbn.
  - pose proof (download_file_fetched E w file_id) as Hrun.
    destruct (download_file E file_id w) as [o w1]. cbn [fst snd] in Hrun.
    assert (snd (match o with
                 | Ok r => (r, w1)
                 | Raise e => (handle_user_exception e, w1)
                 end) = w1) as -> by by destruct o.
    destruct Hrun; unfold adds_nothing; fields; split_and!; try done;
      try (intros entry; apply elem_of_remove_key).
    intros p d Hp. by apply lookup_delete_Some in Hp as [_ ?].
  - by cbn.
  - by cbn.
Qed.

Lemma only_generate_deck_adds_witness :
  adds_nothing old_and_young (snd (serve offline (ToDownload "a") old_and_young)).
Proof. by apply (only_generate_deck_adds offline (ToDownload "a") old_and_young). Defined.

(** ** What a statement leaves alone *)

Section Frames.

Variable R : world -> world -> Prop.
Hypothesis R_refl : forall w, R w w.
Hypothesis R_trans : forall w1 w2 w3, R w1 w2 -> R w2 w3 -> R w1 w3.

(** However [m] ends, the state it leaves is related to the one it found. *)
Definition keeps {A} (m : M A) : Prop :=
  forall w o w', m w = (o, w') -> R w w'.

Lemma keeps_ret {A} (a : A) : keeps (ret a).
Proof. intros w o w' [= _ <-]. apply R_refl. Qed.

Lemma keeps_raise {A} e : keeps (raise (A := A) e).
Proof. intros w o w' [= _ <-]. apply R_refl. Qed.

Lemma keeps_lift {A} (r : exn + A) : keeps (lift r).
Proof. destruct r; [apply keeps_raise|apply keeps_ret]. Qed.

Lemma keeps_bind {A B} (m : M A) (k : A -> M B) :
  keeps m -> (forall a, keeps (k a)) -> keeps (bind m k).
Proof.
  intros Hm Hk w o w'. unfold bind. destruct (m w) as [[a|e] w1] eqn:Hrun.
  - intros Hrest. eapply R_trans; [by eapply Hm|by eapply Hk].
  - intros [= _ <-]. by eapply Hm.
Qed.

Lemma keeps_try_except {A} (m : M A) h :
  keeps m -> (forall e, keeps (h e)) -> keeps (try_except m h).
Proof.
  intros Hm Hh w o w'. unfold try_except. destruct (m w) as [[a|e] w1] eqn:Hrun.
  - intros [= _ <-]. by eapply Hm.
  - intros Hrest. eapply R_trans; [by eapply Hm|by eapply Hh].
Qed.

Lemma keeps_when b m : keeps m -> keeps (when b m).
Proof. intros Hm. destruct b; [done|apply keeps_ret]. Qed.

End Frames.

(** Nothing but the log differs. *)
Definition logs_only (w w' : world) : Prop := exists l, w' = with_logged l w.

Lemma logs_only_refl w : logs_only w w.
Proof. exists (logged w). by destruct w. Qed.

Lemma logs_only_trans w1 w2 w3 : logs_only w1 w2 -> logs_only w2 w3 -> logs_only w1 w3.
Proof. intros [l1 ->] [l2 ->]. by exists l2. Qed.

Lemma keeps_log r : keeps logs_only (log r).
Proof. intros w o w' [= _ <-]. by eexists. Qed.

Lemma keeps_os_path_exists p : keeps logs_only (os_path_exists p).
Proof. intros w o w' [= _ <-]. apply logs_only_refl. Qed.

Ltac logs_only_step :=
  lazymatch goal with
  | |- keeps _ (bind _ _) => apply (keeps_bind _ logs_only_trans); [|intros ?]
  | |- keeps _ (ret _) => apply (keeps_ret _ logs_only_refl)
  | |- keeps _ (raise _) => apply (keeps_raise _ logs_only_refl)
  | |- keeps _ (lift _) => apply (keeps_lift _ logs_only_refl)
  | |- keeps _ (try_except _ _) => apply (keeps_try_except _ logs_only_trans); [|intros ?]
  | |- keeps _ (log _) => apply keeps_log
  | |- keeps _ (os_path_exists _) => apply keeps_os_path_exists
  | |- keeps _ (if ?b then _ else _) => destruct b
  | |- keeps _ (match ?x with _ => _ end) => destruct x
  end.

Section Quiet.

Context (E : Env).

Lemma keeps_add_picture p : keeps logs_only (add_picture E p).
Proof.
  intros w o w'. unfold add_picture.
  destruct (disk w !! p) as [[b|deck]|]; [destruct (image_ok E b)| |];
    intros [= _ <-]; apply logs_only_refl.
Qed.

Lemma keeps_render_slide i slide_content logo_path :
  keeps logs_only (render_slide E i slide_content logo_path).
Proof.
  unfold render_slide. cbn zeta.
  repeat first [apply keeps_add_picture | logs_only_step].
Qed.

Lemma keeps_render_slides i slides_content logo_path :
  keeps logs_only (render_slides E i slides_content logo_path).
Proof.
  revert i. induction slides_content as [|slide_content rest IH]; intros i;
    cbn [render_slides].
  - logs_only_step.
  - logs_only_step; [apply keeps_render_slide|].
    logs_only_step; [apply IH|]. logs_only_step.
Qed.

(** [create_powerpoint] builds the deck in memory: however it ends, the
    dictionary, the disk and the counters are as before. *)
Lemma keeps_create_powerpoint slide_data company_name logo_path :
  keeps logs_only (create_powerpoint E slide_data company_name logo_path).
Proof.
  unfold create_powerpoint.
  repeat first [apply keeps_render_slides | logs_only_step].
Qed.

End Quiet.

(** ** Requests to generate a deck *)

(** X15.  A request of content type JSON whose body is no JSON object,
    because it does not parse or because it is an array, a string, a
    number, a boolean or [null], is answered 500 with the text of the
    exception in the [error] string; the one thing that has changed is the
    log, by the error. *)
Theorem body_that_is_no_object_answers_500 (E : Env) (req : request) (w : world) :
  is_json req = true ->
  (forall d, get_json req <> Some (JObj d)) ->
  exists e,
    serve E (ToGenerateDeck req) w
    = (jsonify [("error", JStr ("Internal server error: " +:+ exn_text E e))] 500,
       with_logged (logged w ++ [LogError "Error generating deck: " e]) w)
    /\ e = match get_json req with
           | Some v => AttributeError (py_type v) "get"
           | None => HTTPException 400
           end.
Proof.
  intros Hjson Hbody. cbn [serve]. unfold full_dispatch_request, generate_deck.
  rewrite Hjson. destruct (get_json req) as [v|] eqn:Hv.
  - exists (AttributeError (py_type v) "get"). split; [|done].
    destruct v; try reflexivity. by destruct (Hbody members).
  - by exists (HTTPException 400).
Qed.

Lemma body_that_is_no_object_answers_500_witness :
  exists e,
    serve offline (ToGenerateDeck (Request true (Some (JArr [JStr "Acme"])))) nothing
    = (jsonify [("error", JStr ("Internal server error: " +:+ exn_text offline e))] 500,
       with_logged (logged nothing ++ [LogError "Error generating deck: " e]) nothing)
    /\ e = match get_json (Request true (Some (JArr [JStr "Acme"]))) with
           | Some v => AttributeError (py_type v) "get"
           | None => HTTPException 400
           end.
Proof.
  apply (body_that_is_no_object_answers_500 offline
           (Request true (Some (JArr [JStr "Acme"]))) nothing).
  - reflexivity.
  - intros d. discriminate.
Defined.

(** The state [m] leaves, however it ends, satisfies [Q]. *)
Definition leaves {A} (m : M A) (w : world) (Q : world -> Prop) : Prop :=
  forall o w', m w = (o, w') -> Q w'.

Lemma leaves_ret {A} (a : A) w (Q : world -> Prop) : Q w -> leaves (ret a) w Q.
Proof. intros H o w' [= _ <-]. exact H. Qed.

Lemma leaves_raise {A} e w (Q : world -> Prop) : Q w -> leaves (raise (A := A) e) w Q.
Proof. intros H o w' [= _ <-]. exact H. Qed.

Lemma leaves_bind {A B} (m : M A) (k : A -> M B) w (Q : world -> Prop) :
  (forall o w1, m w = (o, w1) ->
                match o with Ok a => leaves (k a) w1 Q | Raise _ => Q w1 end) ->
  leaves (bind m k) w Q.
Proof.
  intros H o w'. unfold bind. specialize (H (m w).1 (m w).2).
  destruct (m w) as [[a|e] w1]; cbn [fst snd] in H.
  - by apply H.
  - intros [= _ <-]. by apply H.
Qed.

Lemma leaves_run {A B} (m : M A) (k : A -> M B) w a w1 (Q : world -> Prop) :
  m w = (Ok a, w1) -> leaves (k a) w1 Q -> leaves (bind m k) w Q.
Proof. intros Hm H o w'. rewrite (bind_ok _ _ _ _ _ Hm). apply H. Qed.

Lemma leaves_lift_bind {A B} (r : exn + A) (k : A -> M B) w (Q : world -> Prop) :
  Q w -> (forall a, leaves (k a) w Q) -> leaves (bind (lift r) k) w Q.
Proof.
  intros HQ H. destruct r as [e|a].
  - intros o w' [= _ <-]. exact HQ.
  - apply H.
Qed.

(** A path that does not begin with the name of the upload folder (paths
    are compared as strings: [..] is not resolved). *)
Definition outside_upload_folder (p : string) : Prop :=
  forall f, p <> UPLOAD_FOLDER +:+ "/" +:+ f.

(** What one request to generate a deck can have done to the state. *)
Definition deck_frame (w w' : world) : Prop :=
  (prompts_sent w' = prompts_sent w
   \/ exists p, prompts_sent w' = prompts_sent w ++ [p])
  /\ (generated_files w' = generated_files w
      \/ exists file_id info,
           generated_files w' = set_key file_id info (generated_files w))
  /\ (forall p, outside_upload_folder p -> disk w' !! p = disk w !! p)
  /\ (uuids_drawn w' <= uuids_drawn w + 2)%nat
  /\ (clock_reads w' <= clock_reads w + 2)%nat.

Lemma deck_frame_logged w w' l : deck_frame w w' -> deck_frame w (with_logged l w').
Proof. done. Qed.

Section Generate.

Context (E : Env).

Lemma save_base64_image_cases v f w :
  exists logo_path w',
    save_base64_image E v f w = (Ok logo_path, w')
    /\ ((logo_path = None /\ logs_only w w')
        \/ (logo_path = Some (os_path_join UPLOAD_FOLDER f)
            /\ exists data,
                 w' = with_disk (<[os_path_join UPLOAD_FOLDER f := data]> (disk w)) w)).
Proof.
  unfold save_base64_image, try_except, bind, lift, write_file, log, ret, raise.
  destruct (decode_image E v) as [e|image_data].
  { eexists _, _. split; [reflexivity|]. left. split; [done|]. by eexists. }
  destruct (may_write E _).
  - eexists _, _. split; [reflexivity|]. right. split; [done|]. by eexists.
  - eexists _, _. split; [reflexivity|]. left. split; [done|]. by eexists.
Qed.

(** The state after the logo, if any, was saved. *)
Definition logo_saved (w : world) (logo_path : option string) (w1 : world) : Prop :=
  prompts_sent w1 = prompts_sent w
  /\ generated_files w1 = generated_files w
  /\ (forall p, outside_upload_folder p -> disk w1 !! p = disk w !! p)
  /\ (uuids_drawn w1 <= uuids_drawn w + 1)%nat
  /\ clock_reads w1 = clock_reads w
  /\ (forall p, logo_path = Some p ->
                exists name, p = UPLOAD_FOLDER +:+ "/" +:+ ("logo_" +:+ name)).

Lemma logo_step_saved (logo_base64 : json) w o w1 :
  (if truthy logo_base64
   then u <- uuid_uuid4 E;; save_base64_image E logo_base64 ("logo_" +:+ hex u +:+ ".png")
   else ret None) w = (o, w1) ->
  exists logo_path, o = Ok logo_path /\ logo_saved w logo_path w1.
Proof.
  destruct (truthy logo_base64).
  2: { intros [= <- <-]. exists None. split; [done|]. unfold logo_saved.
       split_and!; try done; lia. }
  unfold bind, uuid_uuid4. fields.
  match goal with |- context [save_base64_image E ?v ?f ?w0] =>
    destruct (save_base64_image_cases v f w0) as (lp & w' & -> & Hcase)
  end.
  intros [= <- <-]. exists lp. split; [done|].
  destruct Hcase as [[-> [l ->]]|[-> [data ->]]]; unfold logo_saved; fields.
  - split_and!; try done; lia.
  - split_and!; try done; try lia.
    + intros p Hout. apply lookup_insert_ne. intros <-. eapply Hout; reflexivity.
    + intros p [= <-]. by eexists.
Qed.

(** Removing the logo, however it ends, unlinks at most the logo. *)
Lemma logo_removed (logo_path : option string) w o w1 :
  (match logo_path with
   | Some p =>
       if negb (String.eqb p "") then
         there <- os_path_exists p;;
         when there (os_remove E p)
       else ret tt
   | None => ret tt
   end) w = (o, w1) ->
  w1 = w \/ exists p, logo_path = Some p /\ w1 = with_disk (delete p (disk w)) w.
Proof.
  destruct logo_path as [p|]; [|intros [= _ <-]; by left].
  destruct (negb (String.eqb p "")); [|intros [= _ <-]; by left].
  unfold bind, os_path_exists, when, os_remove, ret.
  destruct (disk w !! p) as [data|] eqn:Hfile; cbv beta iota;
    [|intros [= _ <-]; by left].
  rewrite Hfile.
  destruct (may_remove E p); intros [= _ <-]; [right; by exists p|by left].
Qed.

Ltac frame_ok :=
  unfold deck_frame; fields;
  repeat match goal with H : _ = _ |- _ => rewrite H end;
  split_and!; try lia; try done; try (by left); try (right; by eauto).

Lemma generate_deck_frame req w : leaves (generate_deck E req) w (deck_frame w).
Proof.
  assert (deck_frame w w) as Hstart.
  { unfold deck_frame. split_and!; try lia; try done; by left. }
  intros o w'. unfold generate_deck, try_except.
  match goal with |- context [match ?body w with _ => _ end] =>
    assert (leaves body w (deck_frame w)) as Hbody;
      [|specialize (Hbody (body w).1 (body w).2);
        destruct (body w) as [[r|e] w1]; cbn [fst snd] in Hbody]
  end.
  2: { intros [= _ <-]. by apply Hbody. }
  2: { intros [= _ <-]. by apply deck_frame_logged, Hbody. }
  destruct (is_json req); [|by apply leaves_ret].
  destruct (get_json req) as [data|]; [|by intros o' w'' [= _ <-]].
  eapply leaves_run; [reflexivity|].
  destruct data as [| | | | | |d]; try (by apply leaves_raise).
  eapply leaves_run; [reflexivity|].
  apply leaves_lift_bind; [done|intros verdict].
  destruct (negb (fst verdict)); [by apply leaves_ret|].
  do 5 (apply leaves_lift_bind; [done|intros ?]). cbn zeta.
  apply leaves_bind. intros o1 w1 Hlogo.
  apply logo_step_saved in Hlogo as (logo_path & -> & Hsaved).
  unfold logo_saved in Hsaved. fields in Hsaved.
  destruct Hsaved as (Hp & Hf & Hd & Hu & Hc & Hin).
  eapply leaves_run; [reflexivity|].
  apply leaves_bind. intros o2 w2 Hgen.
  match type of Hgen with generate_slide_content E ?c ?i ?b ?p ?u ?w0 = _ =>
    destruct (generate_slide_content_run E c i b p u w0) as [lines Hrun]
  end.
  rewrite Hrun in Hgen. injection Hgen as <- <-. fields.
  eapply leaves_run; [reflexivity|].
  apply leaves_bind. intros o3 w3 Hprs.
  apply keeps_create_powerpoint in Hprs as [l3 ->].
  destruct o3 as [prs|e]; [|frame_ok].
  eapply leaves_run; [reflexivity|]. cbn zeta.
  apply leaves_bind. intros o4 w4. unfold write_file.
  match goal with |- context [may_write E ?p] => destruct (may_write E p) end;
    intros [= <- <-]; [|frame_ok].
  eapply leaves_run; [reflexivity|].
  eapply leaves_run; [reflexivity|].
  assert (forall p : string,
            outside_upload_folder p ->
            forall name data (d : gmap string fdata),
              d !! p = disk w !! p ->
              <[os_path_join UPLOAD_FOLDER ("sales_deck_" +:+ name) := data]> d !! p
              = disk w !! p) as Hdeck.
  { intros p Hout name data dsk <-. apply lookup_insert_ne. intros <-. eapply Hout; reflexivity. }
  apply leaves_bind. intros o5 w5 Hrm.
  apply logo_removed in Hrm as [->|(p & -> & ->)].
  - destruct o5 as [[]|e].
    2: { frame_ok. intros p Hout. fields. by apply Hdeck, Hd. }
    eapply leaves_run; [reflexivity|].
    apply leaves_lift_bind.
    { frame_ok. intros p Hout. fields. by apply Hdeck, Hd. }
    intros n. eapply leaves_run; [reflexivity|]. apply leaves_ret.
    frame_ok. intros p Hout. fields. by apply Hdeck, Hd.
  - destruct (Hin p eq_refl) as [f ->].
    assert (forall (q : string) (d : gmap string fdata),
              outside_upload_folder q ->
              d !! q = disk w !! q ->
              delete (UPLOAD_FOLDER +:+ "/" +:+ ("logo_" +:+ f)) d !! q = disk w !! q)
      as Hlogo.
    { intros q dsk Hout <-. apply lookup_delete_ne. intros <-. eapply Hout; reflexivity. }
    destruct o5 as [[]|e].
    2: { frame_ok. intros q Hout. fields. by apply Hlogo, Hdeck, Hd. }
    eapply leaves_run; [reflexivity|].
    apply leaves_lift_bind.
    { frame_ok. intros q Hout. fields. by apply Hlogo, Hdeck, Hd. }
    intros n. eapply leaves_run; [reflexivity|]. apply leaves_ret.
    frame_ok. intros q Hout. fields. by apply Hlogo, Hdeck, Hd.
Qed.

End Generate.

(** X16.  One request to generate a deck calls the service at most once
    and adds or replaces at most one entry of the dictionary, however the
    request ends; it draws at most two identifiers and reads the clock at
    most twice; and every file whose path does not begin with
    [temp_files/] is as it was. *)
Theorem generate_deck_calls_the_service_at_most_once
    (E : Env) (req : request) (w : world) :
  let w' := snd (serve E (ToGenerateDeck req) w) in
  (prompts_sent w' = prompts_sent w
   \/ exists p, prompts_sent w' = prompts_sent w ++ [p])
  /\ (generated_files w' = generated_files w
      \/ exists file_id info,
           generated_files w' = set_key file_id info (generated_files w))
  /\ (forall p, outside_upload_folder p -> disk w' !! p = disk w !! p)
  /\ (uuids_drawn w' <= uuids_drawn w + 2)%nat
  /\ (clock_reads w' <= clock_reads w + 2)%nat.
Proof.
  cbn [serve]. unfold full_dispatch_request.
  pose proof (generate_deck_frame E req w (generate_deck E req w).1
                (generate_deck E req w).2) as H.
  destruct (generate_deck E req w) as [[r|e] w']; by apply H.
Qed.

(** ** From the answer to the download *)

Lemma lookup_key_set_key {A} k (v : A) (d : list (string * A)) :
  lookup_key k (set_key k v d) = Some v.
Proof.
  induction d as [|[k' v'] d IH]; cbn [set_key lookup_key].
  - by rewrite String.eqb_refl.
  - destruct (String.eqb_spec k k') as [->|Hne]; cbn [lookup_key].
    + by rewrite String.eqb_refl.
    + destruct (String.eqb_spec k k'); [done|]. exact IH.
Qed.

Lemma post_run {A B} (m : M A) (k : A -> M B) w a w1 (Q : B -> world -> Prop) :
  m w = (Ok a, w1) -> post (k a) w1 Q -> post (bind m k) w Q.
Proof. intros Hm H b w'. rewrite (bind_ok _ _ _ _ _ Hm). apply H. Qed.

Section Issued.

Context (E : Env).

(** What the success object [r] says of the state [w'] it comes with:
    the entry under its [file_id] holds the path of the deck, the file
    name of the answer and the first of the two readings of the clock;
    the file at that path is the deck, with as many slides as
    [slides_generated]; and [expires_at] is an hour after the second
    reading. *)
Definition issued (w' : world) (r : response) (file_id file_name : string)
    (prs : list slide) (reading : nat) : Prop :=
  payload r
  = Json (JObj [("success", JBool true);
                ("file_id", JStr file_id);
                ("download_url", JStr ("/download/" +:+ file_id));
                ("filename", JStr file_name);
                ("slides_generated", JInt (Z.of_nat (length prs)));
                ("expires_at", JStr (isoformat E (clock E (S reading) + one_hour)))])
  /\ clock_reads w' = S (S reading)
  /\ lookup_key file_id (generated_files w')
     = Some (FileInfo (UPLOAD_FOLDER +:+ "/" +:+ file_name) file_name (clock E reading))
  /\ disk w' !! (UPLOAD_FOLDER +:+ "/" +:+ file_name) = Some (Pptx prs).

(** The deck of the answer is the rendering of the slide data that
    [generate_slide_content] returned for the stripped fields. *)
Definition renders (w : world) (req : request) (prs : list slide) : Prop :=
  exists d c i b p u,
    get_json req = Some (JObj d)
    /\ stripped d "company_name" = inr c
    /\ stripped d "industry" = inr i
    /\ stripped d "buyer_persona" = inr b
    /\ stripped d "main_pain_point" = inr p
    /\ stripped d "use_case" = inr u
    /\ plain_deck (slide_data_for E (length (prompts_sent w)) c i b p u)
       = inr (map no_picture prs)
    /\ forall j s, prs !! j = Some s -> j <> 0%nat -> picture s = None.

Lemma generate_deck_issues req w r w' :
  generate_deck E req w = (Ok r, w') ->
  status r = 200 ->
  exists file_id file_name prs reading,
    issued w' r file_id file_name prs reading /\ renders w req prs.
Proof.
  unfold generate_deck, try_except.
  match goal with |- context [match ?body w with _ => _ end] =>
    assert (post body w
              (fun r w' =>
                 status r = 200 ->
                 exists file_id file_name prs reading,
                   issued w' r file_id file_name prs reading /\ renders w req prs))
      as Hbody;
      [|destruct (body w) as [[r1|e] w1] eqn:Hrun]
  end.
  2: { intros [= <- <-]. by eapply Hbody. }
  2: { unfold bind, log, ret. intros [= <- <-] [=]. }
  destruct (is_json req); [|apply post_ret; intros [=]].
  destruct (get_json req) as [data|] eqn:Hdata; [|apply post_bind, post_raise].
  eapply post_run; [reflexivity|].
  destruct data as [| | | | | |d]; try apply post_raise.
  eapply post_run; [reflexivity|].
  apply post_bind, post_lift. intros verdict _. cbn beta.
  destruct (negb (fst verdict)); [apply post_ret; intros [=]|].
  apply post_bind, post_lift. intros c Hc. cbn beta.
  apply post_bind, post_lift. intros i Hi. cbn beta.
  apply post_bind, post_lift. intros b Hb. cbn beta.
  apply post_bind, post_lift. intros p Hp. cbn beta.
  apply post_bind, post_lift. intros u Hu. cbn beta zeta.
  apply post_bind. intros logo_path wa Hlogo.
  apply logo_step_saved in Hlogo as (lp & [= <-] & Hsaved).
  unfold logo_saved in Hsaved. fields in Hsaved.
  destruct Hsaved as (Hsent & _ & _ & _ & _ & Hin).
  eapply post_run; [reflexivity|].
  apply post_bind, post_generate_slide_content. intros wc. fields. rewrite Hsent.
  apply post_any. intros _ wd.
  apply post_bind. intros prs we Hprs.
  apply create_powerpoint_returns in Hprs as (Hdeck & Hpic & _).
  pose proof (plain_deck_count _ _ Hdeck) as Hcount. rewrite length_map in Hcount.
  eapply post_run; [reflexivity|]. cbn zeta.
  set (file_id := dashed (uuid4 E (uuids_drawn we))).
  set (name := replace " " "_" c +:+ "_" +:+ file_id +:+ ".pptx").
  change (os_path_join UPLOAD_FOLDER ("sales_deck_" +:+ name))
    with (UPLOAD_FOLDER +:+ "/" +:+ ("sales_deck_" +:+ name)).
  apply post_bind. intros [] wf. unfold write_file.
  destruct (may_write E _); [|done]. intros [= <-].
  eapply post_run; [reflexivity|].
  eapply post_run; [reflexivity|].
  apply post_bind. intros [] wg Hrm. apply logo_removed in Hrm.
  eapply post_run; [reflexivity|].
  apply post_bind, post_lift. intros n Hn.
  assert (n = Z.of_nat (length prs)) as -> by congruence.
  eapply post_run; [reflexivity|]. apply post_ret. intros _.
  exists file_id, ("sales_deck_" +:+ name), prs, (clock_reads we).
  split; [|by exists d, c, i, b, p, u].
  unfold issued. fields.
  destruct Hrm as [->|(q & -> & ->)]; fields; split_and!; try done.
  - apply lookup_key_set_key.
  - apply lookup_insert_eq.
  - apply lookup_key_set_key.
  - destruct (Hin q eq_refl) as [x ->].
    rewrite lookup_delete_ne by apply logo_is_no_deck. apply lookup_insert_eq.
Qed.

End Issued.


(** A valid body with a logo that decodes to an image. *)
Definition with_logo : list (string * json) :=
  five_fields "Acme" ++ [("logo_base64", JStr "data:image/png;base64,aGk=")].


(** The titles of the fallback deck. *)
Definition fallback_titles (company_name : string) : list string :=
  ["Welcome to " +:+ company_name; "The Challenge"; "Our Solution"; "Product Overview";
   "Use Case"; "Success Story"; "Investment & ROI"; "Next Steps"].

Lemma plain_deck_fallback_titles c i p u :
  exists prs,
    plain_deck (fallback_content c i p u) = inr prs
    /\ map title prs = fallback_titles c
    /\ map layout prs = [0; 1; 1; 1; 1; 1; 1; 1]%nat.
Proof. eexists. split_and!; reflexivity. Qed.

(** X18.  With the service down, a request that is answered 200 has
    produced the fallback deck: the file of the answer holds eight slides
    with the fixed titles, the first of them [Welcome to] and the stripped
    company name, and [slides_generated] is 8. *)
Theorem service_down_still_yields_eight_slides
    (E : Env) (req : request) (w w' : world) (r : response) :
  serve E (ToGenerateDeck req) w = (r, w') ->
  status r = 200 ->
  (forall q, exists e, chat_completion E (length (prompts_sent w)) q = inl e) ->
  exists d c file_name prs,
    get_json req = Some (JObj d)
    /\ stripped d "company_name" = inr c
    /\ slides_generated r = Some (JInt 8)
    /\ lookup_key "filename" (match payload r with Json (JObj m) => m | _ => [] end)
       = Some (JStr file_name)
    /\ disk w' !! (UPLOAD_FOLDER +:+ "/" +:+ file_name) = Some (Pptx prs)
    /\ map title prs = fallback_titles c
    /\ map layout prs = [0; 1; 1; 1; 1; 1; 1; 1]%nat.
Proof.
  cbn [serve]. unfold full_dispatch_request.
  destruct (generate_deck_outcomes E req w) as (r1 & w1 & Hrun & _).
  rewrite Hrun. intros [= <- <-] Hstatus Hdown.
  destruct (generate_deck_issues E req w r1 w1 Hrun Hstatus)
    as (file_id & file_name & prs & reading & (Hr & _ & _ & Hfile)
        & d & c & i & b & p & u & Hd & Hc & _ & _ & _ & _ & Hdeck & _).
  exists d, c, file_name, prs.
  unfold slide_data_for in Hdeck. destruct (Hdown (prompt c i b p u)) as [e He].
  rewrite He in Hdeck.
  destruct (plain_deck_fallback_titles c i p u) as (prs0 & Hprs0 & Htitles & Hlayouts).
  rewrite Hprs0 in Hdeck. injection Hdeck as ->.
  assert (map title prs = fallback_titles c) as Ht
    by (rewrite <- Htitles, map_map; reflexivity).
  assert (map layout prs = [0; 1; 1; 1; 1; 1; 1; 1]%nat) as Hl
    by (rewrite <- Hlayouts, map_map; reflexivity).
  assert (length prs = 8%nat) as Hlen.
  { rewrite <- (length_map title), Ht. reflexivity. }
  unfold slides_generated. rewrite Hr. cbn [lookup_key String.eqb Ascii.eqb Bool.eqb].
  rewrite Hlen. by split_and!.
Qed.

Lemma service_down_still_yields_eight_slides_witness :
  exists d c file_name prs,
    get_json (Request true (Some (JObj with_bad_logo))) = Some (JObj d)
    /\ stripped d "company_name" = inr c
    /\ slides_generated
         (fst (serve offline (ToGenerateDeck (Request true (Some (JObj with_bad_logo))))
                 nothing))
       = Some (JInt 8)
    /\ lookup_key "filename"
         (match
            payload
              (fst (serve offline
                      (ToGenerateDeck (Request true (Some (JObj with_bad_logo))))
                      nothing))
          with
          | Json (JObj m) => m
          | _ => []
          end)
       = Some (JStr file_name)
    /\ disk
         (snd (serve offline (ToGenerateDeck (Request true (Some (JObj with_bad_logo))))
                 nothing))
       !! (UPLOAD_FOLDER +:+ "/" +:+ file_name)
       = Some (Pptx prs)
    /\ map title prs = fallback_titles c
    /\ map layout prs = [0; 1; 1; 1; 1; 1; 1; 1]%nat.
Proof.
  apply (service_down_still_yields_eight_slides offline
           (Request true (Some (JObj with_bad_logo))) nothing
           (snd (serve offline (ToGenerateDeck (Request true (Some (JObj with_bad_logo))))
                   nothing))
           (fst (serve offline (ToGenerateDeck (Request true (Some (JObj with_bad_logo))))
                   nothing))).
  - vm_compute. reflexivity.
  - vm_compute. reflexivity.
  - intros q. exists (ServiceError "connection refused"). reflexivity.
Defined.

(** ** A reply that is JSON but no object *)

Section Reply.

Context (E : Env).

Lemma create_powerpoint_no_object v company_name logo_path w :
  (forall members, v <> JObj members) ->
  create_powerpoint E v company_name logo_path w
  = (Raise (AttributeError (py_type v) "get"),
     with_logged
       (logged w
        ++ [LogError "Error creating PowerPoint: " (AttributeError (py_type v) "get")])
       w).
Proof. intros Hv. destruct v; try reflexivity. by destruct (Hv members). Qed.

End Reply.

(** X19.  The fallback stands in for a reply that does not decode, not
    for one that decodes to something else than an object: what
    [generate_slide_content] returns is then the decoded value, on which
    [create_powerpoint] raises, and the request is answered 500.  The
    service has been called once, and no deck is registered. *)
Theorem reply_that_is_no_object_answers_500
    (E : Env) (w : world) (d : list (string * json)) (c i b p u reply : string)
    (v : json) :
  validate_input d = inr (true, "") ->
  stripped d "company_name" = inr c ->
  stripped d "industry" = inr i ->
  stripped d "buyer_persona" = inr b ->
  stripped d "main_pain_point" = inr p ->
  stripped d "use_case" = inr u ->
  chat_completion E (length (prompts_sent w)) (prompt c i b p u) = inr reply ->
  parse_reply E (strip reply) = inr v ->
  (forall members, v <> JObj members) ->
  exists w' earlier,
    serve E (ToGenerateDeck (Request true (Some (JObj d)))) w
    = (jsonify
         [("error",
           JStr ("Internal server error: "
                 +:+ exn_text E (AttributeError (py_type v) "get")))]
         500,
       w')
    /\ generated_files w' = generated_files w
    /\ prompts_sent w' = prompts_sent w ++ [prompt c i b p u]
    /\ logged w'
       = earlier
         ++ [LogError "Error creating PowerPoint: " (AttributeError (py_type v) "get");
             LogError "Error generating deck: " (AttributeError (py_type v) "get")].
Proof.
  intros Hvalid Hc Hi Hb Hp Hu Hreply Hparse Hv.
  set (logo_base64 := match lookup_key "logo_base64" d with
                      | Some x => x
                      | None => JStr ""
                      end).
  destruct ((if truthy logo_base64
             then u <- uuid_uuid4 E;;
                  save_base64_image E logo_base64 ("logo_" +:+ hex u +:+ ".png")
             else ret None) (with_logged (logged w ++ [received d]) w))
    as [o1 w1] eqn:Hlogo.
  pose proof (logo_step_saved E _ _ _ _ Hlogo) as (logo_path & -> & Hsaved).
  unfold logo_saved in Hsaved. fields in Hsaved.
  destruct Hsaved as (Hsent & Hfiles & _).
  destruct (generate_slide_content_run E c i b p u
              (with_logged
                 (logged w1 ++ [LogInfo "Generating slide content with GPT-4..."]) w1))
    as [lines Hgen].
  fields in Hgen. unfold slide_data_for in Hgen. rewrite Hsent, Hreply, Hparse in Hgen.
  cbn [serve]. unfold full_dispatch_request, generate_deck.
  erewrite try_except_raise; cycle 1.
  { cbn [is_json get_json].
    step by reflexivity.
    step by reflexivity.
    step by (unfold lift; rewrite Hvalid; reflexivity).
    cbn [fst snd negb].
    step by (unfold lift; rewrite Hc; reflexivity).
    step by (unfold lift; rewrite Hi; reflexivity).
    step by (unfold lift; rewrite Hb; reflexivity).
    step by (unfold lift; rewrite Hp; reflexivity).
    step by (unfold lift; rewrite Hu; reflexivity).
    fold logo_base64.
    step by exact Hlogo.
    step by reflexivity.
    step by exact Hgen.
    step by reflexivity.
    apply bind_raise. by apply create_powerpoint_no_object. }
  unfold bind, log, ret. fields. eexists _, _. split; [reflexivity|]. fields.
  split_and!; [exact Hfiles|reflexivity|].
  rewrite <- app_assoc. reflexivity.
Qed.

(** The service answers with an empty JSON array. *)
Definition listy : Env := {|
  json_loads := fun s => if String.eqb s "[]" then Some (JArr []) else None;
  b64decode := b64decode offline;
  image_ok := image_ok offline;
  chat_completion := fun _ _ => inr "[]";
  uuid4 := uuid4 offline;
  clock := clock offline;
  isoformat := isoformat offline;
  may_write := may_write offline;
  may_remove := may_remove offline;
  under_root_path := under_root_path offline;
  exn_text := exn_text offline
|}.

Lemma reply_that_is_no_object_answers_500_witness :
  exists w' earlier,
    serve listy (ToGenerateDeck (Request true (Some (JObj (five_fields "Acme"))))) nothing
    = (jsonify
         [("error",
           JStr ("Internal server error: "
                 +:+ exn_text listy (AttributeError (py_type (JArr [])) "get")))]
         500,
       w')
    /\ generated_files w' = generated_files nothing
    /\ prompts_sent w'
       = prompts_sent nothing
         ++ [prompt "Acme" "Retail" "Head of Sales" "Slow quotes" "Quote automation"]
    /\ logged w'
       = earlier
         ++ [LogError "Error creating PowerPoint: "
               (AttributeError (py_type (JArr [])) "get");
             LogError "Error generating deck: "
               (AttributeError (py_type (JArr [])) "get")].
Proof.
  apply (reply_that_is_no_object_answers_500 listy nothing (five_fields "Acme")
           "Acme" "Retail" "Head of Sales" "Slow quotes" "Quote automation" "[]"
           (JArr [])).
  - vm_compute. reflexivity.
  - reflexivity.
  - reflexivity.
  - reflexivity.
  - reflexivity.
  - reflexivity.
  - reflexivity.
  - reflexivity.
  - intros members. discriminate.
Defined.

(** ** [get_openai_client] *)

(** The global [client] is [None] until a call of [OpenAI(...)] returns.
    A client is known by the number of the constructor call that built
    it; [construct n] is what the call number [n] raises, if it raises. *)
Module Client.

Record state := State {
  client : option nat;
  constructor_calls : nat;
  client_log : list log_record
}.

Section Client.

Variable construct : nat -> option exn.

Definition get_openai_client (s : state) : outcome nat * state :=
  match client s with
  | Some c => (Ok c, s)
  | None =>
      let n := constructor_calls s in
      match construct n with
      | None => (Ok n, State (Some n) (S n) (client_log s))
      | Some e =>
          (Raise e,
           State None (S n)
             (client_log s ++ [LogError "Failed to initialize OpenAI client: " e]))
      end
  end.

(** The state after [n] more calls. *)
Fixpoint after_calls (n : nat) (s : state) : state :=
  match n with
  | O => s
  | S n' => after_calls n' (snd (get_openai_client s))
  end.

Lemma after_calls_built n s c : client s = Some c -> after_calls n s = s.
Proof.
  intros Hc. induction n as [|n IH]; [done|].
  cbn [after_calls]. unfold get_openai_client. by rewrite Hc.
Qed.

End Client.

End Client.

(** X20.  The client is built once.  When a call of [get_openai_client]
    has returned a client, every later call returns that client, without
    a call of the constructor and without a line in the log.  When it
    has raised, the constructor had been called and had raised that
    exception, the error is logged, and [client] is still [None], so that
    the next call tries again. *)
Theorem client_is_built_once (construct : nat -> option exn) (s : Client.state) :
  let o := fst (Client.get_openai_client construct s) in
  let s1 := snd (Client.get_openai_client construct s) in
  match o with
  | Ok c =>
      Client.client s1 = Some c
      /\ (forall n,
            Client.get_openai_client construct (Client.after_calls construct n s1)
            = (Ok c, s1))
      /\ (Client.constructor_calls s1 <= S (Client.constructor_calls s))%nat
      /\ Client.client_log s1 = Client.client_log s
  | Raise e =>
      Client.client s = None
      /\ construct (Client.constructor_calls s) = Some e
      /\ Client.client s1 = None
      /\ Client.constructor_calls s1 = S (Client.constructor_calls s)
      /\ Client.client_log s1
         = Client.client_log s ++ [LogError "Failed to initialize OpenAI client: " e]
  end.
Proof.
  unfold Client.get_openai_client at 1 2 3.
  destruct (Client.client s) as [c|] eqn:Hc; cbn [fst snd].
  - split_and!; [done| |lia|done].
    intros n. rewrite (Client.after_calls_built construct n s c Hc).
    unfold Client.get_openai_client. by rewrite Hc.
  - destruct (construct (Client.constructor_calls s)) as [e|] eqn:He; cbn [fst snd].
    + by split_and!.
    + split_and!; [done| |cbn; lia|done].
      intros n. by rewrite (Client.after_calls_built construct n _
                              (Client.constructor_calls s)).
Qed.

(** ** A deck within its hour *)

Lemma keys_set_key {A} k (v : A) (d : list (string * A)) x :
  x ∈ keys (set_key k v d) -> x = k \/ x ∈ keys d.
Proof.
  induction d as [|[k' v'] d IH]; cbn [set_key keys map fst].
  - intros [->|H]%elem_of_cons; [by left|by right].
  - destruct (String.eqb_spec k k') as [->|Hne]; cbn [keys map fst].
    + intros [->|H]%elem_of_cons; [by left|right; by right].
    + intros [->|H]%elem_of_cons; [right; left|].
      destruct (IH H) as [->|?]; [by left|right; by right].
Qed.

Lemma NoDup_keys_set_key {A} k (v : A) (d : list (string * A)) :
  NoDup (keys d) -> NoDup (keys (set_key k v d)).
Proof.
  induction d as [|[k' v'] d IH]; cbn [set_key keys map fst].
  - intros _. apply NoDup_singleton.
  - intros [Hk Hd]%NoDup_cons.
    destruct (String.eqb_spec k k') as [->|Hne]; cbn [keys map fst].
    + by apply NoDup_cons.
    + apply NoDup_cons. split; [|by apply IH].
      intros [->|H]%keys_set_key; done.
Qed.

(** X21.  A deck is not reclaimed within its hour.  After a request that
    was answered 200, a cleanup pass returns; and if it reads the clock no
    more than an hour after the reading that dates the entry, the entry
    is still in the dictionary, unchanged. *)
Theorem fresh_deck_survives_a_cleanup_pass
    (E : Env) (req : request) (w w1 : world) (r : response) :
  NoDup (keys (generated_files w)) ->
  serve E (ToGenerateDeck req) w = (r, w1) ->
  status r = 200 ->
  exists file_id file_name prs reading w2,
    issued E w1 r file_id file_name prs reading
    /\ cleanup_pass E w1 = (Ok tt, w2)
    /\ (clock E (clock_reads w1) - clock E reading <= one_hour ->
        lookup_key file_id (generated_files w2)
        = Some (FileInfo (UPLOAD_FOLDER +:+ "/" +:+ file_name) file_name
                  (clock E reading))).
Proof.
  intros Hnd. cbn [serve]. unfold full_dispatch_request.
  destruct (generate_deck_outcomes E req w) as (r1 & w' & Hrun & _).
  rewrite Hrun. intros [= <- <-] Hstatus.
  destruct (generate_deck_issues E req w r1 w' Hrun Hstatus)
    as (file_id & file_name & prs & reading & Hissued & _).
  assert (NoDup (keys (generated_files w'))) as Hnd'.
  { destruct (generate_deck_frame E req w _ _ Hrun) as (_ & [->|(k & v & ->)] & _);
      [done|by apply NoDup_keys_set_key]. }
  destruct (cleanup_pass_any E w' Hnd') as (w2 & Hpass & _ & _ & _ & Hfiles & _).
  exists file_id, file_name, prs, reading, w2. split_and!; [done|done|].
  destruct Hissued as (_ & _ & Hentry & _). intros Hage.
  destruct Hfiles as [[-> _]|[-> _]]; [|done].
  unfold young_items. rewrite lookup_key_filter, Hentry by done.
  unfold is_old. cbn [snd created_at negb].
  destruct (Z.ltb_spec one_hour (clock E (clock_reads w') - clock E reading)); [lia|done].
Qed.

Lemma fresh_deck_survives_a_cleanup_pass_witness :
  exists file_id file_name prs reading w2,
    issued online
      (snd (serve online (ToGenerateDeck (Request true (Some (JObj with_logo)))) nothing))
      (fst (serve online (ToGenerateDeck (Request true (Some (JObj with_logo)))) nothing))
      file_id file_name prs reading
    /\ cleanup_pass online
         (snd (serve online (ToGenerateDeck (Request true (Some (JObj with_logo))))
                 nothing))
       = (Ok tt, w2)
    /\ (clock online
          (clock_reads
             (snd (serve online (ToGenerateDeck (Request true (Some (JObj with_logo))))
                     nothing)))
        - clock online reading <= one_hour ->
        lookup_key file_id (generated_files w2)
        = Some (FileInfo (UPLOAD_FOLDER +:+ "/" +:+ file_name) file_name
                  (clock online reading))).
Proof.
  apply (fresh_deck_survives_a_cleanup_pass online
           (Request true (Some (JObj with_logo))) nothing
           (snd (serve online (ToGenerateDeck (Request true (Some (JObj with_logo))))
                   nothing))
           (fst (serve online (ToGenerateDeck (Request true (Some (JObj with_logo))))
                   nothing))).
  - constructor.
  - vm_compute. reflexivity.
  - vm_compute. reflexivity.
Defined.
